(** * Upwork job analyzer: a shallow embedding of
      [Job-Applications/automation/scripts/job-analyzer.py]

    The analyzer turns raw job-post records (Python dictionaries) into
    [JobPost] values and folds a batch of them into a report.  Python
    integers are unbounded and are modelled by [Z]; dictionaries whose
    iteration order is observable (the taxonomy, the budget table, the
    counters built by the aggregator) are association lists in insertion
    order; the raw input record, which is only ever read with [.get], is a
    [gmap].  Text is modelled by [string], a sequence of 8-bit characters:
    the development covers ASCII text, on which [str.lower], the regular
    expression class [\d] and [int()] are the functions defined below;
    text with other characters (letters with a lower-case form outside
    ASCII, decimal digits of other scripts) is outside its scope.
    Conversions between integers and decimal strings obey the interpreter's
    default limit of 4300 digits ([sys.int_info.default_max_str_digits]). *)

From Stdlib Require Import ZArith List String Ascii Bool Lia Permutation Sorted.
From stdpp Require Import gmap strings sorting.
Import ListNotations.

Set Warnings "-register-all".

Local Open Scope string_scope.
Local Open Scope list_scope.
Local Open Scope Z_scope.

(** ** Exceptions and the error monad *)

Inductive exn : Type :=
| TypeError
| ValueError
| AttributeError
| OverflowError
| KeyError
| ZeroDivisionError.

Inductive result (A : Type) : Type :=
| Ok (a : A)
| Raise (e : exn).
Arguments Ok {A} a.
Arguments Raise {A} e.

#[global] Instance result_ret : MRet result := fun _ a => Ok a.

#[global] Instance result_bind : MBind result := fun _ _ k r =>
  match r with
  | Ok a => k a
  | Raise e => Raise e
  end.

#[global] Instance result_fmap : FMap result := fun _ _ f r =>
  match r with
  | Ok a => Ok (f a)
  | Raise e => Raise e
  end.

Definition is_ok {A : Type} (r : result A) : bool :=
  match r with Ok _ => true | Raise _ => false end.

(** ** Text primitives *)

Module Text.

Definition is_upper (c : ascii) : bool :=
  let n := N_of_ascii c in ((65 <=? n) && (n <=? 90))%N.

Definition lower_char (c : ascii) : ascii :=
  if is_upper c then ascii_of_N (N_of_ascii c + 32) else c.

(** [s.lower()] *)
Fixpoint lower (s : string) : string :=
  match s with
  | EmptyString => EmptyString
  | String c s' => String (lower_char c) (lower s')
  end.

(** [needle in hay] on strings: [needle] occurs as a contiguous slice. *)
Fixpoint contains (needle hay : string) : bool :=
  String.prefix needle hay ||
  match hay with
  | EmptyString => false
  | String _ hay' => contains needle hay'
  end.

(** [s.replace(c, '')] for a one-character [c]. *)
Fixpoint remove_char (c : ascii) (s : string) : string :=
  match s with
  | EmptyString => EmptyString
  | String d s' =>
      if Ascii.eqb d c then remove_char c s' else String d (remove_char c s')
  end.

Definition is_digit (c : ascii) : bool :=
  let n := N_of_ascii c in ((48 <=? n) && (n <=? 57))%N.

Definition digit_value (c : ascii) : Z := Z.of_N (N_of_ascii c) - 48.

(** The scanner behind [re.findall(r'\d+', s)]: [run] is the digit run
    being read (most recent digit first), emitted when it ends. *)
Definition emit (run : list ascii) : list string :=
  match run with
  | [] => []
  | _ => [string_of_list_ascii (rev run)]
  end.

Fixpoint scan_digits (run : list ascii) (s : string) : list string :=
  match s with
  | EmptyString => emit run
  | String c s' =>
      if is_digit c then scan_digits (c :: run) s'
      else emit run ++ scan_digits [] s'
  end.

Definition findall_digits (s : string) : list string := scan_digits [] s.

(** Value of a run of decimal digits read left to right. *)
Fixpoint decimal_from (acc : Z) (s : string) : Z :=
  match s with
  | EmptyString => acc
  | String c s' => decimal_from (10 * acc + digit_value c) s'
  end.

(** ASCII characters that [int()] skips around a number: tab, line feed,
    vertical tab, form feed, carriage return and the space. *)
Definition is_space (c : ascii) : bool :=
  let n := N_of_ascii c in
  (((9 <=? n) && (n <=? 13)) || (n =? 32))%N.

Fixpoint all_space (s : string) : bool :=
  match s with
  | EmptyString => true
  | String c s' => is_space c && all_space s'
  end.

Fixpoint lstrip (s : string) : string :=
  match s with
  | EmptyString => EmptyString
  | String c s' => if is_space c then lstrip s' else s
  end.

(** Digits of a base-10 literal: groups of digits separated by single
    underscores, optionally followed by white space only.  [after_digit]
    tells whether the previous character was a digit. *)
Fixpoint parse_decimal (acc : Z) (after_digit : bool) (s : string) : option Z :=
  match s with
  | EmptyString => if after_digit then Some acc else None
  | String c s' =>
      if is_digit c then parse_decimal (10 * acc + digit_value c) true s'
      else if Ascii.eqb c "_" && after_digit then parse_decimal acc false s'
      else if is_space c && after_digit && all_space s' then Some acc
      else None
  end.

(** The interpreter's default limit on the number of digits in a
    conversion between an integer and a decimal string. *)
Definition max_str_digits : Z := 4300.

(** Number of decimal digits in [s]; in a well-formed literal every digit
    belongs to the number. *)
Fixpoint count_digits (s : string) : Z :=
  match s with
  | EmptyString => 0
  | String c s' => (if is_digit c then 1 else 0) + count_digits s'
  end.

(** [int(s)] for a string [s]; [None] stands for [ValueError], which is
    raised for a malformed literal and for one of more than
    [max_str_digits] digits. *)
Definition int_of_str (s : string) : option Z :=
  if max_str_digits <? count_digits s then None
  else
    match lstrip s with
    | String "-" s' => Z.opp <$> parse_decimal 0 false s'
    | String "+" s' => parse_decimal 0 false s'
    | s' => parse_decimal 0 false s'
    end.

End Text.

(** ** Data model *)

(** Binary floating-point values as far as the analyzer can observe them:
    not-a-number, the infinities, and the finite value [m * 2^e]. *)
Inductive pyfloat : Type :=
| FNan
| FInf (negative : bool)
| FFinite (m e : Z).

(** The values a raw record can hold ([Dict[str, Any]]). *)
Inductive pyval : Type :=
| PNone
| PBool (b : bool)
| PInt (z : Z)
| PFloat (f : pyfloat)
| PStr (s : string)
| PList (items : list pyval)
| PDict (items : list (pyval * pyval)).

(** The [JobPost] dataclass.  The dataclass does not check its annotations:
    the four fields that [process_job_post] copies from the raw record
    without using them hold whatever value the record had. *)
Record JobPost : Type := {
  job_id : pyval;
  title : string;
  budget : string;
  timeline : pyval;
  skills_required : list string;
  client_location : pyval;
  client_history : string;
  proposals : Z;
  description : string;
  opportunity_score : Z;
  category : string;
  subcategory : string;
  notes : pyval
}.

(** Ordered dictionaries: association lists in insertion order. *)
Fixpoint dict_get {V : Type} (d : list (string * V)) (k : string) (default : V) : V :=
  match d with
  | [] => default
  | (k', v) :: d' => if String.eqb k' k then v else dict_get d' k default
  end.

(** ** Scorer *)

Definition budget_bonus : list (string * Z) :=
  [("micro", 0); ("small", 2); ("medium", 4); ("large", 6)].

Definition budget_factor (job : JobPost) : Z :=
  dict_get budget_bonus (budget job) 0.

Definition competition_factor (job : JobPost) : Z :=
  if proposals job <? 10 then 3
  else if proposals job <? 25 then 1
  else if 50 <? proposals job then -2
  else 0.

Definition skill_factor (job : JobPost) : Z :=
  let n := Z.of_nat (List.length (skills_required job)) in
  if 0 <? n then Z.min n 3 else 0.

Definition history_factor (job : JobPost) : Z :=
  if Text.contains "established" (Text.lower (client_history job)) then 1 else 0.

(** The running [score] just before the final clamp. *)
Definition unclamped_score (job : JobPost) : Z :=
  5 + budget_factor job + competition_factor job + skill_factor job
    + history_factor job.

Definition calculate_opportunity_score (job : JobPost) : Z :=
  Z.min (Z.max (unclamped_score job) 1) 10.

(** ** The analyzer object *)

(** Upper end of a budget range: a number or [float('inf')]. *)
Inductive bound : Type :=
| Finite (z : Z)
| Infinity.

Record UpworkJobAnalyzer : Type := {
  skill_keywords : list (string * list (string * list string));
  budget_ranges : list (string * (Z * bound))
}.

Definition __init__ : UpworkJobAnalyzer := {|
  skill_keywords := [
    ("web_development", [
       ("frontend", ["react"; "vue"; "angular"; "javascript"; "typescript"; "html"; "css"]);
       ("backend", ["node"; "python"; "php"; "laravel"; "django"; "express"]);
       ("fullstack", ["full-stack"; "fullstack"; "mern"; "mean"; "lamp"]);
       ("wordpress", ["wordpress"; "wp"; "elementor"; "gutenberg"; "woocommerce"])]);
    ("mobile_apps", [
       ("ios", ["ios"; "swift"; "objective-c"; "xcode"]);
       ("android", ["android"; "kotlin"; "java"; "android studio"]);
       ("react_native", ["react native"; "expo"]);
       ("flutter", ["flutter"; "dart"])]);
    ("ai_ml", [
       ("chatbots", ["chatbot"; "bot"; "conversational ai"; "dialogue"]);
       ("automation", ["automation"; "scraping"; "workflow"; "zapier"]);
       ("data_analysis", ["data analysis"; "pandas"; "numpy"; "visualization"]);
       ("machine_learning", ["machine learning"; "ai"; "tensorflow"; "pytorch"])]);
    ("design", [
       ("ui_ux", ["ui"; "ux"; "user experience"; "user interface"]);
       ("graphic_design", ["logo"; "branding"; "graphic design"; "photoshop"]);
       ("branding", ["brand identity"; "brand design"; "corporate identity"]);
       ("figma", ["figma"; "sketch"; "adobe xd"])])];
  budget_ranges := [
    ("micro", (0, Finite 50));
    ("small", (50, Finite 500));
    ("medium", (500, Finite 5000));
    ("large", (5000, Infinity))]
|}.

(** ** Python built-ins used by the pipeline *)

(** [job_data.get(key, default)] *)
Definition get (job_data : gmap string pyval) (key : string) (default : pyval) : pyval :=
  match job_data !! key with
  | Some v => v
  | None => default
  end.

(** [d[key]] on an ordered dictionary. *)
Fixpoint dict_index {V : Type} (d : list (string * V)) (key : string) : result V :=
  match d with
  | [] => Raise KeyError
  | (k, v) :: d' => if String.eqb k key then Ok v else dict_index d' key
  end.

(** Operand of [+] with a string on the other side: anything but a string
    makes the concatenation raise [TypeError]. *)
Definition str_operand (v : pyval) : result string :=
  match v with
  | PStr s => Ok s
  | _ => Raise TypeError
  end.

(** Receiver of a string method ([.lower()], [.replace()]): any other value
    has no such attribute. *)
Definition str_receiver (v : pyval) : result string :=
  match v with
  | PStr s => Ok s
  | _ => Raise AttributeError
  end.

(** Truth value of [v], as tested by [not v]. *)
Definition truthy (v : pyval) : bool :=
  match v with
  | PNone => false
  | PBool b => b
  | PInt z => negb (z =? 0)
  | PFloat (FFinite m _) => negb (m =? 0)
  | PFloat _ => true
  | PStr s => negb (String.eqb s "")
  | PList items => match items with [] => false | _ => true end
  | PDict items => match items with [] => false | _ => true end
  end.

(** [int(v)].  A string of more than [Text.max_str_digits] digits is
    refused with [ValueError], like a malformed one. *)
Definition int (v : pyval) : result Z :=
  match v with
  | PNone => Raise TypeError
  | PBool b => Ok (if b then 1 else 0)
  | PInt z => Ok z
  | PFloat FNan => Raise ValueError
  | PFloat (FInf _) => Raise OverflowError
  | PFloat (FFinite m e) =>
      Ok (if 0 <=? e then m * 2 ^ e else Z.quot m (2 ^ (- e)))
  | PStr s =>
      match Text.int_of_str s with
      | Some z => Ok z
      | None => Raise ValueError
      end
  | PList _ => Raise TypeError
  | PDict _ => Raise TypeError
  end.

(** Whether [str(v)] (and so the formatting of [v] in an f-string) raises
    [ValueError]: an integer of more than [Text.max_str_digits] decimal
    digits has no decimal representation under the default limit, be it on
    its own or inside a list or a dictionary.  Lists and dictionaries are
    taken to nest less deeply than the interpreter's recursion limit, as
    values read by [json.load] do. *)
Fixpoint str_raises (v : pyval) : bool :=
  match v with
  | PInt z => 10 ^ Text.max_str_digits <=? Z.abs z
  | PList items => existsb str_raises items
  | PDict items => existsb (fun '(k, x) => str_raises k || str_raises x) items
  | _ => false
  end.

(** [max(items, key=key)]: the first item whose key is not exceeded;
    [ValueError] on an empty sequence. *)
Fixpoint max_from {A : Type} (key : A -> Z) (best : A) (items : list A) : A :=
  match items with
  | [] => best
  | x :: items' => max_from key (if key best <? key x then x else best) items'
  end.

Definition max_by {A : Type} (key : A -> Z) (items : list A) : result A :=
  match items with
  | [] => Raise ValueError
  | x :: items' => Ok (max_from key x items')
  end.

(** [for x in xs: r.append(int(x))], stopping at the first exception. *)
Fixpoint each_int (xs : list string) : result (list Z) :=
  match xs with
  | [] => Ok []
  | x :: xs' =>
      n ← int (PStr x);
      ns ← each_int xs';
      Ok (n :: ns)
  end.

(** Iteration order of [list(set(xs))]: some enumeration, without
    repetition, of the elements of [xs].  The language does not fix which
    one, so the pipeline is parametric in it. *)
Class SetOrder : Type := {
  set_to_list : list string -> list string;
  set_to_list_NoDup : forall xs, NoDup (set_to_list xs);
  set_to_list_elem_of : forall xs x, x ∈ set_to_list xs <-> x ∈ xs
}.

(** ** Extractor *)

Section Pipeline.

Context `{SetOrder}.
Variable self : UpworkJobAnalyzer.

Definition matched (text : string) (keywords : list string) : list string :=
  List.filter (fun keyword => Text.contains keyword text) keywords.

(** The list [found_skills] at the end of the three nested loops. *)
Definition found_skills (text : string) : list string :=
  flat_map (fun '(_, subcategories) =>
              flat_map (fun '(_, keywords) => matched text keywords)
                       subcategories)
           (skill_keywords self).

Definition extract_skills (description title : pyval) : result (list string) :=
  d ← str_operand description;
  t ← str_operand title;
  let text := Text.lower (d +:+ " " +:+ t) in
  Ok (set_to_list (found_skills text)).

(** The loop over [budget_ranges]: first range containing [max_budget],
    ["large"] when none does. *)
Definition in_range (max_budget : Z) (range : Z * bound) : bool :=
  (fst range <=? max_budget) &&
  match snd range with
  | Finite max_val => max_budget <? max_val
  | Infinity => true
  end.

Fixpoint first_range (ranges : list (string * (Z * bound))) (max_budget : Z) : string :=
  match ranges with
  | [] => "large"
  | (range_name, range) :: ranges' =>
      if in_range max_budget range then range_name
      else first_range ranges' max_budget
  end.

Definition extract_budget (budget_text : pyval) : result string :=
  if negb (truthy budget_text) then Ok "unknown"
  else
    text ← str_receiver budget_text;
    let numbers := Text.findall_digits (Text.remove_char "," text) in
    match numbers with
    | [] => Ok "unknown"
    | _ =>
        values ← each_int numbers;
        max_budget ← max_by (fun n => n) values;
        Ok (first_range (budget_ranges self) max_budget)
    end.

(** ** Classifier *)

Definition keyword_hits (text : string) (keywords : list string) : Z :=
  Z.of_nat (List.length (matched text keywords)).

Definition category_score (text : string) (subcategories : list (string * list string)) : Z :=
  fold_left (fun score '(_, keywords) => score + keyword_hits text keywords)
            subcategories 0.

(** [category_scores] after the scoring loop. *)
Definition category_scores (text : string) : list (string * Z) :=
  map (fun '(category, subcategories) =>
         (category, category_score text subcategories))
      (skill_keywords self).

Definition subcategory_scores (text : string) (subcategories : list (string * list string))
  : list (string * Z) :=
  map (fun '(subcategory, keywords) => (subcategory, keyword_hits text keywords))
      subcategories.

(** [max(scores, key=scores.get)]: the keys are visited in insertion
    order and compared by the value stored under them. *)
Definition max_key (scores : list (string * Z)) : result string :=
  max_by (fun k => dict_get scores k 0) (map fst scores).

Definition categorize_job (skills : list string) (title description : pyval)
  : result (string * string) :=
  t ← str_operand title;
  d ← str_operand description;
  let text := Text.lower (t +:+ " " +:+ d) in
  main_category ← max_key (category_scores text);
  subcategories ← dict_index (skill_keywords self) main_category;
  subcategory ← max_key (subcategory_scores text subcategories);
  Ok (main_category, subcategory).

(** ** Building a job post *)

Definition with_score (job : JobPost) (score : Z) : JobPost :=
  {| job_id := job_id job; title := title job; budget := budget job;
     timeline := timeline job; skills_required := skills_required job;
     client_location := client_location job;
     client_history := client_history job; proposals := proposals job;
     description := description job; opportunity_score := score;
     category := category job; subcategory := subcategory job;
     notes := notes job |}.

(** The fields are computed in the order of the source.  [title] and
    [description] are strings once [extract_skills] has returned;
    [client_history] is first used by the scorer, whose [.lower()] raises
    on anything but a string. *)
Definition process_job_post (job_data : gmap string pyval) : result JobPost :=
  skills ← extract_skills (get job_data "description" (PStr ""))
                          (get job_data "title" (PStr ""));
  '(category, subcategory) ←
    categorize_job skills (get job_data "title" (PStr ""))
                   (get job_data "description" (PStr ""));
  title ← str_operand (get job_data "title" (PStr ""));
  budget ← extract_budget (get job_data "budget" (PStr ""));
  proposals ← int (get job_data "proposals" (PInt 0));
  description ← str_operand (get job_data "description" (PStr ""));
  client_history ← str_receiver (get job_data "client_history" (PStr ""));
  let job :=
    {| job_id := get job_data "id" (PStr "");
       title := title;
       budget := budget;
       timeline := get job_data "timeline" (PStr "");
       skills_required := skills;
       client_location := get job_data "client_location" (PStr "");
       client_history := client_history;
       proposals := proposals;
       description := description;
       opportunity_score := 0;
       category := category;
       subcategory := subcategory;
       notes := get job_data "notes" (PStr "") |} in
  Ok (with_score job (calculate_opportunity_score job)).

End Pipeline.

(** An iteration order to run the pipeline with. *)
#[global] Program Instance remove_dups_order : SetOrder := {|
  set_to_list xs := remove_dups xs |}.
Next Obligation. intros xs; apply NoDup_remove_dups. Qed.
Next Obligation. intros xs x; apply elem_of_remove_dups. Qed.

Definition sample_record : gmap string pyval :=
  list_to_map [
    ("title", PStr "React Developer Needed");
    ("description", PStr "Looking for a React developer to build a modern web application");
    ("budget", PStr "$500-1000");
    ("proposals", PInt 15);
    ("client_history", PStr "Established client")].

(** ** Aggregator *)

(** [d[k] = d.get(k, 0) + 1]: a key keeps the position it was inserted at. *)
Fixpoint dict_incr (d : list (string * Z)) (k : string) : list (string * Z) :=
  match d with
  | [] => [(k, 1)]
  | (k', v) :: d' =>
      if String.eqb k' k then (k', v + 1) :: d' else (k', v) :: dict_incr d' k
  end.

Definition _analyze_categories (jobs : list JobPost) : list (string * Z) :=
  fold_left (fun categories job =>
               dict_incr categories (category job +:+ "." +:+ subcategory job))
            jobs [].

Definition _analyze_budgets (jobs : list JobPost) : list (string * Z) :=
  fold_left (fun budgets job => dict_incr budgets (budget job)) jobs [].

(** Whether [n / d >= 2^k], for positive [n] and [d]. *)
Definition quotient_at_least_pow2 (n d k : Z) : bool :=
  if 0 <=? k then d * 2 ^ k <=? n else d <=? n * 2 ^ (- k).

(** [a / b] on integers: the quotient rounded to the nearest binary64 value,
    ties to even ([e] is the exponent of the quotient, [m] its 53-bit
    significand, fewer bits in the subnormal range); [OverflowError] when
    the rounded value is 2^1024 or more. *)
Definition true_divide (a b : Z) : result pyfloat :=
  if b =? 0 then Raise ZeroDivisionError
  else if a =? 0 then Ok (FFinite 0 0)
  else
    let n := Z.abs a in
    let d := Z.abs b in
    let k := Z.log2 n - Z.log2 d in
    let e := if quotient_at_least_pow2 n d k then k else k - 1 in
    let shift := Z.max (e - 52) (-1074) in
    let num := if 0 <=? shift then n else n * 2 ^ (- shift) in
    let den := if 0 <=? shift then d * 2 ^ shift else d in
    let q := num / den in
    let r := num mod den in
    let m := if 2 * r <? den then q
             else if den <? 2 * r then q + 1
             else if Z.even q then q else q + 1 in
    if (0 <=? shift) && (2 ^ 1024 <=? m * 2 ^ shift) then Raise OverflowError
    else Ok (FFinite (Z.sgn a * Z.sgn b * m) shift).

Record Distribution : Type := { low : Z; medium : Z; high : Z }.

Record Competition : Type := {
  distribution : Distribution;
  average_proposals : pyval
}.

(** One iteration of the loop of [_analyze_competition] on the pair
    (competitions, total_proposals). *)
Definition competition_step (state : Distribution * Z) (job : JobPost) : Distribution * Z :=
  let '(competitions, total_proposals) := state in
  let total_proposals := total_proposals + proposals job in
  if proposals job <? 10 then
    ({| low := low competitions + 1; medium := medium competitions;
        high := high competitions |}, total_proposals)
  else if proposals job <? 25 then
    ({| low := low competitions; medium := medium competitions + 1;
        high := high competitions |}, total_proposals)
  else
    ({| low := low competitions; medium := medium competitions;
        high := high competitions + 1 |}, total_proposals).

Definition competition_loop (jobs : list JobPost) : Distribution * Z :=
  fold_left competition_step jobs ({| low := 0; medium := 0; high := 0 |}, 0).

Definition _analyze_competition (jobs : list JobPost) : result Competition :=
  let '(competitions, total_proposals) := competition_loop jobs in
  average ←
    match jobs with
    | [] => Ok (PInt 0)
    | _ => PFloat <$> true_divide total_proposals (Z.of_nat (List.length jobs))
    end;
  Ok {| distribution := competitions; average_proposals := average |}.

(** [sorted(items, key=key, reverse=True)]: descending by key, items with
    equal keys in their original order. *)
Fixpoint insert_desc {A : Type} (key : A -> Z) (x : A) (sorted : list A) : list A :=
  match sorted with
  | [] => [x]
  | y :: sorted' =>
      if key x <? key y then y :: insert_desc key x sorted' else x :: sorted
  end.

Definition sorted_desc {A : Type} (key : A -> Z) (items : list A) : list A :=
  fold_right (insert_desc key) [] items.

(** The counter [skills] at the end of the double loop. *)
Definition skill_counts (jobs : list JobPost) : list (string * Z) :=
  fold_left (fun skills job => fold_left dict_incr (skills_required job) skills)
            jobs [].

Definition _analyze_skills (jobs : list JobPost) : list (string * Z) :=
  take 10 (sorted_desc snd (skill_counts jobs)).

Module Opportunity.
Record t : Type := {
  job_id : pyval;
  title : string;
  score : Z;
  budget : string;
  proposals : Z;
  category : string
}.
End Opportunity.

Definition opportunity_of (job : JobPost) : Opportunity.t := {|
  Opportunity.job_id := job_id job;
  Opportunity.title := title job;
  Opportunity.score := opportunity_score job;
  Opportunity.budget := budget job;
  Opportunity.proposals := proposals job;
  Opportunity.category := category job +:+ "." +:+ subcategory job
|}.

Definition _find_opportunities (jobs : list JobPost) : list Opportunity.t :=
  let opportunities :=
    map opportunity_of (List.filter (fun job => 7 <=? opportunity_score job) jobs) in
  sorted_desc Opportunity.score opportunities.

Record AnalysisReport : Type := {
  total_jobs : Z;
  categories : list (string * Z);
  budgets : list (string * Z);
  competition : Competition;
  top_skills : list (string * Z);
  opportunities : list Opportunity.t;
  processed_jobs : list JobPost
}.

(** The dictionary built at the end of [analyze_batch]; only the competition
    view can raise. *)
Definition build_analysis (jobs : list JobPost) : result AnalysisReport :=
  competition ← _analyze_competition jobs;
  Ok {| total_jobs := Z.of_nat (List.length jobs);
        categories := _analyze_categories jobs;
        budgets := _analyze_budgets jobs;
        competition := competition;
        top_skills := _analyze_skills jobs;
        opportunities := _find_opportunities jobs;
        processed_jobs := jobs |}.

(** A line printed by the exception handler: the record's [id] (or
    ["unknown"]) and the exception. *)
Definition log_line : Type := pyval * exn.

Section Batch.

Context `{SetOrder}.
Variable self : UpworkJobAnalyzer.

(** The exception handler.  Its f-string formats the record's [id] before
    anything is printed, and that can raise. *)
Definition report_error (job_data : gmap string pyval) (e : exn) : result log_line :=
  let job_id := get job_data "id" (PStr "unknown") in
  if str_raises job_id then Raise ValueError else Ok (job_id, e).

(** Body of the [for] loop, on the pair (processed_jobs, printed lines).  An
    exception raised by the handler is not caught. *)
Definition batch_step (state : list JobPost * list log_line)
           (job_data : gmap string pyval) : result (list JobPost * list log_line) :=
  let '(processed, printed) := state in
  match process_job_post self job_data with
  | Ok job => Ok (processed ++ [job], printed)
  | Raise e =>
      line ← report_error job_data e;
      Ok (processed, printed ++ [line])
  end.

(** The loop from a given state: the state it ends in and, when an
    exception ended it early, that exception. *)
Fixpoint loop_from (state : list JobPost * list log_line)
         (job_posts : list (gmap string pyval))
  : (list JobPost * list log_line) * option exn :=
  match job_posts with
  | [] => (state, None)
  | job_data :: job_posts' =>
      match batch_step state job_data with
      | Ok state' => loop_from state' job_posts'
      | Raise e => (state, Some e)
      end
  end.

Definition batch_loop (job_posts : list (gmap string pyval))
  : (list JobPost * list log_line) * option exn :=
  loop_from ([], []) job_posts.

(** What was printed, and the report or the exception that escapes. *)
Definition analyze_batch (job_posts : list (gmap string pyval))
  : list log_line * result AnalysisReport :=
  let '((processed, printed), escaped) := batch_loop job_posts in
  match escaped with
  | None => (printed, build_analysis processed)
  | Some e => (printed, Raise e)
  end.

End Batch.

(** ** Vocabulary of the statements *)

(** Number of jobs whose proposals count satisfies [p]. *)
Definition count_proposals (p : Z -> bool) (jobs : list JobPost) : Z :=
  Z.of_nat (List.length (List.filter (fun job => p (proposals job)) jobs)).

(** Competition buckets with [low] below 10, [medium] from 10 up to but not
    including [threshold], and [high] from [threshold] on. *)
Definition bucket_counts (threshold : Z) (jobs : list JobPost) : Distribution := {|
  low := count_proposals (fun p => p <? 10) jobs;
  medium := count_proposals (fun p => (10 <=? p) && (p <? threshold)) jobs;
  high := count_proposals (fun p => threshold <=? p) jobs
|}.

(** The records of a batch that are processed without an exception, as job
    posts, in batch order. *)
Definition successes `{SetOrder} (self : UpworkJobAnalyzer)
           (job_posts : list (gmap string pyval)) : list JobPost :=
  omap (fun job_data =>
          match process_job_post self job_data with
          | Ok job => Some job
          | Raise _ => None
          end) job_posts.

(** The lines printed for the records of a batch that raise. *)
Definition failures `{SetOrder} (self : UpworkJobAnalyzer)
           (job_posts : list (gmap string pyval)) : list log_line :=
  omap (fun job_data =>
          match process_job_post self job_data with
          | Ok _ => None
          | Raise e => Some (get job_data "id" (PStr "unknown"), e)
          end) job_posts.

(** The exception handler raises on [job_data]: the record raises and its
    [id] cannot be formatted. *)
Definition handler_raises `{SetOrder} (self : UpworkJobAnalyzer)
           (job_data : gmap string pyval) : bool :=
  negb (is_ok (process_job_post self job_data)) &&
  str_raises (get job_data "id" (PStr "unknown")).

(** The record's id is an integer of more than [Text.max_str_digits]
    digits. *)
Definition oversized_id (job_data : gmap string pyval) : bool :=
  match get job_data "id" (PStr "unknown") with
  | PInt z => 10 ^ Text.max_str_digits <=? Z.abs z
  | _ => false
  end.

(** The record's id is not a list or a dictionary. *)
Definition scalar_id (job_data : gmap string pyval) : bool :=
  match get job_data "id" (PStr "unknown") with
  | PList _ => false
  | PDict _ => false
  | _ => true
  end.

(** The record's id is absent, None, a boolean, a float, a string or an
    integer of at most [Text.max_str_digits] digits. *)
Definition plain_id (job_data : gmap string pyval) : bool :=
  scalar_id job_data && negb (oversized_id job_data).

(** A record that raises (its title is None) and whose id is 10^5000. *)
Definition unformattable_record : gmap string pyval :=
  <["id" := PInt (10 ^ 5000)]> {[ "title" := PNone ]}.

(** No record of the batch makes the exception handler raise. *)
Definition quiet `{SetOrder} (self : UpworkJobAnalyzer)
           (job_posts : list (gmap string pyval)) : Prop :=
  Forall (fun job_data => handler_raises self job_data = false) job_posts.

Definition sum_proposals (jobs : list JobPost) : Z :=
  fold_right (fun job total => proposals job + total) 0 jobs.

(** A record whose only field is a proposals count of 10^400. *)
Definition huge_proposals_record : gmap string pyval :=
  {[ "proposals" := PInt (10 ^ 400) ]}.

(** The numbers read from a budget text: the digit runs left after the
    commas are removed, as integers. *)
Definition budget_numbers (budget_text : string) : list Z :=
  map (Text.decimal_from 0) (Text.findall_digits (Text.remove_char "," budget_text)).

Fixpoint has_digit (s : string) : bool :=
  match s with
  | EmptyString => false
  | String c s' => Text.is_digit c || has_digit s'
  end.

(** The tier table as half-open intervals: micro [0,50), small [50,500),
    medium [500,5000), large [5000,oo). *)
Definition tier_of_amount (amount : Z) : string :=
  if amount <? 50 then "micro"
  else if amount <? 500 then "small"
  else if amount <? 5000 then "medium"
  else "large".

Definition tier_rank (tier : string) : Z :=
  if String.eqb tier "micro" then 0
  else if String.eqb tier "small" then 1
  else if String.eqb tier "medium" then 2
  else 3.

(** A non-empty string of decimal digits. *)
Definition digit_run (x : string) : Prop :=
  Forall (fun c => Text.is_digit c = true) (list_ascii_of_string x) /\ x <> "".

(** [s] without its commas. *)
Definition strip_commas (s : string) : string :=
  string_of_list_ascii
    (List.filter (fun c => negb (Ascii.eqb c ",")) (list_ascii_of_string s)).

(** [s] is empty or begins with a character that is not a digit. *)
Definition no_digit_first (s : string) : Prop :=
  match s with
  | EmptyString => True
  | String c _ => Text.is_digit c = false
  end.

(** [s] is empty or ends with a character that is not a digit. *)
Definition no_digit_last (s : string) : Prop :=
  s = "" \/ exists s' c, s = s' +:+ String c "" /\ Text.is_digit c = false.

(** [x] is a maximal run of decimal digits of [text]: a non-empty slice of
    digits with no digit next to it on either side. *)
Definition maximal_run (text x : string) : Prop :=
  digit_run x /\
  exists before after,
    text = before +:+ x +:+ after /\ no_digit_last before /\ no_digit_first after.

(** [n] is one of the numbers found in a budget text: the value of a
    maximal run of digits of the text without its commas. *)
Definition number_of (budget_text : string) (n : Z) : Prop :=
  exists x, maximal_run (strip_commas budget_text) x /\ n = Text.decimal_from 0 x.

(** Every number found in the budget text has at most [Text.max_str_digits]
    digits. *)
Definition within_limit (budget_text : string) : Prop :=
  forall x, maximal_run (strip_commas budget_text) x ->
            Z.of_nat (String.length x) <= Text.max_str_digits.

(** The budget text has a number of more than [Text.max_str_digits]
    digits. *)
Definition over_limit (budget_text : string) : Prop :=
  exists x, maximal_run (strip_commas budget_text) x /\
            Text.max_str_digits < Z.of_nat (String.length x).

(** The same, as a test on the digit runs the extractor reads. *)
Definition runs_short (budget_text : string) : bool :=
  forallb (fun x => Z.of_nat (String.length x) <=? Text.max_str_digits)
          (Text.findall_digits (Text.remove_char "," budget_text)).

(** The budget values [extract_budget] returns a tier for: a false value,
    or a string whose numbers are within the limit. *)
Definition budget_accepted (v : pyval) : Prop :=
  truthy v = false \/ exists text, v = PStr text /\ within_limit text.

(** A budget text made of 4301 nines. *)
Definition long_budget_text : string :=
  string_of_list_ascii (repeat "9"%char 4301).

(** A dictionary of scores computed entry by entry. *)
Definition scored {V : Type} (f : V -> Z) (d : list (string * V)) : list (string * Z) :=
  map (fun kv => (fst kv, f (snd kv))) d.

(** The skills of a batch in the order the double loop of
    [_analyze_skills] meets them. *)
Definition encountered (jobs : list JobPost) : list string :=
  flat_map skills_required jobs.

(** Position of the first occurrence of [k] in [l] (the length of [l] when
    there is none). *)
Fixpoint first_index (k : string) (l : list string) : nat :=
  match l with
  | [] => 0%nat
  | x :: l' => if String.eqb x k then 0%nat else S (first_index k l')
  end.

(** Number of occurrences of [k] in [l]. *)
Fixpoint occurrences (k : string) (l : list string) : Z :=
  match l with
  | [] => 0
  | x :: l' => (if String.eqb x k then 1 else 0) + occurrences k l'
  end.

(** Order of the skill table: by descending count, then by first
    encounter. *)
Definition ranks_before (l : list string) (a b : string * Z) : Prop :=
  snd b < snd a \/
  (snd a = snd b /\ (first_index (fst a) l < first_index (fst b) l)%nat).

(** Descending by [key], then by [R] among equal keys. *)
Definition desc_then {A : Type} (key : A -> Z) (R : A -> A -> Prop) (a b : A) : Prop :=
  key b < key a \/ (key a = key b /\ R a b).

(** Every keyword of the taxonomy, in declaration order. *)
Definition all_keywords (self : UpworkJobAnalyzer) : list string :=
  flat_map (fun '(_, subcategories) =>
              flat_map (fun '(_, keywords) => keywords) subcategories)
           (skill_keywords self).

(** [needle] is a contiguous slice of [hay]. *)
Definition occurs_in (needle hay : string) : Prop :=
  exists before after, hay = before +:+ needle +:+ after.

(** [String.prefix] and [Text.contains] decide being a prefix and being a
    slice. *)
Definition prefix_reflect (needle hay : string) :
  reflect (exists after, hay = needle +:+ after) (String.prefix needle hay).
Proof.
  apply iff_reflect. symmetry.
  revert hay. induction needle as [|a needle IH]; intros [|b hay]; cbn [String.prefix].
  - split; [intros _; now exists ""|reflexivity].
  - split; [intros _; now exists (String b hay)|reflexivity].
  - split; [discriminate|]. intros [after Hafter]. discriminate.
  - destruct (Ascii.ascii_dec a b) as [->|Hne].
    + rewrite IH. split; intros [after Hafter]; exists after.
      * now subst hay.
      * now injection Hafter.
    + split; [discriminate|]. intros [after Hafter].
      injection Hafter as Hab _. congruence.
Qed.

Definition contains_reflect (needle hay : string) :
  reflect (occurs_in needle hay) (Text.contains needle hay).
Proof.
  apply iff_reflect. symmetry.
  assert (Hprefix : forall hay', String.prefix needle hay' = true <->
                                 exists after, hay' = needle +:+ after)
    by (intros hay'; symmetry; apply reflect_iff, prefix_reflect).
  unfold occurs_in. induction hay as [|c hay IH]; cbn [Text.contains].
  - rewrite orb_false_r, Hprefix. split.
    + intros [after Hafter]. now exists "", after.
    + intros ([|b before] & after & Hhay); [now exists after|discriminate].
  - rewrite orb_true_iff, Hprefix, IH. split.
    + intros [[after Hafter]|(before & after & Hhay)].
      * now exists "", after.
      * exists (String c before), after. now subst hay.
    + intros ([|b before] & after & Hhay).
      * left. now exists after.
      * right. injection Hhay as -> Hhay. now exists before, after.
Qed.

#[global] Instance occurs_in_dec (needle hay : string) : Decision (occurs_in needle hay) :=
  match contains_reflect needle hay with
  | ReflectT _ yes => left yes
  | ReflectF _ no => right no
  end.

(** Number of the [keywords] that occur in [text] (a keyword listed twice
    counts twice). *)
Definition keyword_count (text : string) (keywords : list string) : Z :=
  Z.of_nat (List.length (filter (fun keyword => occurs_in keyword text) keywords)).

(** Keyword hits of a category: the sum of the counts of its
    subcategories. *)
Definition category_hits (text : string) (subcategories : list (string * list string)) : Z :=
  fold_right (fun s total => keyword_count text (snd s) + total) 0 subcategories.

Definition is_str (v : pyval) : bool :=
  match v with
  | PStr _ => true
  | _ => false
  end.

(** The budget tiers a job post can carry. *)
Definition tiers : list string := ["micro"; "small"; "medium"; "large"; "unknown"].

(** [subcategory] is declared under [category] in the taxonomy. *)
Definition declared_pair (self : UpworkJobAnalyzer) (category subcategory : string) : Prop :=
  exists subcategories keywords,
    (category, subcategories) ∈ skill_keywords self /\
    (subcategory, keywords) ∈ subcategories.

(** The key under which [_analyze_categories] counts a job. *)
Definition category_key (job : JobPost) : string :=
  category job +:+ "." +:+ subcategory job.

(** Sum of the counts of a counter. *)
Definition total_count (d : list (string * Z)) : Z :=
  fold_right (fun kv total => snd kv + total) 0 d.

(** The report of a batch without processed jobs. *)
Definition empty_report : AnalysisReport := {|
  total_jobs := 0;
  categories := [];
  budgets := [];
  competition := {| distribution := {| low := 0; medium := 0; high := 0 |};
                    average_proposals := PInt 0 |};
  top_skills := [];
  opportunities := [];
  processed_jobs := []
|}.

(** What the classifier needs of a taxonomy: at least one category, no
    category declared twice, and under each category at least one
    subcategory, none declared twice. *)
Definition well_formed (self : UpworkJobAnalyzer) : Prop :=
  skill_keywords self <> [] /\
  NoDup (map fst (skill_keywords self)) /\
  Forall (fun c => NoDup (map fst (snd c)) /\ snd c <> []) (skill_keywords self).

(** A job post to build examples from. *)
Definition sample_scored : JobPost := {|
  job_id := PStr "sample1"; title := "React Developer Needed"; budget := "medium";
  timeline := PStr "2 weeks"; skills_required := ["react"; "ui"];
  client_location := PStr "USA"; client_history := "Established client";
  proposals := 15;
  description := "Looking for a React developer to build a modern web application";
  opportunity_score := 10; category := "web_development";
  subcategory := "frontend"; notes := PStr ""
|}.

(** Number of jobs that list the skill [k]. *)
Definition jobs_requiring (k : string) (jobs : list JobPost) : Z :=
  Z.of_nat (List.length
              (List.filter (fun job => bool_decide (k ∈ skills_required job)) jobs)).

(** Case analysis on the result [r] that a bind is waiting for; [tac] closes
    the case where [r] raised. *)
Ltac step r tac :=
  destruct r as [?a|?e]; cbn [mbind result_bind]; [|solve [tac]].

(** * Properties *)

(** ** Scorer: bounds *)

Lemma dict_get_between (lo hi : Z) (d : list (string * Z)) (k : string) (default : Z) :
  Forall (fun kv => lo <= snd kv <= hi) d ->
  lo <= default <= hi ->
  lo <= dict_get d k default <= hi.
Proof.
  intros Hd Hdef.
  induction Hd as [|[k' v] d' Hv _ IH]; cbn [dict_get]; [exact Hdef|].
  destruct (String.eqb k' k); [exact Hv | exact IH].
Qed.

Lemma budget_factor_range (job : JobPost) : 0 <= budget_factor job <= 6.
Proof.
  apply dict_get_between; [|lia].
  unfold budget_bonus; repeat constructor; cbn; lia.
Qed.

Lemma competition_factor_range (job : JobPost) : -2 <= competition_factor job <= 3.
Proof.
  unfold competition_factor.
  repeat (destruct (_ <? _)); lia.
Qed.

Lemma skill_factor_range (job : JobPost) : 0 <= skill_factor job <= 3.
Proof.
  unfold skill_factor; cbv zeta.
  destruct (0 <? _) eqn:E; [apply Z.ltb_lt in E|]; lia.
Qed.

Lemma history_factor_range (job : JobPost) : 0 <= history_factor job <= 1.
Proof. unfold history_factor; destruct (Text.contains _ _); lia. Qed.

(** C1: for every job post, whatever its proposals count, budget text, skill
    list or client history, [calculate_opportunity_score] returns an integer
    between 1 and 10; in particular with ten million proposals. *)
Theorem score_bounds :
  (forall job : JobPost, 1 <= calculate_opportunity_score job <= 10) /\
  (forall id t b tl sk loc h d s c sc n,
      1 <= calculate_opportunity_score
             (Build_JobPost id t b tl sk loc h 10000000 d s c sc n) <= 10).
Proof.
  assert (H : forall job, 1 <= calculate_opportunity_score job <= 10)
    by (intros job; unfold calculate_opportunity_score; lia).
  split; [exact H | intros; apply H].
Qed.

(** C10: the score before clamping is at least 3 (base 5, a budget bonus of
    at least 0, a competition adjustment of at least -2, non-negative skill
    and history bonuses), so the lower clamp is inactive and the returned
    score lies between 3 and 10. *)
Theorem score_lower_clamp_inactive (job : JobPost) :
  0 <= budget_factor job /\
  -2 <= competition_factor job /\
  0 <= skill_factor job /\
  0 <= history_factor job /\
  3 <= unclamped_score job /\
  Z.max (unclamped_score job) 1 = unclamped_score job /\
  calculate_opportunity_score job = Z.min (unclamped_score job) 10 /\
  3 <= calculate_opportunity_score job <= 10.
Proof.
  pose proof (budget_factor_range job).
  pose proof (competition_factor_range job).
  pose proof (skill_factor_range job).
  pose proof (history_factor_range job).
  unfold calculate_opportunity_score, unclamped_score.
  repeat split; lia.
Qed.

(** ** The pipeline on the sample record *)

Lemma set_to_list_length `{SetOrder} (xs : list string) :
  NoDup xs -> List.length (set_to_list xs) = List.length xs.
Proof.
  intros Hxs. apply Permutation_length, NoDup_Permutation.
  - apply set_to_list_NoDup.
  - exact Hxs.
  - intros x; apply set_to_list_elem_of.
Qed.

Lemma set_to_list_perm `{SetOrder} (xs : list string) :
  NoDup xs -> set_to_list xs ≡ₚ xs.
Proof.
  intros Hxs. apply NoDup_Permutation.
  - apply set_to_list_NoDup.
  - exact Hxs.
  - intros x; apply set_to_list_elem_of.
Qed.

Lemma sample_found_skills :
  found_skills __init__
    (Text.lower ("Looking for a React developer to build a modern web application"
                 +:+ " " +:+ "React Developer Needed"))
  = ["react"; "ui"].
Proof. vm_compute. reflexivity. Qed.

Lemma NoDup_react_ui : NoDup ["react"; "ui"].
Proof.
  apply NoDup_cons; split; [|apply NoDup_singleton].
  rewrite list_elem_of_singleton. discriminate.
Qed.

Lemma sample_job `{SetOrder} :
  process_job_post __init__ sample_record =
  Ok {| job_id := PStr ""; title := "React Developer Needed";
        budget := "medium"; timeline := PStr "";
        skills_required := set_to_list ["react"; "ui"];
        client_location := PStr "";
        client_history := "Established client"; proposals := 15;
        description :=
          "Looking for a React developer to build a modern web application";
        opportunity_score := 10; category := "web_development";
        subcategory := "frontend"; notes := PStr "" |}.
Proof.
  unfold process_job_post, extract_skills.
  replace (get sample_record "description" (PStr ""))
    with (PStr "Looking for a React developer to build a modern web application")
    by (vm_compute; reflexivity).
  replace (get sample_record "title" (PStr "")) with (PStr "React Developer Needed")
    by (vm_compute; reflexivity).
  cbn [str_operand mbind result_bind].
  rewrite sample_found_skills.
  replace (categorize_job __init__ _ _ _) with (Ok ("web_development", "frontend"))
    by (vm_compute; reflexivity).
  replace (extract_budget __init__ _) with (Ok "medium") by (vm_compute; reflexivity).
  replace (get sample_record "proposals" (PInt 0)) with (PInt 15)
    by (vm_compute; reflexivity).
  replace (get sample_record "client_history" (PStr ""))
    with (PStr "Established client") by (vm_compute; reflexivity).
  replace (get sample_record "id" (PStr "")) with (PStr "") by (vm_compute; reflexivity).
  replace (get sample_record "timeline" (PStr "")) with (PStr "")
    by (vm_compute; reflexivity).
  replace (get sample_record "client_location" (PStr "")) with (PStr "")
    by (vm_compute; reflexivity).
  replace (get sample_record "notes" (PStr "")) with (PStr "") by (vm_compute; reflexivity).
  cbn [int str_receiver mbind result_bind].
  unfold with_score; cbn [job_id title budget timeline skills_required client_location
    client_history proposals description category subcategory notes].
  do 2 f_equal.
  unfold calculate_opportunity_score, unclamped_score, skill_factor.
  cbn [skills_required].
  rewrite (set_to_list_length _ NoDup_react_ui).
  vm_compute. reflexivity.
Qed.

(** C9, as stated, fails: on the sample record the skill bonus is not 1 and
    the sum before clamping is not 12. *)
Lemma sample_breakdown_is_not_12 :
  ~ (forall job, process_job_post __init__ sample_record = Ok job ->
       category job = "web_development" /\ subcategory job = "frontend" /\
       budget job = "medium" /\ opportunity_score job = 10 /\
       skill_factor job = 1 /\ unclamped_score job = 12).
Proof.
  intros Hclaim.
  destruct (Hclaim _ sample_job) as (_ & _ & _ & _ & Hskill & _).
  revert Hskill. vm_compute. discriminate.
Qed.

(** C9 (amended): the sample record is classified web_development /
    frontend with budget tier medium and score 10; two keywords match
    (react, and ui inside the word build), so the score is
    5 + 4 (medium) + 1 (proposals from 10 to 24) + 2 (two skills) + 1
    (established) = 13, clamped to 10. *)
Theorem sample_end_to_end `{SetOrder} :
  exists job,
    process_job_post __init__ sample_record = Ok job /\
    category job = "web_development" /\ subcategory job = "frontend" /\
    budget job = "medium" /\ opportunity_score job = 10 /\
    skills_required job ≡ₚ ["react"; "ui"] /\
    budget_factor job = 4 /\ competition_factor job = 1 /\
    skill_factor job = 2 /\ history_factor job = 1 /\
    unclamped_score job = 5 + 4 + 1 + 2 + 1 /\
    calculate_opportunity_score job = 10.
Proof.
  eexists; split; [apply sample_job|].
  assert (Hskill : forall j, skills_required j = set_to_list ["react"; "ui"] ->
                             skill_factor j = 2).
  { intros j Hj. unfold skill_factor. rewrite Hj.
    rewrite (set_to_list_length _ NoDup_react_ui). reflexivity. }
  repeat split; try reflexivity.
  - apply set_to_list_perm, NoDup_react_ui.
  - apply Hskill; reflexivity.
  - unfold unclamped_score. erewrite Hskill by reflexivity. reflexivity.
  - unfold calculate_opportunity_score, unclamped_score.
    erewrite Hskill by reflexivity. reflexivity.
Qed.

(** ** The batch loop *)

Section BatchFacts.

Context `{SetOrder}.
Variable self : UpworkJobAnalyzer.

Lemma successes_app (xs ys : list (gmap string pyval)) :
  successes self (xs ++ ys) = successes self xs ++ successes self ys.
Proof. apply omap_app. Qed.

Lemma failures_app (xs ys : list (gmap string pyval)) :
  failures self (xs ++ ys) = failures self xs ++ failures self ys.
Proof. apply omap_app. Qed.

Lemma quiet_app (xs ys : list (gmap string pyval)) :
  quiet self (xs ++ ys) <-> quiet self xs /\ quiet self ys.
Proof. apply Forall_app. Qed.

(** One iteration on a record whose handler, if entered, does not raise. *)
Lemma batch_step_quiet (job_data : gmap string pyval)
      (processed : list JobPost) (printed : list log_line) :
  handler_raises self job_data = false ->
  batch_step self (processed, printed) job_data =
  Ok (processed ++ successes self [job_data], printed ++ failures self [job_data]).
Proof.
  unfold handler_raises, batch_step, report_error, successes, failures.
  cbn [omap list_omap].
  destruct (process_job_post self job_data) as [job|e]; cbn [is_ok negb andb].
  - intros _. now rewrite app_nil_r.
  - intros ->. cbn [mbind result_bind]. now rewrite app_nil_r.
Qed.

Lemma batch_step_raises (job_data : gmap string pyval)
      (state : list JobPost * list log_line) :
  handler_raises self job_data = true ->
  batch_step self state job_data = Raise ValueError.
Proof.
  unfold handler_raises, batch_step, report_error. destruct state as [processed printed].
  destruct (process_job_post self job_data) as [job|e]; cbn [is_ok negb andb];
    [discriminate|].
  now intros ->.
Qed.

(** The loop over records none of which makes the handler raise. *)
Lemma batch_loop_from (job_posts : list (gmap string pyval))
      (processed : list JobPost) (printed : list log_line) :
  quiet self job_posts ->
  loop_from self (processed, printed) job_posts =
  ((processed ++ successes self job_posts, printed ++ failures self job_posts), None).
Proof.
  intros Hquiet. revert processed printed.
  induction Hquiet as [|job_data job_posts Hd _ IH]; intros processed printed.
  - cbn. now rewrite !app_nil_r.
  - cbn [loop_from]. rewrite (batch_step_quiet _ _ _ Hd), IH.
    change (job_data :: job_posts) with ([job_data] ++ job_posts).
    now rewrite successes_app, failures_app, !app_assoc.
Qed.

(** The loop stops at the first record that makes the handler raise. *)
Lemma batch_loop_stops (before after : list (gmap string pyval))
      (job_data : gmap string pyval) (processed : list JobPost) (printed : list log_line) :
  quiet self before ->
  handler_raises self job_data = true ->
  loop_from self (processed, printed) (before ++ job_data :: after) =
  ((processed ++ successes self before, printed ++ failures self before),
   Some ValueError).
Proof.
  intros Hquiet Hd. revert processed printed.
  induction Hquiet as [|d before Hquiet _ IH]; intros processed printed.
  - cbn [app loop_from]. rewrite (batch_step_raises _ _ Hd).
    cbn. now rewrite !app_nil_r.
  - cbn [app loop_from]. rewrite (batch_step_quiet _ _ _ Hquiet), IH.
    change (d :: before) with ([d] ++ before).
    now rewrite successes_app, failures_app, !app_assoc.
Qed.

(** Either no record makes the handler raise, or there is a first one. *)
Lemma quiet_or_stops (job_posts : list (gmap string pyval)) :
  quiet self job_posts \/
  exists before job_data after,
    job_posts = before ++ job_data :: after /\
    quiet self before /\ handler_raises self job_data = true.
Proof.
  induction job_posts as [|d job_posts IH]; [left; constructor|].
  destruct (handler_raises self d) eqn:Hd.
  - right. exists [], d, job_posts. repeat split; [constructor|exact Hd].
  - destruct IH as [IH|(before & job_data & after & -> & Hbefore & Hraises)].
    + left. now constructor.
    + right. exists (d :: before), job_data, after.
      repeat split; [now constructor|exact Hraises].
Qed.

Lemma analyze_batch_unfold (job_posts : list (gmap string pyval)) :
  quiet self job_posts ->
  analyze_batch self job_posts =
  (failures self job_posts, build_analysis (successes self job_posts)).
Proof.
  intros Hquiet. unfold analyze_batch, batch_loop.
  now rewrite (batch_loop_from _ _ _ Hquiet).
Qed.

Lemma analyze_batch_stops (before after : list (gmap string pyval))
      (job_data : gmap string pyval) :
  quiet self before ->
  handler_raises self job_data = true ->
  analyze_batch self (before ++ job_data :: after) =
  (failures self before, Raise ValueError).
Proof.
  intros Hquiet Hd. unfold analyze_batch, batch_loop.
  now rewrite (batch_loop_stops _ _ _ _ _ Hquiet Hd).
Qed.

(** A batch that yields a report went through the loop undisturbed. *)
Lemma analyze_batch_ok_inv (job_posts : list (gmap string pyval))
      (printed : list log_line) (report : AnalysisReport) :
  analyze_batch self job_posts = (printed, Ok report) ->
  quiet self job_posts /\
  printed = failures self job_posts /\
  build_analysis (successes self job_posts) = Ok report.
Proof.
  destruct (quiet_or_stops job_posts)
    as [Hquiet|(before & job_data & after & -> & Hquiet & Hd)].
  - rewrite (analyze_batch_unfold _ Hquiet). intros [= <- Hreport]. now repeat split.
  - rewrite (analyze_batch_stops _ _ _ Hquiet Hd). discriminate.
Qed.

Lemma successes_raise (job_data : gmap string pyval) (e : exn)
      (before after : list (gmap string pyval)) :
  process_job_post self job_data = Raise e ->
  successes self (before ++ job_data :: after) = successes self (before ++ after).
Proof.
  intros He. rewrite !successes_app. f_equal.
  unfold successes at 1. cbn [omap list_omap]. now rewrite He.
Qed.

End BatchFacts.

(** ** Competition view *)

Lemma count_proposals_cons (p : Z -> bool) (job : JobPost) (jobs : list JobPost) :
  count_proposals p (job :: jobs) =
  (if p (proposals job) then 1 else 0) + count_proposals p jobs.
Proof.
  unfold count_proposals. cbn [List.filter].
  destruct (p (proposals job)); cbn [List.length]; lia.
Qed.

Lemma competition_loop_from (jobs : list JobPost) (start : Distribution) (total : Z) :
  fold_left competition_step jobs (start, total) =
  ({| low := low start + low (bucket_counts 25 jobs);
      medium := medium start + medium (bucket_counts 25 jobs);
      high := high start + high (bucket_counts 25 jobs) |},
   total + sum_proposals jobs).
Proof.
  revert start total.
  induction jobs as [|job jobs IH]; intros [l m h] total.
  - unfold bucket_counts, count_proposals; cbn.
    now rewrite !Z.add_0_r.
  - cbn [fold_left competition_step low medium high bucket_counts sum_proposals fold_right].
    rewrite !count_proposals_cons.
    fold (sum_proposals jobs).
    destruct (Z.ltb_spec (proposals job) 10), (Z.ltb_spec (proposals job) 25),
      (Z.leb_spec 10 (proposals job)), (Z.leb_spec 25 (proposals job));
      try lia; rewrite IH; cbn [low medium high bucket_counts andb];
      (f_equal; [f_equal|]; lia).
Qed.

Lemma competition_loop_counts (jobs : list JobPost) :
  competition_loop jobs = (bucket_counts 25 jobs, sum_proposals jobs).
Proof.
  unfold competition_loop. rewrite competition_loop_from.
  cbn [low medium high]. destruct (bucket_counts 25 jobs). reflexivity.
Qed.

Lemma analyze_competition_distribution (jobs : list JobPost) (view : Competition) :
  _analyze_competition jobs = Ok view ->
  distribution view = bucket_counts 25 jobs.
Proof.
  unfold _analyze_competition. rewrite competition_loop_counts.
  destruct jobs as [|job jobs].
  - cbn. intros [= <-]. reflexivity.
  - destruct (true_divide _ _) as [avg|e]; cbn; [|discriminate].
    intros [= <-]. reflexivity.
Qed.

(** C3, as stated, fails: a job with 30 proposals is not counted in the
    medium bucket (10 to 50) but in the high one. *)
Lemma thirty_proposals_not_medium :
  ~ (forall job_posts printed report,
       analyze_batch __init__ job_posts = (printed, Ok report) ->
       distribution (competition report) = bucket_counts 51 (processed_jobs report)).
Proof.
  intros Hclaim.
  eassert (E : analyze_batch __init__ [<["proposals" := PInt 30]> sample_record]
               = (_, Ok _)) by (vm_compute; reflexivity).
  apply Hclaim in E. vm_compute in E. discriminate.
Qed.

(** C3 (amended): in the competition view of a report, every processed job
    is counted once: as low when proposals < 10, as medium when
    10 <= proposals < 25, and as high when proposals >= 25. *)
Theorem competition_buckets `{SetOrder} (self : UpworkJobAnalyzer)
        (job_posts : list (gmap string pyval)) (printed : list log_line)
        (report : AnalysisReport) :
  analyze_batch self job_posts = (printed, Ok report) ->
  distribution (competition report) = bucket_counts 25 (processed_jobs report).
Proof.
  intros Hrun. apply analyze_batch_ok_inv in Hrun as (_ & _ & Hreport).
  unfold build_analysis in Hreport.
  destruct (_analyze_competition _) as [view|e] eqn:Hview; cbn in Hreport; [|discriminate].
  injection Hreport as <-. cbn [competition processed_jobs].
  now apply analyze_competition_distribution.
Qed.

Lemma competition_buckets_witness :
  exists printed report,
    analyze_batch __init__ [sample_record] = (printed, Ok report) /\
    distribution (competition report) = bucket_counts 25 (processed_jobs report).
Proof.
  eexists _, _. split; [vm_compute; reflexivity|].
  apply (competition_buckets __init__ [sample_record] []).
  vm_compute; reflexivity.
Defined.

(** ** Exceptions and the batch boundary *)

(** The rounding at work: 1/3, a tie rounded to even, the largest finite
    quotient and the smallest one that overflows. *)
Example true_divide_rounding :
  true_divide 1 3 = Ok (FFinite 6004799503160661 (-54)) /\
  true_divide (2 ^ 53 + 1) 1 = Ok (FFinite (2 ^ 52) 1) /\
  true_divide (2 ^ 1024 - 2 ^ 970 - 1) 1 = Ok (FFinite (2 ^ 53 - 1) 971) /\
  true_divide (2 ^ 1024 - 2 ^ 970) 1 = Raise OverflowError.
Proof. repeat split; vm_compute; reflexivity. Qed.

Lemma true_divide_small (a b : Z) :
  0 < b -> Z.abs a < 2 ^ 1000 -> exists x, true_divide a b = Ok x.
Proof.
  intros Hb Ha. unfold true_divide.
  destruct (Z.eqb_spec b 0) as [|_]; [lia|].
  destruct (Z.eqb_spec a 0) as [|Ha0]; [eauto|].
  cbv zeta.
  set (n := Z.abs a). set (d := Z.abs b).
  set (k := Z.log2 n - Z.log2 d).
  set (e := if quotient_at_least_pow2 n d k then k else k - 1).
  set (shift := Z.max (e - 52) (-1074)).
  destruct (Z.leb_spec 0 shift) as [Hs|Hs]; [|cbn [andb]; eauto].
  set (den := d * 2 ^ shift). set (q := n / den). set (r := n mod den).
  set (m := if 2 * r <? den then q else if den <? 2 * r then q + 1
            else if Z.even q then q else q + 1).
  assert (Hn : 0 < n < 2 ^ 1000) by (unfold n; lia).
  assert (Hd : 1 <= d) by (unfold d; lia).
  assert (Hk : k <= 999).
  { pose proof (Z.log2_nonneg d).
    assert (Z.log2 n < 1000) by (apply Z.log2_lt_pow2; lia).
    unfold k; lia. }
  assert (He : e <= 999) by (unfold e; destruct (quotient_at_least_pow2 n d k); lia).
  assert (Hshift : shift <= 947) by (unfold shift; lia).
  assert (Hp : 0 < 2 ^ shift <= 2 ^ 947).
  { split; [apply Z.pow_pos_nonneg; lia|apply Z.pow_le_mono_r; lia]. }
  assert (Hden : 0 < den) by (unfold den; nia).
  assert (Hq : 0 <= q /\ den * q <= n).
  { split; [apply Z.div_pos; lia|apply Z.mul_div_le; lia]. }
  assert (Hm : m <= q + 1).
  { unfold m. destruct (2 * r <? den), (den <? 2 * r), (Z.even q); lia. }
  assert (Hqp : q * 2 ^ shift <= n) by (unfold den in Hq; nia).
  assert (Hlt : m * 2 ^ shift < 2 ^ 1024).
  { assert (m * 2 ^ shift <= q * 2 ^ shift + 2 ^ shift) by nia.
    assert (2 ^ 1000 + 2 ^ 947 < 2 ^ 1024) by (vm_compute; reflexivity).
    lia. }
  destruct (Z.leb_spec (2 ^ 1024) (m * 2 ^ shift)); [lia|].
  cbn [andb]. eauto.
Qed.

Lemma build_analysis_returns (jobs : list JobPost) :
  Z.abs (sum_proposals jobs) < 2 ^ 1000 ->
  exists report, build_analysis jobs = Ok report /\
                 processed_jobs report = jobs /\
                 total_jobs report = Z.of_nat (List.length jobs).
Proof.
  intros Hsum. unfold build_analysis, _analyze_competition.
  rewrite competition_loop_counts.
  destruct jobs as [|job jobs]; [cbn; eauto|].
  destruct (true_divide_small (sum_proposals (job :: jobs))
              (Z.of_nat (List.length (job :: jobs)))) as [x ->]; [cbn; lia|exact Hsum|].
  cbn. eauto.
Qed.

Lemma build_analysis_only_overflows (jobs : list JobPost) (e : exn) :
  build_analysis jobs = Raise e -> e = OverflowError.
Proof.
  unfold build_analysis, _analyze_competition.
  rewrite competition_loop_counts.
  destruct jobs as [|job jobs]; [cbn; discriminate|].
  unfold true_divide.
  destruct (Z.eqb_spec (Z.of_nat (List.length (job :: jobs))) 0) as [E|_];
    [cbn in E; lia|].
  destruct (_ =? 0); [cbn; discriminate|].
  cbv zeta. destruct (_ && _); cbn; [congruence|discriminate].
Qed.

(** What the batch boundary guarantees: the records that raise are printed
    and left out, the others are kept in order, and a report is returned
    whenever the handler can format the id of every record that raises and
    the proposals of the kept records add up to less than 2^1000 in
    magnitude. *)
Lemma analyze_batch_tolerates_failures `{SetOrder} (self : UpworkJobAnalyzer)
      (job_posts : list (gmap string pyval)) :
  quiet self job_posts ->
  Z.abs (sum_proposals (successes self job_posts)) < 2 ^ 1000 ->
  exists report,
    analyze_batch self job_posts = (failures self job_posts, Ok report) /\
    processed_jobs report = successes self job_posts /\
    total_jobs report = Z.of_nat (List.length (successes self job_posts)).
Proof.
  intros Hquiet Hsum. rewrite (analyze_batch_unfold _ _ Hquiet).
  destruct (build_analysis_returns _ Hsum) as (report & -> & ? & ?). eauto.
Qed.

(** C2: a batch whose only record has 10^400 proposals.  The record is
    processed without an exception, nothing is printed, and the division
    computing the average raises [OverflowError] out of [analyze_batch]. *)
Theorem overflow_escapes_analyze_batch `{SetOrder} :
  is_ok (process_job_post __init__ huge_proposals_record) = true /\
  analyze_batch __init__ [huge_proposals_record] = ([], Raise OverflowError).
Proof. split; vm_compute; reflexivity. Qed.

(** ** The proposals field *)

Lemma get_insert_ne (job_data : gmap string pyval) (k k' : string) (v default : pyval) :
  k <> k' -> get (<[k := v]> job_data) k' default = get job_data k' default.
Proof. intros Hne. unfold get. now rewrite lookup_insert_ne. Qed.

Lemma get_insert_eq (job_data : gmap string pyval) (k : string) (v default : pyval) :
  get (<[k := v]> job_data) k default = v.
Proof. unfold get. now rewrite lookup_insert_eq. Qed.

Lemma get_absent (job_data : gmap string pyval) (k : string) (default : pyval) :
  job_data !! k = None -> get job_data k default = default.
Proof. intros Hk. unfold get. now rewrite Hk. Qed.

Lemma get_present (job_data : gmap string pyval) (k : string) (v default : pyval) :
  job_data !! k = Some v -> get job_data k default = v.
Proof. intros Hk. unfold get. now rewrite Hk. Qed.

Lemma process_job_post_int_raises `{SetOrder} (self : UpworkJobAnalyzer)
      (job_data : gmap string pyval) (e : exn) :
  int (get job_data "proposals" (PInt 0)) = Raise e ->
  exists e', process_job_post self job_data = Raise e'.
Proof.
  intros Hint. unfold process_job_post. rewrite Hint.
  step (extract_skills self (get job_data "description" (PStr ""))
                       (get job_data "title" (PStr ""))) eauto.
  step (categorize_job self a (get job_data "title" (PStr ""))
                       (get job_data "description" (PStr ""))) eauto.
  destruct a0 as [c sc].
  step (str_operand (get job_data "title" (PStr ""))) eauto.
  step (extract_budget self (get job_data "budget" (PStr ""))) eauto.
  eauto.
Qed.

(** C4, as stated, fails: a record whose proposals field cannot be converted
    by [int()] is not processed as if the field were 0. *)
Lemma non_numeric_proposals_not_coerced :
  ~ (forall (job_data : gmap string pyval) (v : pyval),
       job_data !! "proposals" = Some v ->
       is_ok (int v) = false ->
       process_job_post __init__ job_data =
       process_job_post __init__ (<["proposals" := PInt 0]> job_data)).
Proof.
  intros Hclaim.
  specialize (Hclaim (<["proposals" := PStr "abc"]> sample_record) (PStr "abc")).
  assert (E1 : process_job_post __init__ (<["proposals" := PStr "abc"]> sample_record)
               = Raise ValueError) by (vm_compute; reflexivity).
  eassert (E2 : process_job_post __init__
                  (<["proposals" := PInt 0]> (<["proposals" := PStr "abc"]> sample_record))
                = Ok _) by (vm_compute; reflexivity).
  rewrite E1, E2 in Hclaim.
  discriminate Hclaim; [apply lookup_insert_eq | reflexivity].
Qed.

(** C4 (amended): an absent proposals field is read as 0, exactly as if the
    record held 0, and the job that results has proposals 0.  A field that
    is present is converted with [int()]; when the conversion raises (a
    non-numeric string such as abc, None, a list, a NaN) the record raises,
    is left out of the processed jobs and is not counted in total_jobs. *)
Theorem proposals_field `{SetOrder} (self : UpworkJobAnalyzer)
        (job_data : gmap string pyval) :
  (job_data !! "proposals" = None ->
     int (get job_data "proposals" (PInt 0)) = Ok 0 /\
     process_job_post self job_data =
       process_job_post self (<["proposals" := PInt 0]> job_data) /\
     forall job, process_job_post self job_data = Ok job -> proposals job = 0) /\
  (forall v e, job_data !! "proposals" = Some v -> int v = Raise e ->
     (exists e', process_job_post self job_data = Raise e') /\
     forall before after printed report,
       analyze_batch self (before ++ job_data :: after) = (printed, Ok report) ->
       processed_jobs report = successes self (before ++ after) /\
       total_jobs report = Z.of_nat (List.length (successes self (before ++ after)))) /\
  int (PStr "abc") = Raise ValueError /\
  int PNone = Raise TypeError.
Proof.
  split; [|split; [|split; reflexivity]].
  - intros Habsent.
    assert (Hsame : process_job_post self job_data =
                    process_job_post self (<["proposals" := PInt 0]> job_data)).
    { unfold process_job_post.
      rewrite get_insert_eq, !get_insert_ne by discriminate.
      now rewrite (get_absent _ "proposals" _ Habsent). }
    split; [now rewrite get_absent|]. split; [exact Hsame|].
    intros job. unfold process_job_post.
    rewrite (get_absent _ "proposals" _ Habsent).
    step (extract_skills self (get job_data "description" (PStr ""))
                         (get job_data "title" (PStr ""))) discriminate.
    step (categorize_job self a (get job_data "title" (PStr ""))
                         (get job_data "description" (PStr ""))) discriminate.
    destruct a0 as [c sc].
    step (str_operand (get job_data "title" (PStr ""))) discriminate.
    step (extract_budget self (get job_data "budget" (PStr ""))) discriminate.
    cbn [int mbind result_bind].
    step (str_operand (get job_data "description" (PStr ""))) discriminate.
    step (str_receiver (get job_data "client_history" (PStr ""))) discriminate.
    intros [= <-]. reflexivity.
  - intros v e Hv Hint.
    destruct (process_job_post_int_raises self job_data e) as [e' He'].
    { now rewrite (get_present _ _ _ _ Hv). }
    split; [eauto|].
    intros before after printed report.
    intros Hrun. apply analyze_batch_ok_inv in Hrun as (_ & _ & Hreport).
    rewrite (successes_raise _ _ _ _ _ He') in Hreport.
    unfold build_analysis in Hreport.
    destruct (_analyze_competition _); cbn in Hreport; [|discriminate].
    injection Hreport as <-. split; reflexivity.
Qed.

Lemma proposals_field_witness :
  (exists e, process_job_post __init__ (<["proposals" := PStr "abc"]> sample_record) = Raise e) /\
  process_job_post __init__ (delete "proposals" sample_record) =
  process_job_post __init__ (<["proposals" := PInt 0]> (delete "proposals" sample_record)).
Proof.
  split.
  - apply (proj1 (proj2 (proposals_field __init__
                           (<["proposals" := PStr "abc"]> sample_record)))
             (PStr "abc") ValueError).
    + apply lookup_insert_eq.
    + reflexivity.
  - apply (proj1 (proposals_field __init__ (delete "proposals" sample_record))).
    apply lookup_delete_eq.
Defined.

(** ** [max] *)

Lemma max_from_first {A : Type} (key : A -> Z) (items : list A) :
  forall (best : A) (before equal : list A),
    Forall (fun x => key x < key best) before ->
    Forall (fun x => key x <= key best) equal ->
    exists l1 l2,
      before ++ best :: equal ++ items = l1 ++ max_from key best items :: l2 /\
      Forall (fun x => key x < key (max_from key best items)) l1 /\
      Forall (fun x => key x <= key (max_from key best items)) l2.
Proof.
  induction items as [|x items IH]; intros best before equal Hbefore Hequal.
  - exists before, equal. now rewrite app_nil_r.
  - cbn [max_from]. destruct (Z.ltb_spec (key best) (key x)) as [Hlt|Hge].
    + destruct (IH x (before ++ best :: equal) []) as (l1 & l2 & Heq & H1 & H2).
      * apply Forall_app; split; [|apply Forall_cons; split; [lia|]].
        -- eapply Forall_impl; [exact Hbefore|]. cbn; intros; lia.
        -- eapply Forall_impl; [exact Hequal|]. cbn; intros; lia.
      * constructor.
      * exists l1, l2. split; [|now split].
        rewrite <- Heq. cbn. now rewrite <- !app_assoc.
    + destruct (IH best before (equal ++ [x])) as (l1 & l2 & Heq & H1 & H2).
      * exact Hbefore.
      * apply Forall_app; split; [exact Hequal|]. apply Forall_singleton. lia.
      * exists l1, l2. split; [|now split].
        rewrite <- Heq. now rewrite <- !app_assoc.
Qed.

(** [max] returns the first item of largest key. *)
Lemma max_by_first {A : Type} (key : A -> Z) (items : list A) (r : A) :
  max_by key items = Ok r ->
  exists l1 l2, items = l1 ++ r :: l2 /\
                Forall (fun x => key x < key r) l1 /\
                Forall (fun x => key x <= key r) l2.
Proof.
  destruct items as [|x items]; [discriminate|]. cbn. intros [= <-].
  destruct (max_from_first key items x [] []) as (l1 & l2 & Heq & H1 & H2);
    [constructor..|].
  exists l1, l2. now split.
Qed.

Lemma max_from_greatest {A : Type} (key : A -> Z) (best : A) (items : list A) :
  max_from key best items ∈ best :: items /\
  Forall (fun x => key x <= key (max_from key best items)) (best :: items).
Proof.
  destruct (max_from_first key items best [] []) as (l1 & l2 & Heq & H1 & H2);
    [constructor..|].
  cbn in Heq. rewrite Heq. split.
  - apply elem_of_app. right. apply list_elem_of_here.
  - apply Forall_app; split.
    + eapply Forall_impl; [exact H1|]. cbn; intros; lia.
    + apply Forall_cons; split; [lia|exact H2].
Qed.

(** ** Budget tiers *)

Lemma is_digit_not_space (c : ascii) :
  Text.is_digit c = true -> Text.is_space c = false.
Proof. destruct c as [[] [] [] [] [] [] [] []]; try discriminate; reflexivity. Qed.

Lemma digit_value_nonneg (c : ascii) :
  Text.is_digit c = true -> 0 <= Text.digit_value c <= 9.
Proof.
  destruct c as [[] [] [] [] [] [] [] []]; try discriminate; intros _;
    vm_compute; split; discriminate.
Qed.

Lemma parse_decimal_digits (s : string) :
  forall (acc : Z) (after_digit : bool),
    Forall (fun c => Text.is_digit c = true) (list_ascii_of_string s) ->
    after_digit = true \/ s <> "" ->
    Text.parse_decimal acc after_digit s = Some (Text.decimal_from acc s).
Proof.
  induction s as [|c s IH]; intros acc after_digit Hs Hne.
  - destruct Hne as [->|Hne]; [reflexivity|congruence].
  - cbn in Hs. apply Forall_cons in Hs as [Hc Hs].
    cbn [Text.parse_decimal Text.decimal_from]. rewrite Hc.
    apply IH; [exact Hs|now left].
Qed.

Lemma count_digits_run (s : string) :
  Forall (fun c => Text.is_digit c = true) (list_ascii_of_string s) ->
  Text.count_digits s = Z.of_nat (String.length s).
Proof.
  induction s as [|c s IH]; intros Hs; [reflexivity|].
  cbn in Hs. apply Forall_cons in Hs as [Hc Hs].
  cbn [Text.count_digits String.length]. rewrite Hc, (IH Hs). lia.
Qed.

(** [int()] on a run of digits: its value, unless the run is longer than
    the limit. *)
Lemma int_of_digit_run (x : string) :
  digit_run x ->
  int (PStr x) =
  if Z.of_nat (String.length x) <=? Text.max_str_digits
  then Ok (Text.decimal_from 0 x) else Raise ValueError.
Proof.
  intros [Hx Hne]. cbn [int]. unfold Text.int_of_str.
  rewrite (count_digits_run x Hx), Z.ltb_antisym.
  destruct (Z.of_nat (String.length x) <=? Text.max_str_digits); cbn [negb];
    [|reflexivity].
  destruct x as [|c x]; [congruence|].
  assert (Hc : Text.is_digit c = true) by (cbn in Hx; now apply Forall_cons in Hx).
  assert (Hparse := parse_decimal_digits (String c x) 0 false Hx (or_intror Hne)).
  cbn [Text.lstrip]. rewrite (is_digit_not_space c Hc).
  destruct c as [[] [] [] [] [] [] [] []]; try discriminate Hc; now rewrite Hparse.
Qed.

Lemma each_int_digit_runs (xs : list string) :
  Forall digit_run xs ->
  each_int xs =
  if forallb (fun x => Z.of_nat (String.length x) <=? Text.max_str_digits) xs
  then Ok (map (Text.decimal_from 0) xs) else Raise ValueError.
Proof.
  induction 1 as [|x xs Hx _ IH]; [reflexivity|].
  cbn [each_int forallb]. rewrite (int_of_digit_run x Hx).
  destruct (Z.of_nat (String.length x) <=? Text.max_str_digits);
    cbn [mbind result_bind andb]; [|reflexivity].
  rewrite IH. now destruct (forallb _ xs).
Qed.

Lemma emit_digit_runs (run : list ascii) :
  Forall (fun c => Text.is_digit c = true) run -> Forall digit_run (Text.emit run).
Proof.
  intros Hrun. destruct run as [|c run]; [constructor|].
  apply Forall_singleton. split.
  - rewrite list_ascii_of_string_of_list_ascii. now apply Forall_rev.
  - cbn [rev]. destruct (rev run); discriminate.
Qed.

Lemma scan_digits_runs (s : string) :
  forall run, Forall (fun c => Text.is_digit c = true) run ->
              Forall digit_run (Text.scan_digits run s).
Proof.
  induction s as [|c s IH]; intros run Hrun; cbn [Text.scan_digits].
  - now apply emit_digit_runs.
  - destruct (Text.is_digit c) eqn:Hc.
    + apply IH. now constructor.
    + apply Forall_app; split; [now apply emit_digit_runs|apply IH; constructor].
Qed.

Lemma scan_digits_without_digit (s : string) :
  has_digit s = false -> Text.scan_digits [] s = [].
Proof.
  induction s as [|c s IH]; [reflexivity|]. cbn [has_digit Text.scan_digits].
  intros [-> Hs]%orb_false_iff. now rewrite IH.
Qed.

Lemma scan_digits_with_digit (s : string) :
  forall run, run <> [] \/ has_digit s = true -> Text.scan_digits run s <> [].
Proof.
  induction s as [|c s IH]; intros run Hrun; cbn [Text.scan_digits].
  - destruct Hrun as [Hrun|Hs]; [|discriminate]. destruct run; [congruence|discriminate].
  - destruct (Text.is_digit c) eqn:Hc.
    + apply IH. now left.
    + cbn [has_digit] in Hrun. rewrite Hc in Hrun. cbn [orb] in Hrun.
      destruct Hrun as [Hrun|Hs].
      * destruct run; [congruence|discriminate].
      * intros Heq. apply app_eq_nil in Heq as [_ Heq]. revert Heq. apply IH. now right.
Qed.

Lemma has_digit_remove_comma (s : string) :
  has_digit (Text.remove_char "," s) = has_digit s.
Proof.
  induction s as [|c s IH]; [reflexivity|]. cbn [Text.remove_char has_digit].
  destruct (Ascii.eqb_spec c ",") as [->|_]; [exact IH|].
  cbn [has_digit]. now rewrite IH.
Qed.

Lemma budget_numbers_nonneg (budget_text : string) :
  Forall (fun n => 0 <= n) (budget_numbers budget_text).
Proof.
  unfold budget_numbers, Text.findall_digits. apply Forall_map.
  eapply Forall_impl; [apply scan_digits_runs; constructor|].
  intros x [Hx _]. cbn beta.
  assert (Hacc : forall s acc,
             Forall (fun c => Text.is_digit c = true) (list_ascii_of_string s) ->
             0 <= acc -> 0 <= Text.decimal_from acc s).
  { induction s as [|c s IH]; intros acc Hs Hacc; cbn; [exact Hacc|].
    cbn in Hs. apply Forall_cons in Hs as [Hc Hs].
    apply IH; [exact Hs|]. pose proof (digit_value_nonneg c Hc). lia. }
  apply Hacc; [exact Hx|lia].
Qed.

Lemma first_range_tier (amount : Z) :
  0 <= amount -> first_range (budget_ranges __init__) amount = tier_of_amount amount.
Proof.
  intros Hpos. unfold tier_of_amount. cbn [budget_ranges __init__ first_range].
  unfold in_range. cbn [fst snd].
  destruct (Z.leb_spec 0 amount), (Z.ltb_spec amount 50), (Z.leb_spec 50 amount),
    (Z.ltb_spec amount 500), (Z.leb_spec 500 amount), (Z.ltb_spec amount 5000),
    (Z.leb_spec 5000 amount); cbn [andb]; try reflexivity; lia.
Qed.

(** *** The digit runs the scanner finds are the maximal ones *)

Lemma append_cons (c : ascii) (s t : string) : String c s +:+ t = String c (s +:+ t).
Proof. reflexivity. Qed.

Lemma append_nil_r (s : string) : s +:+ "" = s.
Proof. induction s as [|c s IH]; [reflexivity|]. now rewrite append_cons, IH. Qed.

Lemma append_assoc (s t u : string) : (s +:+ t) +:+ u = s +:+ t +:+ u.
Proof. induction s as [|c s IH]; [reflexivity|]. now rewrite !append_cons, IH. Qed.

Lemma append_eq_nil (s t : string) : s +:+ t = "" -> s = "" /\ t = "".
Proof. destruct s; [intros Ht; split; [reflexivity|exact Ht]|discriminate]. Qed.

Lemma string_of_list_ascii_app (l l' : list ascii) :
  string_of_list_ascii (l ++ l') = string_of_list_ascii l +:+ string_of_list_ascii l'.
Proof.
  induction l as [|c l IH]; [reflexivity|].
  cbn [app string_of_list_ascii]. now rewrite append_cons, IH.
Qed.

Lemma run_snoc (run : list ascii) (c : ascii) (d : string) :
  string_of_list_ascii (rev (c :: run)) +:+ d =
  string_of_list_ascii (rev run) +:+ String c d.
Proof. cbn [rev]. now rewrite string_of_list_ascii_app, append_assoc. Qed.

Lemma remove_char_strip (s : string) : Text.remove_char "," s = strip_commas s.
Proof.
  unfold strip_commas. induction s as [|c s IH]; [reflexivity|].
  cbn [Text.remove_char list_ascii_of_string List.filter].
  destruct (Ascii.eqb c ","); cbn [negb]; [exact IH|].
  cbn [string_of_list_ascii]. now rewrite IH.
Qed.

Lemma no_digit_last_cons (c : ascii) (s : string) :
  no_digit_last (String c s) <->
  (s = "" /\ Text.is_digit c = false) \/ (s <> "" /\ no_digit_last s).
Proof.
  unfold no_digit_last. split.
  - intros [Hnil|(s' & c' & Hs & Hc')]; [discriminate|].
    destruct s' as [|a s'].
    + injection Hs as -> ->. now left.
    + injection Hs as _ ->. right. split.
      * destruct s'; discriminate.
      * right. now exists s', c'.
  - intros [[-> Hc]|[Hne [Hnil|(s' & c' & -> & Hc')]]].
    + right. now exists "", c.
    + congruence.
    + right. now exists (String c s'), c'.
Qed.

(** What the scanner yields from a state: the run being read, completed by
    the digits that follow, and the maximal runs that begin later. *)
Lemma scan_digits_spec (s : string) :
  forall (run : list ascii) (x : string),
    x ∈ Text.scan_digits run s <->
    (run <> [] /\
     exists d after,
       s = d +:+ after /\
       Forall (fun c => Text.is_digit c = true) (list_ascii_of_string d) /\
       no_digit_first after /\
       x = string_of_list_ascii (rev run) +:+ d) \/
    (digit_run x /\
     exists before after,
       s = before +:+ x +:+ after /\ no_digit_first after /\
       ((before = "" /\ run = []) \/ (before <> "" /\ no_digit_last before))).
Proof.
  induction s as [|c s IH]; intros run x.
  - cbn [Text.scan_digits]. split.
    + intros Hx. left. destruct run as [|a run]; [now apply elem_of_nil in Hx|].
      split; [discriminate|]. exists "", "".
      apply list_elem_of_singleton in Hx. subst x.
      repeat split; [constructor|now rewrite append_nil_r].
    + intros [(Hrun & d & after & Hs & _ & _ & ->)|([_ Hne] & before & after & Hs & _)].
      * symmetry in Hs. apply append_eq_nil in Hs as [-> _].
        rewrite append_nil_r. destruct run as [|a run]; [congruence|].
        apply list_elem_of_singleton. reflexivity.
      * symmetry in Hs. apply append_eq_nil in Hs as [_ Hs].
        apply append_eq_nil in Hs as [-> _]. congruence.
  - cbn [Text.scan_digits]. destruct (Text.is_digit c) eqn:Hc.
    + rewrite IH. split.
      * intros [(_ & d & after & -> & Hd & Hafter & ->)
               |(Hx & before & after & -> & Hafter & [[_ [=]]|[Hne Hlast]])].
        -- destruct run as [|a run].
           ++ right. split.
              ** split; [cbn; now constructor|discriminate].
              ** exists "", after. repeat split; [exact Hafter|now left].
           ++ left. split; [discriminate|]. exists (String c d), after.
              repeat split; [cbn; now constructor|exact Hafter|apply run_snoc].
        -- right. split; [exact Hx|]. exists (String c before), after.
           repeat split; [exact Hafter|]. right. split; [discriminate|].
           apply no_digit_last_cons. right. now split.
      * intros [(Hrun & d & after & Hs & Hd & Hafter & ->)
               |(Hx & before & after & Hs & Hafter & Hbefore)].
        -- left. split; [discriminate|]. destruct d as [|c' d].
           ++ change (String c s = after) in Hs. subst after. cbn in Hafter.
              congruence.
           ++ injection Hs as <- ->. cbn in Hd. apply Forall_cons in Hd as [_ Hd].
              exists d, after. repeat split; [exact Hd|exact Hafter|].
              symmetry. apply run_snoc.
        -- destruct Hbefore as [[-> ->]|[Hne Hlast]].
           ++ left. split; [discriminate|]. destruct Hx as [Hx Hxne].
              destruct x as [|c' x]; [congruence|]. injection Hs as <- ->.
              cbn in Hx. apply Forall_cons in Hx as [_ Hx].
              exists x, after. repeat split; [exact Hx|exact Hafter].
           ++ destruct before as [|c' before]; [congruence|]. injection Hs as <- ->.
              apply no_digit_last_cons in Hlast as [[_ Hc']|[Hne' Hlast]]; [congruence|].
              right. split; [exact Hx|]. exists before, after.
              repeat split; [exact Hafter|]. right. now split.
    + rewrite elem_of_app, IH. split.
      * intros [Hx|[(Hrun & _)|(Hx & before & after & -> & Hafter & Hbefore)]].
        -- left. destruct run as [|a run]; [now apply elem_of_nil in Hx|].
           split; [discriminate|]. exists "", (String c s).
           apply list_elem_of_singleton in Hx. subst x.
           repeat split; [constructor|exact Hc|now rewrite append_nil_r].
        -- congruence.
        -- right. split; [exact Hx|]. exists (String c before), after.
           repeat split; [exact Hafter|]. right. split; [discriminate|].
           apply no_digit_last_cons.
           destruct Hbefore as [[-> _]|[Hne Hlast]]; [now left|right; now split].
      * intros [(Hrun & d & after & Hs & Hd & Hafter & ->)
               |(Hx & before & after & Hs & Hafter & Hbefore)].
        -- left. destruct d as [|c' d].
           ++ rewrite append_nil_r. destruct run as [|a run]; [congruence|].
              apply list_elem_of_singleton. reflexivity.
           ++ injection Hs as <- _. cbn in Hd. apply Forall_cons in Hd as [Hd _].
              congruence.
        -- right. right. split; [exact Hx|].
           destruct Hbefore as [[-> ->]|[Hne Hlast]].
           ++ destruct Hx as [Hx Hxne]. destruct x as [|c' x]; [congruence|].
              injection Hs as <- _. cbn in Hx. apply Forall_cons in Hx as [Hx _].
              congruence.
           ++ destruct before as [|c' before]; [congruence|]. injection Hs as <- ->.
              exists before, after. repeat split; [exact Hafter|].
              apply no_digit_last_cons in Hlast as [[-> _]|[Hne' Hlast]];
                [now left|right; now split].
Qed.

(** [re.findall(r'\d+', text)] yields exactly the maximal digit runs. *)
Lemma findall_digits_maximal (text x : string) :
  x ∈ Text.findall_digits text <-> maximal_run text x.
Proof.
  unfold Text.findall_digits, maximal_run. rewrite scan_digits_spec. split.
  - intros [[Hrun _]|(Hx & before & after & Hs & Hafter & Hbefore)]; [congruence|].
    split; [exact Hx|]. exists before, after. repeat split; [exact Hs| |exact Hafter].
    destruct Hbefore as [[-> _]|[_ Hlast]]; [now left|exact Hlast].
  - intros (Hx & before & after & Hs & Hlast & Hafter). right.
    split; [exact Hx|]. exists before, after. repeat split; [exact Hs|exact Hafter|].
    destruct before as [|c before]; [now left|right]. split; [discriminate|exact Hlast].
Qed.

Lemma budget_numbers_number_of (budget_text : string) (n : Z) :
  n ∈ budget_numbers budget_text <-> number_of budget_text n.
Proof.
  unfold budget_numbers, number_of. rewrite remove_char_strip.
  change (map ?f ?l) with (f <$> l). rewrite list_elem_of_fmap.
  split.
  - intros (x & -> & Hx). exists x. split; [now apply findall_digits_maximal|reflexivity].
  - intros (x & Hx & ->). exists x. split; [reflexivity|now apply findall_digits_maximal].
Qed.

Lemma runs_short_within (budget_text : string) :
  runs_short budget_text = true <-> within_limit budget_text.
Proof.
  unfold runs_short, within_limit. rewrite remove_char_strip, forallb_forall. split.
  - intros Hall x Hx. apply findall_digits_maximal, list_elem_of_In in Hx.
    apply Hall in Hx. lia.
  - intros Hall x Hx. apply list_elem_of_In, findall_digits_maximal in Hx.
    apply Hall in Hx. lia.
Qed.

(** What [extract_budget] computes on a string, for any range table. *)
Lemma extract_budget_text (self : UpworkJobAnalyzer) (budget_text : string) :
  extract_budget self (PStr budget_text) =
  match budget_numbers budget_text with
  | [] => Ok "unknown"
  | n :: ns =>
      if runs_short budget_text
      then Ok (first_range (budget_ranges self) (max_from (fun n => n) n ns))
      else Raise ValueError
  end.
Proof.
  unfold extract_budget. cbn [truthy].
  destruct (String.eqb_spec budget_text "") as [->|Hne]; [reflexivity|].
  cbn [negb str_receiver mbind result_bind]. unfold budget_numbers, runs_short.
  assert (Hruns : Forall digit_run
                    (Text.findall_digits (Text.remove_char "," budget_text)))
    by (apply scan_digits_runs; constructor).
  destruct (Text.findall_digits _) as [|x xs] eqn:Hnumbers; [reflexivity|].
  rewrite (each_int_digit_runs _ Hruns).
  now destruct (forallb _ (x :: xs)).
Qed.

(** The same for the shipped range table, on a text within the limit. *)
Lemma extract_budget_str (budget_text : string) :
  runs_short budget_text = true ->
  extract_budget __init__ (PStr budget_text) =
  Ok match budget_numbers budget_text with
     | [] => "unknown"
     | n :: ns => tier_of_amount (max_from (fun n => n) n ns)
     end.
Proof.
  intros Hshort. rewrite extract_budget_text, Hshort.
  pose proof (budget_numbers_nonneg budget_text) as Hpos.
  destruct (budget_numbers budget_text) as [|n ns]; [reflexivity|].
  f_equal. apply first_range_tier.
  destruct (max_from_greatest (fun n => n) n ns) as [Hin _].
  rewrite Forall_forall in Hpos. apply Hpos. exact Hin.
Qed.

Lemma extract_budget_long_run (self : UpworkJobAnalyzer) (budget_text : string) :
  runs_short budget_text = false ->
  extract_budget self (PStr budget_text) = Raise ValueError.
Proof.
  intros Hlong. rewrite extract_budget_text, Hlong.
  destruct (budget_numbers budget_text) as [|n ns] eqn:Hnumbers; [|reflexivity].
  unfold budget_numbers in Hnumbers. apply map_eq_nil in Hnumbers.
  unfold runs_short in Hlong. rewrite Hnumbers in Hlong. discriminate.
Qed.

Lemma forallb_false {A : Type} (f : A -> bool) (l : list A) :
  forallb f l = false <-> exists x, x ∈ l /\ f x = false.
Proof.
  induction l as [|a l IH]; cbn [forallb].
  - split; [discriminate|]. intros (x & Hx & _). now apply elem_of_nil in Hx.
  - rewrite andb_false_iff, IH. split.
    + intros [Ha|(x & Hx & Hfx)]; [exists a|exists x]; split; try assumption.
      * left.
      * now right.
    + intros (x & Hx & Hfx). apply elem_of_cons in Hx as [->|Hx]; [now left|].
      right. now exists x.
Qed.

Lemma runs_short_false (budget_text : string) :
  runs_short budget_text = false <->
  exists x, maximal_run (strip_commas budget_text) x /\
            Text.max_str_digits < Z.of_nat (String.length x).
Proof.
  unfold runs_short. rewrite remove_char_strip, forallb_false.
  split; intros (x & Hx & Hlen); exists x.
  - split; [now apply findall_digits_maximal|lia].
  - split; [now apply findall_digits_maximal|lia].
Qed.

Lemma tier_rank_monotone (m m' : Z) :
  m <= m' -> tier_rank (tier_of_amount m) <= tier_rank (tier_of_amount m').
Proof.
  intros Hle. unfold tier_of_amount.
  destruct (Z.ltb_spec m 50), (Z.ltb_spec m 500), (Z.ltb_spec m 5000),
    (Z.ltb_spec m' 50), (Z.ltb_spec m' 500), (Z.ltb_spec m' 5000);
    try lia; vm_compute; discriminate.
Qed.

(** C5, as stated, fails: on a budget text that is a run of 4301 digits the
    conversion of the run is refused, and [extract_budget] raises
    [ValueError] instead of returning the tier of the number. *)
Lemma long_digit_run_has_no_tier :
  ~ (forall budget_text, has_digit budget_text = true ->
       exists m, number_of budget_text m /\
                 (forall n, number_of budget_text n -> n <= m) /\
                 extract_budget __init__ (PStr budget_text) = Ok (tier_of_amount m)).
Proof.
  intros Hclaim.
  destruct (Hclaim long_budget_text) as (m & _ & _ & Htier);
    [vm_compute; reflexivity|].
  assert (Hraise : extract_budget __init__ (PStr long_budget_text) = Raise ValueError)
    by (vm_compute; reflexivity).
  rewrite Hraise in Htier. discriminate Htier.
Qed.

(** C5 (amended): [extract_budget] returns unknown on a text without decimal
    digits (the empty text included).  On a text with a digit whose numbers
    (the maximal digit runs left once the commas are removed) all have at
    most 4300 digits, these numbers have a maximum m and the result is the
    tier whose interval contains m: micro [0,50), small [50,500), medium
    [500,5000), large [5000,oo); a number of more than 4300 digits makes it
    raise [ValueError].  The tier grows with the maximum, and $49, $50,
    $499, $500, $4999, $5000 give micro, small, small, medium, medium,
    large. *)
Theorem extract_budget_tiers :
  (forall budget_text, has_digit budget_text = false ->
     extract_budget __init__ (PStr budget_text) = Ok "unknown") /\
  (forall budget_text, has_digit budget_text = true -> within_limit budget_text ->
     exists m, number_of budget_text m /\
               (forall n, number_of budget_text n -> n <= m) /\
               extract_budget __init__ (PStr budget_text) = Ok (tier_of_amount m) /\
               (0 <= m < 50 -> tier_of_amount m = "micro") /\
               (50 <= m < 500 -> tier_of_amount m = "small") /\
               (500 <= m < 5000 -> tier_of_amount m = "medium") /\
               (5000 <= m -> tier_of_amount m = "large") /\
               0 <= m) /\
  (forall budget_text x,
     maximal_run (strip_commas budget_text) x ->
     Text.max_str_digits < Z.of_nat (String.length x) ->
     extract_budget __init__ (PStr budget_text) = Raise ValueError) /\
  (forall text text' m m' tier tier',
     number_of text m -> (forall n, number_of text n -> n <= m) ->
     number_of text' m' -> (forall n, number_of text' n -> n <= m') ->
     extract_budget __init__ (PStr text) = Ok tier ->
     extract_budget __init__ (PStr text') = Ok tier' ->
     m <= m' -> tier_rank tier <= tier_rank tier') /\
  map (fun text => extract_budget __init__ (PStr text))
      ["$49"; "$50"; "$499"; "$500"; "$4999"; "$5000"; ""] =
  map Ok ["micro"; "small"; "small"; "medium"; "medium"; "large"; "unknown"] /\
  extract_budget __init__ (PStr long_budget_text) = Raise ValueError.
Proof.
  assert (Hmax : forall text m tier,
             number_of text m -> (forall n, number_of text n -> n <= m) ->
             extract_budget __init__ (PStr text) = Ok tier ->
             tier = tier_of_amount m).
  { intros text m tier Hin Hall. apply budget_numbers_number_of in Hin.
    destruct (runs_short text) eqn:Hshort;
      [|rewrite (extract_budget_long_run _ _ Hshort); discriminate].
    rewrite (extract_budget_str _ Hshort). intros [= <-].
    destruct (budget_numbers text) as [|n ns] eqn:Hnumbers;
      [now apply elem_of_nil in Hin|].
    destruct (max_from_greatest (fun n => n) n ns) as [Hin' Hall'].
    f_equal. rewrite Forall_forall in Hall'.
    specialize (Hall' _ Hin). cbn beta in Hall'.
    assert (max_from (fun n => n) n ns <= m); [|lia].
    apply Hall, budget_numbers_number_of. now rewrite Hnumbers. }
  split; [|split; [|split; [|split; [|split; vm_compute; reflexivity]]]].
  - intros text Hnone. rewrite extract_budget_text. unfold budget_numbers.
    unfold Text.findall_digits. rewrite scan_digits_without_digit; [reflexivity|].
    now rewrite has_digit_remove_comma.
  - intros text Hsome Hlimit. apply runs_short_within in Hlimit.
    destruct (budget_numbers text) as [|n ns] eqn:Hnumbers.
    { exfalso. unfold budget_numbers, Text.findall_digits in Hnumbers.
      apply map_eq_nil in Hnumbers. revert Hnumbers.
      apply scan_digits_with_digit. right. now rewrite has_digit_remove_comma. }
    destruct (max_from_greatest (fun n => n) n ns) as [Hin Hall].
    exists (max_from (fun n => n) n ns).
    pose proof (budget_numbers_nonneg text) as Hpos. rewrite Hnumbers in Hpos.
    rewrite Forall_forall in Hpos. specialize (Hpos _ Hin).
    rewrite Forall_forall in Hall.
    split; [apply budget_numbers_number_of; now rewrite Hnumbers|].
    split.
    { intros k Hk. apply budget_numbers_number_of in Hk. rewrite Hnumbers in Hk.
      now apply Hall. }
    split; [rewrite (extract_budget_str _ Hlimit), Hnumbers; reflexivity|].
    unfold tier_of_amount.
    repeat split; try assumption; intros;
      destruct (Z.ltb_spec (max_from (fun n => n) n ns) 50),
        (Z.ltb_spec (max_from (fun n => n) n ns) 500),
        (Z.ltb_spec (max_from (fun n => n) n ns) 5000); try reflexivity; lia.
  - intros text x Hx Hlong. apply extract_budget_long_run, runs_short_false.
    now exists x.
  - intros text text' m m' tier tier' Hin Hall Hin' Hall' Ht Ht' Hle.
    rewrite (Hmax _ _ _ Hin Hall Ht), (Hmax _ _ _ Hin' Hall' Ht').
    now apply tier_rank_monotone.
Qed.

Lemma extract_budget_tiers_witness :
  exists m, number_of "$1,500-2,000" m /\
            extract_budget __init__ (PStr "$1,500-2,000") = Ok (tier_of_amount m).
Proof.
  destruct (proj1 (proj2 extract_budget_tiers) "$1,500-2,000")
    as (m & Hm & _ & Htier & _).
  - reflexivity.
  - apply runs_short_within. reflexivity.
  - exists m. split; assumption.
Defined.

(** ** Classifier *)

Section MaxKey.

Context {V : Type} (f : V -> Z).

Lemma dict_get_scored (d : list (string * V)) (k : string) (v : V) :
  NoDup (map fst d) -> (k, v) ∈ d -> dict_get (scored f d) k 0 = f v.
Proof.
  induction d as [|[k' v'] d IH]; intros Hnd Hin.
  - now apply elem_of_nil in Hin.
  - cbn in Hnd. apply NoDup_cons in Hnd as [Hk' Hnd].
    cbn [scored map dict_get fst snd].
    apply elem_of_cons in Hin as [[= -> ->]|Hin].
    + now rewrite String.eqb_refl.
    + destruct (String.eqb_spec k' k) as [->|_]; [|now apply IH].
      exfalso. apply Hk'. apply list_elem_of_fmap. now exists (k, v).
Qed.

Lemma dict_index_first (before after : list (string * V)) (k : string) (v : V) :
  NoDup (map fst (before ++ (k, v) :: after)) ->
  dict_index (before ++ (k, v) :: after) k = Ok v.
Proof.
  induction before as [|[k' v'] before IH]; intros Hnd; cbn [app dict_index].
  - now rewrite String.eqb_refl.
  - cbn in Hnd. apply NoDup_cons in Hnd as [Hk' Hnd].
    destruct (String.eqb_spec k' k) as [->|_]; [|now apply IH].
    exfalso. apply Hk'. rewrite map_app. apply elem_of_app. right. cbn. left.
Qed.

(** The key returned by [max] over a dictionary of scores is that of the
    first entry of largest score. *)
Lemma max_key_first (d : list (string * V)) (r : string) :
  NoDup (map fst d) ->
  max_key (scored f d) = Ok r ->
  exists before v after,
    d = before ++ (r, v) :: after /\
    Forall (fun kv => f (snd kv) < f v) before /\
    Forall (fun kv => f (snd kv) <= f v) after.
Proof.
  intros Hnd Hmax. unfold max_key in Hmax.
  apply max_by_first in Hmax as (l1 & l2 & Hkeys & H1 & H2).
  assert (Hfst : map fst (scored f d) = map fst d).
  { unfold scored. rewrite map_map. reflexivity. }
  rewrite Hfst in Hkeys.
  change (fst <$> d = l1 ++ r :: l2) in Hkeys.
  apply fmap_app_inv in Hkeys as (before & rest & -> & Hrest & ->).
  symmetry in Hrest.
  apply fmap_cons_inv in Hrest as ([k v] & after & Hk & -> & ->).
  cbn in Hk. subst k.
  assert (Hr : dict_get (scored f (before ++ (r, v) :: after)) r 0 = f v).
  { apply dict_get_scored; [exact Hnd|]. apply elem_of_app. right. left. }
  assert (Hget : forall kv, kv ∈ before ++ (r, v) :: after ->
                   dict_get (scored f (before ++ (r, v) :: after)) (fst kv) 0 = f (snd kv)).
  { intros [k' v'] Hin. now apply dict_get_scored. }
  exists before, v, after. split; [reflexivity|]. split.
  - apply Forall_forall. intros kv Hin.
    rewrite Forall_forall in H1.
    specialize (H1 (fst kv) (list_elem_of_fmap_2 fst _ _ Hin)). cbn beta in H1.
    rewrite Hr, Hget in H1; [exact H1|]. apply elem_of_app. now left.
  - apply Forall_forall. intros kv Hin.
    rewrite Forall_forall in H2.
    specialize (H2 (fst kv) (list_elem_of_fmap_2 fst _ _ Hin)). cbn beta in H2.
    rewrite Hr, Hget in H2; [exact H2|]. apply elem_of_app. right. now right.
Qed.

Lemma max_key_returns (d : list (string * V)) :
  d <> [] -> exists r, max_key (scored f d) = Ok r.
Proof. destruct d as [|[k v] d]; [congruence|]. intros _. cbn. eauto. Qed.

End MaxKey.

Lemma category_scores_scored (self : UpworkJobAnalyzer) (text : string) :
  category_scores self text = scored (category_score text) (skill_keywords self).
Proof. unfold category_scores, scored. apply List.map_ext. now intros [c subs]. Qed.

Lemma subcategory_scores_scored (text : string) (subcategories : list (string * list string)) :
  subcategory_scores text subcategories = scored (keyword_hits text) subcategories.
Proof. unfold subcategory_scores, scored. apply List.map_ext. now intros [c subs]. Qed.

Lemma flat_map_nil {A B : Type} (g : A -> list B) (l : list A) :
  flat_map g l = [] -> Forall (fun x => g x = []) l.
Proof.
  induction l as [|x l IH]; cbn [flat_map]; [constructor|].
  intros [Hx Hl]%app_eq_nil. constructor; [exact Hx|now apply IH].
Qed.

Lemma category_score_zero (text : string) (subcategories : list (string * list string)) :
  Forall (fun s => keyword_hits text (snd s) = 0) subcategories ->
  category_score text subcategories = 0.
Proof.
  intros Hzero. unfold category_score. generalize 0 at 1 2. revert Hzero.
  induction 1 as [|[s kws] subs Hs _ IH]; intros acc; cbn [fold_left]; [reflexivity|].
  cbn [snd] in Hs. rewrite Hs, Z.add_0_r. apply IH.
Qed.

Lemma no_match_no_hits (self : UpworkJobAnalyzer) (text : string) :
  found_skills self text = [] ->
  Forall (fun c => Forall (fun s => keyword_hits text (snd s) = 0) (snd c))
         (skill_keywords self).
Proof.
  intros Hnone. apply flat_map_nil in Hnone.
  eapply Forall_impl; [exact Hnone|]. intros [c subs] Hsubs. cbn [snd].
  apply flat_map_nil in Hsubs.
  eapply Forall_impl; [exact Hsubs|]. intros [sub kws] Hkws. cbn [snd].
  unfold keyword_hits. now rewrite Hkws.
Qed.

Lemma taxonomy_keys_distinct :
  NoDup (map fst (skill_keywords __init__)) /\
  Forall (fun c => NoDup (map fst (snd c)) /\ snd c <> [])
         (skill_keywords __init__).
Proof.
  split; [compute_done|].
  repeat (apply Forall_cons; split; [split; [compute_done|discriminate]|]).
  constructor.
Qed.

Lemma Forall_lt_self_nil {A : Type} (g : A -> Z) (bound : Z) (l : list A) :
  Forall (fun x => g x < bound) l ->
  Forall (fun x => g x = bound) l ->
  l = [].
Proof.
  destruct l as [|x l]; [reflexivity|].
  intros [Hlt _]%Forall_cons [Heq _]%Forall_cons. lia.
Qed.

Lemma contains_occurs (needle hay : string) :
  Text.contains needle hay = true <-> occurs_in needle hay.
Proof. symmetry. apply reflect_iff, contains_reflect. Qed.

Lemma elem_of_flat_map {A B : Type} (g : A -> list B) (l : list A) (y : B) :
  y ∈ flat_map g l <-> exists x, x ∈ l /\ y ∈ g x.
Proof.
  rewrite list_elem_of_In, in_flat_map. split; intros (x & Hx & Hy); exists x.
  - now rewrite !list_elem_of_In.
  - now rewrite <- !list_elem_of_In.
Qed.

Lemma elem_of_matched (text : string) (keywords : list string) (k : string) :
  k ∈ matched text keywords <-> k ∈ keywords /\ Text.contains k text = true.
Proof. unfold matched. now rewrite list_elem_of_In, filter_In, <- list_elem_of_In. Qed.

Lemma elem_of_found_skills (self : UpworkJobAnalyzer) (text k : string) :
  k ∈ found_skills self text <-> k ∈ all_keywords self /\ Text.contains k text = true.
Proof.
  unfold found_skills, all_keywords. rewrite !elem_of_flat_map. split.
  - intros ([c subs] & Hc & Hk). apply elem_of_flat_map in Hk as ([sub kws] & Hsub & Hk).
    apply elem_of_matched in Hk as [Hk Hcontains]. split; [|exact Hcontains].
    exists (c, subs). split; [exact Hc|]. apply elem_of_flat_map. now exists (sub, kws).
  - intros [([c subs] & Hc & Hk) Hcontains].
    apply elem_of_flat_map in Hk as ([sub kws] & Hsub & Hk).
    exists (c, subs). split; [exact Hc|]. apply elem_of_flat_map. exists (sub, kws).
    split; [exact Hsub|]. now apply elem_of_matched.
Qed.


Lemma keyword_hits_count (text : string) (keywords : list string) :
  keyword_hits text keywords = keyword_count text keywords.
Proof.
  unfold keyword_hits, keyword_count, matched. f_equal.
  induction keywords as [|k keywords IH]; [reflexivity|].
  cbn [List.filter]. rewrite filter_cons.
  destruct (decide (occurs_in k text)) as [Hyes|Hno];
    destruct (Text.contains k text) eqn:Hcontains; cbn [List.length].
  - now rewrite IH.
  - apply contains_occurs in Hyes. congruence.
  - apply contains_occurs in Hcontains. contradiction.
  - exact IH.
Qed.

Lemma category_score_hits (text : string) (subcategories : list (string * list string)) :
  category_score text subcategories = category_hits text subcategories.
Proof.
  unfold category_score.
  assert (Hfrom : forall score,
             fold_left (fun score '(_, keywords) => score + keyword_hits text keywords)
                       subcategories score
             = score + category_hits text subcategories).
  { induction subcategories as [|[s kws] subs IH]; intros score;
      cbn [fold_left category_hits fold_right snd]; [lia|].
    rewrite IH, keyword_hits_count. unfold category_hits. lia. }
  now rewrite Hfrom.
Qed.

Lemma no_occurrence_no_match (self : UpworkJobAnalyzer) (text : string) :
  (forall k, k ∈ all_keywords self -> ~ occurs_in k text) ->
  found_skills self text = [].
Proof.
  intros Hnone. destruct (found_skills self text) as [|k found] eqn:Hfound;
    [reflexivity|].
  assert (Hk : k ∈ found_skills self text) by (rewrite Hfound; left).
  apply elem_of_found_skills in Hk as [Hk Hcontains].
  apply contains_occurs in Hcontains. now apply Hnone in Hcontains.
Qed.

(** The classifier in terms of its own score tables. *)
Lemma categorize_job_scores (skills : list string) (title description : string) :
  let text := Text.lower (title +:+ " " +:+ description) in
  exists category subcategory before subcategories after before' keywords after',
    categorize_job __init__ skills (PStr title) (PStr description)
      = Ok (category, subcategory) /\
    skill_keywords __init__ = before ++ (category, subcategories) :: after /\
    Forall (fun c => category_score text (snd c) < category_score text subcategories)
           before /\
    Forall (fun c => category_score text (snd c) <= category_score text subcategories)
           after /\
    subcategories = before' ++ (subcategory, keywords) :: after' /\
    Forall (fun s => keyword_hits text (snd s) < keyword_hits text keywords) before' /\
    Forall (fun s => keyword_hits text (snd s) <= keyword_hits text keywords) after' /\
    (found_skills __init__ text = [] ->
       category = "web_development" /\ subcategory = "frontend").
Proof.
  intros text.
  destruct taxonomy_keys_distinct as [Hnd Hsubs].
  unfold categorize_job. cbn [str_operand mbind result_bind]. fold text.
  rewrite category_scores_scored.
  destruct (max_key_returns (category_score text) (skill_keywords __init__))
    as [c Hc]; [discriminate|].
  rewrite Hc. cbn [mbind result_bind].
  destruct (max_key_first _ _ _ Hnd Hc) as (before & subs & after & Hsplit & Hb & Ha).
  assert (Hidx : dict_index (skill_keywords __init__) c = Ok subs).
  { rewrite Hsplit. apply dict_index_first. rewrite <- Hsplit. exact Hnd. }
  rewrite Hidx. cbn [mbind result_bind].
  assert (Hin : (c, subs) ∈ skill_keywords __init__).
  { rewrite Hsplit. apply elem_of_app. right. left. }
  rewrite Forall_forall in Hsubs. destruct (Hsubs _ Hin) as [Hnd' Hne']. cbn [snd] in *.
  rewrite subcategory_scores_scored.
  destruct (max_key_returns (keyword_hits text) subs Hne') as [sub Hsub].
  rewrite Hsub. cbn [mbind result_bind].
  destruct (max_key_first _ _ _ Hnd' Hsub) as (before' & kws & after' & Hsplit' & Hb' & Ha').
  exists c, sub, before, subs, after, before', kws, after'.
  repeat (split; [assumption || reflexivity|]).
  intros Hnone. apply no_match_no_hits in Hnone.
  assert (Hzero : Forall (fun c => category_score text (snd c) = 0)
                         (skill_keywords __init__)).
  { eapply Forall_impl; [exact Hnone|]. intros; now apply category_score_zero. }
  assert (Hsubs0 : Forall (fun s => keyword_hits text (snd s) = 0) subs).
  { rewrite Forall_forall in Hnone. exact (Hnone _ Hin). }
  assert (before = []) as ->.
  { apply (Forall_lt_self_nil (fun c => category_score text (snd c))
                              (category_score text subs)); [exact Hb|].
    rewrite Hsplit in Hzero. apply Forall_app in Hzero as [Hzb Hzr].
    apply Forall_cons in Hzr as [Hzc _]. cbn [snd] in Hzc. rewrite Hzc. exact Hzb. }
  assert (before' = []) as ->.
  { apply (Forall_lt_self_nil (fun s => keyword_hits text (snd s))
                              (keyword_hits text kws)); [exact Hb'|].
    rewrite Hsplit' in Hsubs0. apply Forall_app in Hsubs0 as [Hzb Hzr].
    apply Forall_cons in Hzr as [Hzc _]. cbn [snd] in Hzc. rewrite Hzc. exact Hzb. }
  cbn in Hsplit. injection Hsplit as <- <- _.
  cbn in Hsplit'. injection Hsplit' as <- _ _.
  split; reflexivity.
Qed.


(** C6: on every title and description [categorize_job] returns a category
    of the taxonomy and a subcategory declared under it.  The hits of a
    subcategory are its keywords that occur as a slice of the lower-cased
    title + " " + description, those of a category the hits of all its
    subcategories.  The category returned is the first one, in declaration
    order, with the most hits (every category declared before it has
    strictly fewer, every one after it at most as many), and the subcategory
    is chosen the same way inside it.  When no keyword of the taxonomy
    occurs the result is the first declared pair, web_development and
    frontend; this is the case for an empty title and description.  Case
    does not matter: the title Flutter Developer with the description
    DART and Kotlin gives mobile_apps and flutter. *)
Theorem categorize_job_first_maximum (skills : list string) (title description : string) :
  let text := Text.lower (title +:+ " " +:+ description) in
  (exists category subcategory before subcategories after before' keywords after',
     categorize_job __init__ skills (PStr title) (PStr description)
       = Ok (category, subcategory) /\
     skill_keywords __init__ = before ++ (category, subcategories) :: after /\
     Forall (fun c => category_hits text (snd c) < category_hits text subcategories)
            before /\
     Forall (fun c => category_hits text (snd c) <= category_hits text subcategories)
            after /\
     subcategories = before' ++ (subcategory, keywords) :: after' /\
     Forall (fun s => keyword_count text (snd s) < keyword_count text keywords) before' /\
     Forall (fun s => keyword_count text (snd s) <= keyword_count text keywords) after' /\
     ((forall k, k ∈ all_keywords __init__ -> ~ occurs_in k text) ->
        category = "web_development" /\ subcategory = "frontend")) /\
  categorize_job __init__ skills (PStr "") (PStr "") = Ok ("web_development", "frontend") /\
  categorize_job __init__ skills (PStr "Flutter Developer") (PStr "DART and Kotlin")
    = Ok ("mobile_apps", "flutter").
Proof.
  intros text. split; [|split; vm_compute; reflexivity].
  destruct (categorize_job_scores skills title description)
    as (c & sub & before & subs & after & before' & kws & after'
        & Hcat & Hsplit & Hb & Ha & Hsplit' & Hb' & Ha' & Hnone).
  fold text in Hb, Ha, Hb', Ha', Hnone.
  exists c, sub, before, subs, after, before', kws, after'.
  split; [exact Hcat|]. split; [exact Hsplit|].
  split.
  { eapply Forall_impl; [exact Hb|]. intros c'. cbn beta.
    now rewrite !category_score_hits. }
  split.
  { eapply Forall_impl; [exact Ha|]. intros c'. cbn beta.
    now rewrite !category_score_hits. }
  split; [exact Hsplit'|].
  split.
  { eapply Forall_impl; [exact Hb'|]. intros s. cbn beta.
    now rewrite !keyword_hits_count. }
  split.
  { eapply Forall_impl; [exact Ha'|]. intros s. cbn beta.
    now rewrite !keyword_hits_count. }
  intros Hno. apply Hnone. now apply no_occurrence_no_match.
Qed.

(** ** Stable descending sort *)

Section SortedDesc.

Context {A : Type} (key : A -> Z).

Lemma insert_desc_perm (x : A) (l : list A) : insert_desc key x l ≡ₚ x :: l.
Proof.
  induction l as [|y l IH]; cbn [insert_desc]; [reflexivity|].
  destruct (key x <? key y); [|reflexivity].
  rewrite IH. apply perm_swap.
Qed.

Lemma sorted_desc_perm (l : list A) : sorted_desc key l ≡ₚ l.
Proof.
  induction l as [|x l IH]; [reflexivity|].
  cbn [sorted_desc fold_right]. rewrite insert_desc_perm.
  now apply perm_skip.
Qed.

Lemma sorted_desc_elem_of (l : list A) (x : A) : x ∈ sorted_desc key l <-> x ∈ l.
Proof. now rewrite sorted_desc_perm. Qed.

(** Among items of equal key the sort keeps the original order. *)
Lemma insert_desc_filter (k : Z) (x : A) (l : list A) :
  List.filter (fun y => key y =? k) (insert_desc key x l) =
  List.filter (fun y => key y =? k) (x :: l).
Proof.
  induction l as [|y l IH]; cbn [insert_desc]; [reflexivity|].
  destruct (Z.ltb_spec (key x) (key y)) as [Hlt|_]; [|reflexivity].
  cbn [List.filter] in *. rewrite IH.
  destruct (Z.eqb_spec (key x) k), (Z.eqb_spec (key y) k); try reflexivity; lia.
Qed.

Lemma sorted_desc_stable (k : Z) (l : list A) :
  List.filter (fun y => key y =? k) (sorted_desc key l) =
  List.filter (fun y => key y =? k) l.
Proof.
  induction l as [|x l IH]; [reflexivity|].
  cbn [sorted_desc fold_right]. rewrite insert_desc_filter.
  cbn [List.filter]. fold (sorted_desc key l). now rewrite IH.
Qed.

(** If the input is ordered by [R], the output is ordered by descending
    key and, among equal keys, by [R]. *)
Lemma insert_desc_sorted (R : A -> A -> Prop) (x : A) (l : list A) :
  StronglySorted (desc_then key R) l ->
  Forall (R x) l ->
  StronglySorted (desc_then key R) (insert_desc key x l).
Proof.
  induction l as [|y l IH]; intros Hl Hx; cbn [insert_desc].
  - repeat constructor.
  - apply StronglySorted_cons in Hl as [Hy Hl].
    apply Forall_cons in Hx as [Hxy Hx].
    destruct (Z.ltb_spec (key x) (key y)) as [Hlt|Hge].
    + apply StronglySorted_cons. split; [|now apply IH].
      rewrite insert_desc_perm. apply Forall_cons. split; [now left|exact Hy].
    + apply StronglySorted_cons. split; [|apply StronglySorted_cons; now split].
      apply Forall_cons. split.
      * unfold desc_then. destruct (Z.eq_dec (key x) (key y)); [right|left]; [now split|lia].
      * rewrite Forall_forall in Hy, Hx. apply Forall_forall. intros z Hz.
        specialize (Hy z Hz). specialize (Hx z Hz). unfold desc_then in *.
        destruct (Z.eq_dec (key x) (key z)); [right; now split|left; lia].
Qed.

Lemma sorted_desc_sorted (R : A -> A -> Prop) (l : list A) :
  StronglySorted R l -> StronglySorted (desc_then key R) (sorted_desc key l).
Proof.
  induction l as [|x l IH]; intros Hl; [constructor|].
  apply StronglySorted_cons in Hl as [Hx Hl].
  cbn [sorted_desc fold_right]. apply insert_desc_sorted; [now apply IH|].
  fold (sorted_desc key l). now rewrite sorted_desc_perm.
Qed.

Lemma StronglySorted_True (l : list A) : StronglySorted (fun _ _ => True) l.
Proof. induction l; constructor; [assumption|]. now apply Forall_forall. Qed.

Lemma sorted_desc_descending (l : list A) :
  StronglySorted (fun a b => key b <= key a) (sorted_desc key l).
Proof.
  pose proof (sorted_desc_sorted _ l (StronglySorted_True l)) as Hs.
  induction Hs as [|a l' _ IH Ha]; constructor; [exact IH|].
  eapply Forall_impl; [exact Ha|]. unfold desc_then. intros b; cbn beta. lia.
Qed.

End SortedDesc.

(** ** Opportunity shortlist *)

Lemma analyze_batch_views `{SetOrder} (self : UpworkJobAnalyzer)
      (job_posts : list (gmap string pyval)) (printed : list log_line)
      (report : AnalysisReport) :
  analyze_batch self job_posts = (printed, Ok report) ->
  processed_jobs report = successes self job_posts /\
  opportunities report = _find_opportunities (processed_jobs report) /\
  top_skills report = _analyze_skills (processed_jobs report).
Proof.
  intros Hrun. apply analyze_batch_ok_inv in Hrun as (_ & _ & Hreport).
  unfold build_analysis in Hreport.
  destruct (_analyze_competition _); cbn in Hreport; [|discriminate].
  injection Hreport as <-. repeat split.
Qed.


(** ** Skill table *)

Lemma dict_get_elem_of {V : Type} (d : list (string * V)) (k : string) (v default : V) :
  NoDup (map fst d) -> (k, v) ∈ d -> dict_get d k default = v.
Proof.
  induction d as [|[k' v'] d IH]; intros Hnd Hin.
  - now apply elem_of_nil in Hin.
  - cbn in Hnd. apply NoDup_cons in Hnd as [Hk' Hnd]. cbn [dict_get].
    apply elem_of_cons in Hin as [[= -> ->]|Hin].
    + now rewrite String.eqb_refl.
    + destruct (String.eqb_spec k' k) as [->|_]; [|now apply IH].
      exfalso. apply Hk'. apply list_elem_of_fmap. now exists (k, v).
Qed.

Lemma dict_incr_present (d : list (string * Z)) (x : string) :
  x ∈ map fst d -> map fst (dict_incr d x) = map fst d.
Proof.
  induction d as [|[k v] d IH]; intros Hin; [now apply elem_of_nil in Hin|].
  cbn [dict_incr]. destruct (String.eqb_spec k x) as [->|Hne]; [reflexivity|].
  cbn [map fst]. f_equal. apply IH.
  cbn in Hin. apply elem_of_cons in Hin as [->|Hin]; [congruence|exact Hin].
Qed.

Lemma dict_incr_absent (d : list (string * Z)) (x : string) :
  x ∉ map fst d -> dict_incr d x = d ++ [(x, 1)].
Proof.
  induction d as [|[k v] d IH]; intros Hout; [reflexivity|].
  cbn in Hout. apply not_elem_of_cons in Hout as [Hne Hout].
  cbn [dict_incr]. destruct (String.eqb_spec k x) as [->|_]; [congruence|].
  cbn [app]. f_equal. now apply IH.
Qed.

Lemma dict_get_incr (d : list (string * Z)) (x k : string) :
  dict_get (dict_incr d x) k 0 = dict_get d k 0 + (if String.eqb x k then 1 else 0).
Proof.
  induction d as [|[k' v] d IH]; cbn [dict_incr dict_get].
  - destruct (String.eqb x k); lia.
  - destruct (String.eqb_spec k' x) as [->|Hne]; cbn [dict_get].
    + destruct (String.eqb x k); lia.
    + destruct (String.eqb_spec k' k) as [->|_]; [|exact IH].
      destruct (String.eqb_spec x k); [congruence|lia].
Qed.

Lemma occurrences_app (k : string) (l l' : list string) :
  occurrences k (l ++ l') = occurrences k l + occurrences k l'.
Proof. induction l as [|x l IH]; cbn [app occurrences]; lia. Qed.

Lemma first_index_app_present (k : string) (l l' : list string) :
  k ∈ l -> first_index k (l ++ l') = first_index k l.
Proof.
  induction l as [|x l IH]; intros Hin; [now apply elem_of_nil in Hin|].
  cbn [app first_index]. destruct (String.eqb_spec x k) as [|Hne]; [reflexivity|].
  f_equal. apply IH. apply elem_of_cons in Hin as [->|Hin]; [congruence|exact Hin].
Qed.

Lemma first_index_app_absent (k : string) (l l' : list string) :
  k ∉ l -> first_index k (l ++ l') = (List.length l + first_index k l')%nat.
Proof.
  induction l as [|x l IH]; intros Hout; [reflexivity|].
  apply not_elem_of_cons in Hout as [Hne Hout].
  cbn [app first_index List.length]. destruct (String.eqb_spec x k); [congruence|].
  now rewrite IH.
Qed.

Lemma first_index_present (k : string) (l : list string) :
  k ∈ l -> (first_index k l < List.length l)%nat.
Proof.
  induction l as [|x l IH]; intros Hin; [now apply elem_of_nil in Hin|].
  cbn [first_index List.length]. destruct (String.eqb_spec x k) as [|Hne]; [lia|].
  apply elem_of_cons in Hin as [->|Hin]; [congruence|]. specialize (IH Hin). lia.
Qed.

Lemma StronglySorted_on_elements {A : Type} (R R' : A -> A -> Prop) (l : list A) :
  (forall a b, a ∈ l -> b ∈ l -> R a b -> R' a b) ->
  StronglySorted R l -> StronglySorted R' l.
Proof.
  intros Himpl Hs. induction Hs as [|a l Hs IH Ha]; [constructor|].
  constructor.
  - apply IH. intros x y Hx Hy. apply Himpl; now right.
  - rewrite Forall_forall in Ha. apply Forall_forall. intros b Hb.
    apply Himpl; [left|now right|now apply Ha].
Qed.

Lemma StronglySorted_by_fst {V : Type} (R : string -> string -> Prop)
      (d : list (string * V)) :
  StronglySorted R (map fst d) ->
  StronglySorted (fun a b => R (fst a) (fst b)) d.
Proof.
  induction d as [|kv d IH]; intros Hs; [constructor|].
  cbn [map] in Hs. apply StronglySorted_cons in Hs as [Hkv Hs].
  constructor; [now apply IH|].
  rewrite Forall_forall in Hkv. apply Forall_forall. intros b Hb.
  apply Hkv. now apply (list_elem_of_fmap_2 fst).
Qed.

Lemma skill_counts_fold (jobs : list JobPost) :
  skill_counts jobs = fold_left dict_incr (encountered jobs) [].
Proof.
  unfold skill_counts, encountered. generalize (@nil (string * Z)).
  induction jobs as [|job jobs IH]; intros d; [reflexivity|].
  cbn [fold_left flat_map]. now rewrite fold_left_app, IH.
Qed.

(** The counter built by the loop: its keys are the distinct skills in the
    order of their first encounter, each with its number of occurrences. *)
Lemma counter_invariant (l : list string) :
  let d := fold_left dict_incr l [] in
  NoDup (map fst d) /\
  (forall k, k ∈ map fst d <-> k ∈ l) /\
  StronglySorted (fun a b => (first_index a l < first_index b l)%nat) (map fst d) /\
  (forall k, dict_get d k 0 = occurrences k l).
Proof.
  induction l as [|x l IH] using rev_ind.
  - cbn. split; [constructor|]. split; [reflexivity|]. split; [constructor|reflexivity].
  - cbv zeta in *. rewrite fold_left_app. cbn [fold_left].
    destruct IH as (Hnd & Hkeys & Hsorted & Hget).
    set (d := fold_left dict_incr l []) in *.
    assert (Hval : forall k, dict_get (dict_incr d x) k 0 = occurrences k (l ++ [x])).
    { intros k. rewrite dict_get_incr, occurrences_app, Hget. cbn [occurrences]. lia. }
    destruct (decide (x ∈ map fst d)) as [Hin|Hout].
    + rewrite (dict_incr_present d x Hin).
      split; [exact Hnd|]. split; [|split; [|exact Hval]].
      * intros k. rewrite Hkeys, elem_of_app, list_elem_of_singleton.
        split; [tauto|]. intros [?| ->]; [assumption|now apply Hkeys].
      * eapply StronglySorted_on_elements; [|exact Hsorted].
        intros a b Ha Hb. apply Hkeys in Ha, Hb.
        now rewrite !first_index_app_present.
    + rewrite (dict_incr_absent d x Hout), map_app. cbn [map fst].
      split; [|split; [|split; [|rewrite <- (dict_incr_absent d x Hout); exact Hval]]].
      * apply NoDup_app. split; [exact Hnd|]. split; [|apply NoDup_singleton].
        intros k Hk ->%list_elem_of_singleton. contradiction.
      * intros k. rewrite !elem_of_app, Hkeys. reflexivity.
      * apply StronglySorted_app_2.
        -- intros a b Ha ->%list_elem_of_singleton. apply Hkeys in Ha.
           rewrite first_index_app_present by exact Ha.
           rewrite first_index_app_absent by (now rewrite <- Hkeys).
           pose proof (first_index_present a l Ha). lia.
        -- eapply StronglySorted_on_elements; [|exact Hsorted].
           intros a b Ha Hb. apply Hkeys in Ha, Hb.
           now rewrite !first_index_app_present.
        -- repeat constructor.
Qed.


(** * Further properties of the analyzer *)

(** ** Substring matching *)

Lemma lower_app (s t : string) :
  Text.lower (s +:+ t) = Text.lower s +:+ Text.lower t.
Proof.
  induction s as [|c s IH]; [reflexivity|].
  change (String (Text.lower_char c) (Text.lower (s +:+ t)) =
          String (Text.lower_char c) (Text.lower s +:+ Text.lower t)).
  now rewrite IH.
Qed.

(** X1: on two strings [extract_skills] returns, without repetition, exactly
    the taxonomy keywords that occur as a slice of the lower-cased
    description + " " + title; when either argument is not a string it
    raises [TypeError]. *)
Theorem extract_skills_spec `{SetOrder} (self : UpworkJobAnalyzer) :
  (forall description title : string,
     exists skills,
       extract_skills self (PStr description) (PStr title) = Ok skills /\
       NoDup skills /\
       forall k, k ∈ skills <->
                 k ∈ all_keywords self /\
                 occurs_in k (Text.lower (description +:+ " " +:+ title))) /\
  (forall description title : pyval,
     is_str description && is_str title = false ->
     extract_skills self description title = Raise TypeError).
Proof.
  split.
  - intros description title. eexists. split; [reflexivity|].
    split; [apply set_to_list_NoDup|].
    intros k. now rewrite set_to_list_elem_of, elem_of_found_skills, contains_occurs.
  - intros description title Hstr. unfold extract_skills.
    destruct description; try reflexivity. destruct title; try reflexivity.
    discriminate Hstr.
Qed.

Lemma extract_skills_spec_witness :
  extract_skills __init__ (PInt 3) (PStr "React") = Raise TypeError.
Proof. apply (proj2 (extract_skills_spec __init__)). reflexivity. Defined.

(** X2: matching ignores case: descriptions and titles that agree once
    lower-cased yield the same skills and the same category and
    subcategory. *)
Theorem matching_ignores_case `{SetOrder} (self : UpworkJobAnalyzer)
        (skills : list string) (description description' title title' : string) :
  Text.lower description = Text.lower description' ->
  Text.lower title = Text.lower title' ->
  extract_skills self (PStr description) (PStr title) =
    extract_skills self (PStr description') (PStr title') /\
  categorize_job self skills (PStr title) (PStr description) =
    categorize_job self skills (PStr title') (PStr description').
Proof.
  intros Hd Ht. unfold extract_skills, categorize_job.
  cbn [str_operand mbind result_bind].
  now rewrite !lower_app, Hd, Ht.
Qed.

Lemma matching_ignores_case_witness :
  extract_skills __init__ (PStr "REACT APP") (PStr "Hiring") =
    extract_skills __init__ (PStr "react app") (PStr "hiring") /\
  categorize_job __init__ [] (PStr "Hiring") (PStr "REACT APP") =
    categorize_job __init__ [] (PStr "hiring") (PStr "react app").
Proof. apply matching_ignores_case; reflexivity. Defined.

(** ** Which records are processed *)

Lemma init_well_formed : well_formed __init__.
Proof.
  destruct taxonomy_keys_distinct as [Hnd Hsubs].
  split; [discriminate|]. split; assumption.
Qed.

Lemma categorize_job_declared (self : UpworkJobAnalyzer) (skills : list string)
      (title description : string) :
  well_formed self ->
  exists category subcategory,
    categorize_job self skills (PStr title) (PStr description)
      = Ok (category, subcategory) /\
    declared_pair self category subcategory.
Proof.
  intros (Hne & Hnd & Hsubs).
  unfold categorize_job. cbn [str_operand mbind result_bind].
  set (text := Text.lower (title +:+ " " +:+ description)).
  rewrite category_scores_scored.
  destruct (max_key_returns (category_score text) (skill_keywords self) Hne) as [c Hc].
  rewrite Hc. cbn [mbind result_bind].
  destruct (max_key_first _ _ _ Hnd Hc) as (before & subs & after & Hsplit & _ & _).
  assert (Hidx : dict_index (skill_keywords self) c = Ok subs).
  { rewrite Hsplit. apply dict_index_first. rewrite <- Hsplit. exact Hnd. }
  rewrite Hidx. cbn [mbind result_bind].
  assert (Hin : (c, subs) ∈ skill_keywords self).
  { rewrite Hsplit. apply elem_of_app. right. left. }
  rewrite Forall_forall in Hsubs. destruct (Hsubs _ Hin) as [Hnd' Hne']. cbn [snd] in *.
  rewrite subcategory_scores_scored.
  destruct (max_key_returns (keyword_hits text) subs Hne') as [sub Hsub].
  rewrite Hsub. cbn [mbind result_bind].
  destruct (max_key_first _ _ _ Hnd' Hsub) as (before' & kws & after' & Hsplit' & _ & _).
  exists c, sub. split; [reflexivity|]. exists subs, kws. split; [exact Hin|].
  rewrite Hsplit'. apply elem_of_app. right. left.
Qed.

Lemma first_range_name (ranges : list (string * (Z * bound))) (amount : Z) :
  first_range ranges amount = "large" \/ first_range ranges amount ∈ map fst ranges.
Proof.
  induction ranges as [|[name range] ranges IH]; cbn [first_range]; [now left|].
  destruct (in_range amount range); cbn [map fst].
  - right. left.
  - destruct IH as [IH|IH]; [now left|right; now right].
Qed.

Lemma extract_budget_cases (self : UpworkJobAnalyzer) (budget_text : pyval) :
  extract_budget self budget_text =
  if negb (truthy budget_text) then Ok "unknown"
  else match budget_text with
       | PStr text => extract_budget self (PStr text)
       | _ => Raise AttributeError
       end.
Proof.
  unfold extract_budget. destruct (negb (truthy budget_text)) eqn:Htruthy; [reflexivity|].
  destruct budget_text; try reflexivity. now rewrite Htruthy.
Qed.

Lemma runs_short_without_numbers (budget_text : string) :
  budget_numbers budget_text = [] -> runs_short budget_text = true.
Proof.
  unfold budget_numbers, runs_short. intros Hnone. apply map_eq_nil in Hnone.
  now rewrite Hnone.
Qed.

(** On a string [extract_budget] returns exactly when the numbers of the
    text are within the limit. *)
Lemma extract_budget_text_is_ok (self : UpworkJobAnalyzer) (budget_text : string) :
  is_ok (extract_budget self (PStr budget_text)) = runs_short budget_text.
Proof.
  rewrite extract_budget_text.
  destruct (budget_numbers budget_text) as [|n ns] eqn:Hnumbers.
  - now rewrite runs_short_without_numbers.
  - now destruct (runs_short budget_text).
Qed.

Lemma over_limit_not_within (budget_text : string) :
  over_limit budget_text <-> ~ within_limit budget_text.
Proof.
  rewrite <- runs_short_within. unfold over_limit. rewrite <- runs_short_false.
  destruct (runs_short budget_text); split; congruence.
Qed.

Lemma extract_budget_accepted (self : UpworkJobAnalyzer) (budget_text : pyval) :
  is_ok (extract_budget self budget_text) = true <-> budget_accepted budget_text.
Proof.
  unfold budget_accepted. rewrite extract_budget_cases.
  destruct (truthy budget_text) eqn:Htruthy; cbn [negb].
  - destruct budget_text as [| | | |text| |];
      try (split; [discriminate|intros [|(text & Htext & _)]; discriminate]).
    rewrite extract_budget_text_is_ok, runs_short_within. split.
    + intros Hlimit. right. now exists text.
    + intros [|(text' & [= <-] & Hlimit)]; [discriminate|exact Hlimit].
  - split; [now left|reflexivity].
Qed.

(** The two ways [extract_budget] raises. *)
Lemma extract_budget_raise_inv (self : UpworkJobAnalyzer) (budget_text : pyval) (e : exn) :
  extract_budget self budget_text = Raise e ->
  (e = AttributeError /\ truthy budget_text = true /\ is_str budget_text = false) \/
  (e = ValueError /\ exists text, budget_text = PStr text /\ over_limit text).
Proof.
  rewrite extract_budget_cases.
  destruct (truthy budget_text); cbn [negb]; [|discriminate].
  destruct budget_text as [| | | |text| |]; try (intros [= <-]; left; now repeat split).
  intros Hraise. right.
  destruct (runs_short text) eqn:Hshort.
  - pose proof (extract_budget_text_is_ok self text) as Hok.
    rewrite Hraise, Hshort in Hok. discriminate Hok.
  - rewrite (extract_budget_long_run _ _ Hshort) in Hraise. injection Hraise as <-.
    split; [reflexivity|]. exists text. split; [reflexivity|].
    now apply runs_short_false.
Qed.

Lemma extract_budget_names (self : UpworkJobAnalyzer) (budget_text : pyval) (tier : string) :
  extract_budget self budget_text = Ok tier ->
  tier = "unknown" \/ tier = "large" \/ tier ∈ map fst (budget_ranges self).
Proof.
  rewrite extract_budget_cases.
  destruct (negb (truthy budget_text)); [intros [= <-]; now left|].
  destruct budget_text; try discriminate. rewrite extract_budget_text.
  destruct (budget_numbers s) as [|n ns]; [intros [= <-]; now left|].
  destruct (runs_short s); [|discriminate].
  intros [= <-]. right. apply first_range_name.
Qed.

Lemma extract_budget_tier (budget_text : pyval) (tier : string) :
  extract_budget __init__ budget_text = Ok tier -> tier ∈ tiers.
Proof.
  intros Htier. unfold tiers.
  destruct (extract_budget_names __init__ _ _ Htier) as [->|[->|Hin]].
  - repeat first [apply list_elem_of_here | apply list_elem_of_further].
  - repeat first [apply list_elem_of_here | apply list_elem_of_further].
  - cbn in Hin.
    repeat (apply elem_of_cons in Hin as [->|Hin];
            [repeat first [apply list_elem_of_here | apply list_elem_of_further]|]).
    now apply elem_of_nil in Hin.
Qed.

(** X6: [extract_budget] accepts any value.  A false one (None, 0, an empty
    string or list) gives unknown.  It raises in two cases only:
    [AttributeError] on a true value that is not a string, and [ValueError]
    on a string with a number of more than 4300 digits, which [int()]
    refuses.  In every other case it returns a tier, which is unknown, large
    or a name of the range table. *)
Theorem extract_budget_any_value (self : UpworkJobAnalyzer) (budget_text : pyval) :
  (truthy budget_text = false -> extract_budget self budget_text = Ok "unknown") /\
  (truthy budget_text = true -> is_str budget_text = false ->
     extract_budget self budget_text = Raise AttributeError) /\
  (forall text, budget_text = PStr text -> over_limit text ->
     extract_budget self budget_text = Raise ValueError) /\
  (forall e, extract_budget self budget_text = Raise e ->
     (e = AttributeError /\ truthy budget_text = true /\ is_str budget_text = false) \/
     (e = ValueError /\ exists text, budget_text = PStr text /\ over_limit text)) /\
  ((exists tier, extract_budget self budget_text = Ok tier) <->
     budget_accepted budget_text) /\
  (forall tier, extract_budget self budget_text = Ok tier ->
     tier = "unknown" \/ tier = "large" \/ tier ∈ map fst (budget_ranges self)) /\
  (forall tier, extract_budget __init__ budget_text = Ok tier -> tier ∈ tiers).
Proof.
  split; [|split; [|split; [|split; [|split; [|split]]]]].
  - rewrite extract_budget_cases. now intros ->.
  - rewrite extract_budget_cases. intros -> Hstr. cbn [negb].
    destruct budget_text; try reflexivity. discriminate Hstr.
  - intros text -> Hover. apply extract_budget_long_run. now apply runs_short_false.
  - apply extract_budget_raise_inv.
  - rewrite <- extract_budget_accepted with (self := self).
    destruct (extract_budget self budget_text) as [tier|e]; cbn [is_ok].
    + split; [reflexivity|]. intros _. now exists tier.
    + split; [intros [tier Htier]; discriminate Htier|discriminate].
  - apply extract_budget_names.
  - apply extract_budget_tier.
Qed.

Lemma extract_budget_any_value_witness :
  extract_budget __init__ PNone = Ok "unknown" /\
  extract_budget __init__ (PInt 500) = Raise AttributeError.
Proof.
  split.
  - apply (proj1 (extract_budget_any_value __init__ PNone)). reflexivity.
  - apply (proj1 (proj2 (extract_budget_any_value __init__ (PInt 500)))); reflexivity.
Defined.

Lemma process_job_post_is_ok `{SetOrder} (self : UpworkJobAnalyzer)
      (job_data : gmap string pyval) :
  well_formed self ->
  is_ok (process_job_post self job_data) =
  is_str (get job_data "description" (PStr "")) &&
  is_str (get job_data "title" (PStr "")) &&
  is_ok (extract_budget self (get job_data "budget" (PStr ""))) &&
  is_ok (int (get job_data "proposals" (PInt 0))) &&
  is_str (get job_data "client_history" (PStr "")).
Proof.
  intros Hwf. unfold process_job_post, extract_skills.
  destruct (get job_data "description" (PStr "")) as [| | | |description| |];
    [reflexivity..|idtac|reflexivity|reflexivity].
  destruct (get job_data "title" (PStr "")) as [| | | |title| |];
    [reflexivity..|idtac|reflexivity|reflexivity].
  cbn [str_operand mbind result_bind is_str andb].
  destruct (categorize_job_declared self
              (set_to_list (found_skills self
                              (Text.lower (description +:+ " " +:+ title))))
              title description Hwf) as (c & sc & -> & _).
  cbn [mbind result_bind].
  destruct (extract_budget self _) as [tier|]; [|reflexivity].
  cbn [mbind result_bind is_ok andb].
  destruct (int _) as [p|]; [|reflexivity].
  cbn [mbind result_bind is_ok andb].
  now destruct (get job_data "client_history" (PStr "")).
Qed.

(** X3: with a well-formed taxonomy, a record is processed without an
    exception exactly when its description and title are strings (or
    absent), its budget is false or a string whose numbers have at most
    4300 digits, its proposals field is accepted by [int()] (or absent) and
    its client_history is a string (or absent). *)
Theorem process_job_post_succeeds_iff `{SetOrder} (self : UpworkJobAnalyzer)
        (job_data : gmap string pyval) :
  well_formed self ->
  (exists job, process_job_post self job_data = Ok job) <->
  is_str (get job_data "description" (PStr "")) = true /\
  is_str (get job_data "title" (PStr "")) = true /\
  budget_accepted (get job_data "budget" (PStr "")) /\
  is_ok (int (get job_data "proposals" (PInt 0))) = true /\
  is_str (get job_data "client_history" (PStr "")) = true.
Proof.
  intros Hwf.
  rewrite <- extract_budget_accepted with (self := self).
  pose proof (process_job_post_is_ok self job_data Hwf) as Hok.
  destruct (process_job_post self job_data) as [job|e]; cbn [is_ok] in Hok.
  - symmetry in Hok. rewrite !andb_true_iff in Hok.
    split; [intros _; tauto|]. intros _. now exists job.
  - split; [intros [job Hjob]; discriminate Hjob|].
    intros (H1 & H2 & H3 & H4 & H5). rewrite H1, H2, H3, H4, H5 in Hok.
    discriminate Hok.
Qed.

Lemma process_job_post_succeeds_iff_witness :
  exists job, process_job_post __init__ sample_record = Ok job.
Proof.
  apply (proj2 (process_job_post_succeeds_iff __init__ sample_record init_well_formed)).
  split; [reflexivity|]. split; [reflexivity|].
  split; [|split; reflexivity].
  right. exists "$500-1000". split; [reflexivity|].
  apply runs_short_within. reflexivity.
Defined.

(** X4: when a record raises, the exception is that of the first offending
    field in the order description/title ([TypeError]), budget
    ([AttributeError] for a true value that is not a string, [ValueError]
    for a string with a number of more than 4300 digits), proposals (the
    exception of [int()]), client_history ([AttributeError]). *)
Theorem process_job_post_first_error `{SetOrder} (self : UpworkJobAnalyzer)
        (job_data : gmap string pyval) (e : exn) :
  well_formed self ->
  process_job_post self job_data = Raise e ->
  if negb (is_str (get job_data "description" (PStr "")) &&
           is_str (get job_data "title" (PStr "")))
  then e = TypeError
  else if truthy (get job_data "budget" (PStr "")) &&
          negb (is_str (get job_data "budget" (PStr "")))
  then e = AttributeError
  else if negb (is_ok (extract_budget self (get job_data "budget" (PStr ""))))
  then e = ValueError /\
       exists text, get job_data "budget" (PStr "") = PStr text /\ over_limit text
  else match int (get job_data "proposals" (PInt 0)) with
       | Raise e' => e = e'
       | Ok _ => e = AttributeError /\
                 is_str (get job_data "client_history" (PStr "")) = false
       end.
Proof.
  intros Hwf. unfold process_job_post, extract_skills.
  destruct (get job_data "description" (PStr "")) as [| | | |description| |];
    [now intros [= <-]..|idtac|now intros [= <-]|now intros [= <-]].
  destruct (get job_data "title" (PStr "")) as [| | | |title| |];
    [now intros [= <-]..|idtac|now intros [= <-]|now intros [= <-]].
  cbn [str_operand mbind result_bind is_str andb negb].
  destruct (categorize_job_declared self
              (set_to_list (found_skills self
                              (Text.lower (description +:+ " " +:+ title))))
              title description Hwf) as (c & sc & -> & _).
  cbn [mbind result_bind].
  destruct (extract_budget self (get job_data "budget" (PStr ""))) as [tier|e0]
    eqn:Hbudget; cbn [mbind result_bind is_ok negb].
  - assert (Hstr : truthy (get job_data "budget" (PStr "")) &&
                   negb (is_str (get job_data "budget" (PStr ""))) = false).
    { rewrite extract_budget_cases in Hbudget.
      destruct (truthy (get job_data "budget" (PStr ""))); [|reflexivity].
      cbn [negb] in Hbudget.
      now destruct (get job_data "budget" (PStr "")). }
    rewrite Hstr.
    destruct (int _) as [p|e']; cbn [mbind result_bind]; [|now intros [= <-]].
    destruct (get job_data "client_history" (PStr "")); try discriminate;
      now intros [= <-].
  - intros [= <-].
    destruct (extract_budget_raise_inv _ _ _ Hbudget)
      as [(-> & -> & ->)|(-> & text & Htext & Hover)]; [reflexivity|].
    rewrite Htext. cbn [is_str negb]. rewrite andb_false_r.
    split; [reflexivity|]. now exists text.
Qed.

Lemma process_job_post_first_error_witness :
  match process_job_post __init__ (<["proposals" := PStr "abc"]> sample_record) with
  | Ok _ => False
  | Raise e => e = ValueError
  end.
Proof.
  destruct (process_job_post __init__ (<["proposals" := PStr "abc"]> sample_record))
    as [job|e] eqn:Hresult.
  - vm_compute in Hresult. discriminate Hresult.
  - pose proof (process_job_post_first_error _ _ _ init_well_formed Hresult) as Hfirst.
    vm_compute in Hfirst. exact Hfirst.
Defined.

Lemma process_job_post_ok_inv `{SetOrder} (self : UpworkJobAnalyzer)
      (job_data : gmap string pyval) (job : JobPost) :
  process_job_post self job_data = Ok job ->
  exists skills c sc t b p d h,
    extract_skills self (get job_data "description" (PStr ""))
                   (get job_data "title" (PStr "")) = Ok skills /\
    categorize_job self skills (get job_data "title" (PStr ""))
                   (get job_data "description" (PStr "")) = Ok (c, sc) /\
    get job_data "title" (PStr "") = PStr t /\
    extract_budget self (get job_data "budget" (PStr "")) = Ok b /\
    int (get job_data "proposals" (PInt 0)) = Ok p /\
    get job_data "description" (PStr "") = PStr d /\
    get job_data "client_history" (PStr "") = PStr h /\
    let job0 :=
      {| job_id := get job_data "id" (PStr ""); title := t; budget := b;
         timeline := get job_data "timeline" (PStr ""); skills_required := skills;
         client_location := get job_data "client_location" (PStr "");
         client_history := h; proposals := p; description := d;
         opportunity_score := 0; category := c; subcategory := sc;
         notes := get job_data "notes" (PStr "") |} in
    job = with_score job0 (calculate_opportunity_score job0).
Proof.
  unfold process_job_post.
  destruct (get job_data "description" (PStr "")) as [| | | |d| |];
    try discriminate.
  destruct (get job_data "title" (PStr "")) as [| | | |t| |]; try discriminate.
  destruct (extract_skills self (PStr d) (PStr t)) as [skills|] eqn:Hskills;
    cbn [mbind result_bind]; [|discriminate].
  destruct (categorize_job self skills (PStr t) (PStr d)) as [[c sc]|] eqn:Hcat;
    cbn [str_operand mbind result_bind]; [|discriminate].
  destruct (extract_budget self (get job_data "budget" (PStr ""))) as [b|] eqn:Hb;
    cbn [mbind result_bind]; [|discriminate].
  destruct (int (get job_data "proposals" (PInt 0))) as [p|] eqn:Hp;
    cbn [mbind result_bind]; [|discriminate].
  destruct (get job_data "client_history" (PStr "")) as [| | | |h| |];
    cbn [str_receiver mbind result_bind]; try discriminate.
  intros [= <-]. exists skills, c, sc, t, b, p, d, h. cbv zeta. repeat split.
  exact Hcat.
Qed.

Lemma score_between_3_and_10 (job : JobPost) :
  3 <= calculate_opportunity_score job <= 10.
Proof.
  pose proof (budget_factor_range job).
  pose proof (competition_factor_range job).
  pose proof (skill_factor_range job).
  pose proof (history_factor_range job).
  unfold calculate_opportunity_score, unclamped_score. lia.
Qed.

(** X5: a job post built from a record echoes the record (title,
    description, client_history and the pass-through fields as given,
    proposals as converted by [int()]), carries one of the five budget
    tiers, a category and subcategory declared in the taxonomy, a
    repetition-free list of taxonomy keywords, and a score that is the one
    [calculate_opportunity_score] gives for the finished job, between 3 and
    10. *)
Theorem processed_job_invariants `{SetOrder} (job_data : gmap string pyval)
        (job : JobPost) :
  process_job_post __init__ job_data = Ok job ->
  get job_data "title" (PStr "") = PStr (title job) /\
  get job_data "description" (PStr "") = PStr (description job) /\
  get job_data "client_history" (PStr "") = PStr (client_history job) /\
  int (get job_data "proposals" (PInt 0)) = Ok (proposals job) /\
  job_id job = get job_data "id" (PStr "") /\
  timeline job = get job_data "timeline" (PStr "") /\
  client_location job = get job_data "client_location" (PStr "") /\
  notes job = get job_data "notes" (PStr "") /\
  budget job ∈ tiers /\
  declared_pair __init__ (category job) (subcategory job) /\
  NoDup (skills_required job) /\
  (forall k, k ∈ skills_required job -> k ∈ all_keywords __init__) /\
  opportunity_score job = calculate_opportunity_score job /\
  3 <= opportunity_score job <= 10.
Proof.
  intros Hjob.
  apply process_job_post_ok_inv in Hjob
    as (skills & c & sc & t & b & p & d & h & Hskills & Hcat & Ht & Hb & Hp & Hd & Hh & ->).
  cbn [with_score title description client_history proposals job_id timeline
       client_location notes budget category subcategory skills_required
       opportunity_score].
  rewrite Ht, Hd in Hskills, Hcat.
  repeat (split; [assumption || reflexivity|]).
  split; [now apply extract_budget_tier in Hb|].
  split.
  { destruct (categorize_job_declared __init__ skills t d init_well_formed)
      as (c' & sc' & Hcat' & Hdecl).
    rewrite Hcat in Hcat'. now injection Hcat' as <- <-. }
  unfold extract_skills in Hskills. cbn [str_operand mbind result_bind] in Hskills.
  injection Hskills as <-.
  split; [apply set_to_list_NoDup|].
  split.
  { intros k Hk. apply set_to_list_elem_of, elem_of_found_skills in Hk. tauto. }
  split; [reflexivity|apply score_between_3_and_10].
Qed.

Lemma processed_job_invariants_witness :
  exists job, process_job_post __init__ sample_record = Ok job /\
              budget job ∈ tiers /\ 3 <= opportunity_score job <= 10.
Proof.
  eexists. split; [apply sample_job|].
  pose proof (processed_job_invariants sample_record _ sample_job) as Hinv.
  split; apply Hinv.
Defined.

(** ** Histograms *)

Lemma fold_left_dict_incr_map {A : Type} (key : A -> string) (items : list A)
      (d : list (string * Z)) :
  fold_left (fun counter item => dict_incr counter (key item)) items d =
  fold_left dict_incr (map key items) d.
Proof.
  revert d. induction items as [|x items IH]; intros d; [reflexivity|].
  cbn [fold_left map]. apply IH.
Qed.

Lemma total_count_incr (d : list (string * Z)) (x : string) :
  total_count (dict_incr d x) = total_count d + 1.
Proof.
  unfold total_count.
  induction d as [|[k v] d IH]; cbn [dict_incr]; [reflexivity|].
  destruct (String.eqb k x); cbn [fold_right snd]; lia.
Qed.

Lemma total_count_fold (l : list string) (d : list (string * Z)) :
  total_count (fold_left dict_incr l d) = total_count d + Z.of_nat (List.length l).
Proof.
  revert d. induction l as [|x l IH]; intros d; cbn [fold_left List.length]; [lia|].
  rewrite IH, total_count_incr. lia.
Qed.

Lemma occurrences_positive (k : string) (l : list string) :
  k ∈ l -> 1 <= occurrences k l.
Proof.
  assert (Hnonneg : forall l', 0 <= occurrences k l').
  { induction l' as [|x l' IH]; cbn [occurrences]; [lia|].
    destruct (String.eqb x k); lia. }
  induction l as [|x l IH]; intros Hin; [now apply elem_of_nil in Hin|].
  cbn [occurrences]. destruct (String.eqb_spec x k) as [|Hne].
  - specialize (Hnonneg l). lia.
  - apply elem_of_cons in Hin as [->|Hin]; [congruence|]. specialize (IH Hin). lia.
Qed.

(** A counter filled by one pass over [keys]. *)
Lemma counter_facts (keys : list string) :
  let d := fold_left dict_incr keys [] in
  NoDup (map fst d) /\
  (forall k, k ∈ map fst d <-> k ∈ keys) /\
  (forall k c, (k, c) ∈ d -> c = occurrences k keys /\ 1 <= c) /\
  StronglySorted (fun a b => (first_index (fst a) keys < first_index (fst b) keys)%nat) d /\
  total_count d = Z.of_nat (List.length keys).
Proof.
  destruct (counter_invariant keys) as (Hnd & Hkeys & Hsorted & Hget).
  cbv zeta in *. split; [exact Hnd|]. split; [exact Hkeys|]. split; [|split].
  - intros k c Hin.
    assert (c = occurrences k keys) as ->.
    { rewrite <- Hget. symmetry. now apply dict_get_elem_of. }
    split; [reflexivity|]. apply occurrences_positive, Hkeys.
    now apply (list_elem_of_fmap_2 fst) in Hin.
  - apply (StronglySorted_by_fst
             (fun a b => (first_index a keys < first_index b keys)%nat)).
    exact Hsorted.
  - rewrite total_count_fold. reflexivity.
Qed.

(** X7: the categories and budgets views are histograms of the processed
    jobs: one entry per distinct key ("category.subcategory", resp. budget
    tier), in order of first appearance, holding the number of jobs with
    that key, at least 1; the counts add up to the number of jobs. *)
Theorem histogram_views (jobs : list JobPost) :
  (NoDup (map fst (_analyze_categories jobs)) /\
   (forall k, k ∈ map fst (_analyze_categories jobs) <-> k ∈ map category_key jobs) /\
   (forall k c, (k, c) ∈ _analyze_categories jobs ->
                c = occurrences k (map category_key jobs) /\ 1 <= c) /\
   StronglySorted (fun a b => (first_index (fst a) (map category_key jobs)
                               < first_index (fst b) (map category_key jobs))%nat)
                  (_analyze_categories jobs) /\
   total_count (_analyze_categories jobs) = Z.of_nat (List.length jobs)) /\
  (NoDup (map fst (_analyze_budgets jobs)) /\
   (forall k, k ∈ map fst (_analyze_budgets jobs) <-> k ∈ map budget jobs) /\
   (forall k c, (k, c) ∈ _analyze_budgets jobs ->
                c = occurrences k (map budget jobs) /\ 1 <= c) /\
   StronglySorted (fun a b => (first_index (fst a) (map budget jobs)
                               < first_index (fst b) (map budget jobs))%nat)
                  (_analyze_budgets jobs) /\
   total_count (_analyze_budgets jobs) = Z.of_nat (List.length jobs)).
Proof.
  split.
  - unfold _analyze_categories.
    rewrite (fold_left_dict_incr_map category_key).
    pose proof (counter_facts (map category_key jobs)) as Hfacts.
    cbv zeta in Hfacts. now rewrite length_map in Hfacts.
  - unfold _analyze_budgets.
    rewrite (fold_left_dict_incr_map budget).
    pose proof (counter_facts (map budget jobs)) as Hfacts.
    cbv zeta in Hfacts. now rewrite length_map in Hfacts.
Qed.

(** ** Reports *)

Lemma bucket_counts_total (threshold : Z) (jobs : list JobPost) :
  10 <= threshold ->
  low (bucket_counts threshold jobs) + medium (bucket_counts threshold jobs)
    + high (bucket_counts threshold jobs) = Z.of_nat (List.length jobs).
Proof.
  intros Hthreshold. cbn [low medium high bucket_counts].
  induction jobs as [|job jobs IH]; [reflexivity|].
  rewrite !count_proposals_cons. cbn [List.length].
  destruct (Z.ltb_spec (proposals job) 10), (Z.leb_spec 10 (proposals job)),
    (Z.ltb_spec (proposals job) threshold), (Z.leb_spec threshold (proposals job));
    cbn [andb]; lia.
Qed.

Lemma successes_failures_length `{SetOrder} (self : UpworkJobAnalyzer)
      (job_posts : list (gmap string pyval)) :
  (List.length (successes self job_posts) + List.length (failures self job_posts)
   = List.length job_posts)%nat.
Proof.
  unfold successes, failures.
  induction job_posts as [|job_data job_posts IH]; [reflexivity|].
  cbn [omap list_omap List.length].
  destruct (process_job_post self job_data); cbn [List.length]; lia.
Qed.

Lemma build_analysis_ok_inv (jobs : list JobPost) (report : AnalysisReport) :
  build_analysis jobs = Ok report ->
  exists view,
    _analyze_competition jobs = Ok view /\
    report = {| total_jobs := Z.of_nat (List.length jobs);
                categories := _analyze_categories jobs;
                budgets := _analyze_budgets jobs;
                competition := view;
                top_skills := _analyze_skills jobs;
                opportunities := _find_opportunities jobs;
                processed_jobs := jobs |}.
Proof.
  unfold build_analysis.
  destruct (_analyze_competition jobs) as [view|]; cbn [mbind result_bind];
    [|discriminate].
  intros [= <-]. now exists view.
Qed.

(** X8: in a report every view accounts for every processed job: total_jobs
    is the length of processed_jobs, the three competition buckets add up
    to it, so do the counts of the categories and of the budgets views, and
    total_jobs plus the number of printed error lines is the number of
    input records. *)
Theorem report_totals `{SetOrder} (self : UpworkJobAnalyzer)
        (job_posts : list (gmap string pyval)) (printed : list log_line)
        (report : AnalysisReport) :
  analyze_batch self job_posts = (printed, Ok report) ->
  total_jobs report = Z.of_nat (List.length (processed_jobs report)) /\
  low (distribution (competition report)) + medium (distribution (competition report))
    + high (distribution (competition report)) = total_jobs report /\
  total_count (categories report) = total_jobs report /\
  total_count (budgets report) = total_jobs report /\
  total_jobs report + Z.of_nat (List.length printed) = Z.of_nat (List.length job_posts).
Proof.
  intros Hrun. apply analyze_batch_ok_inv in Hrun as (_ & -> & Hreport).
  apply build_analysis_ok_inv in Hreport as (view & Hview & ->).
  cbn [total_jobs processed_jobs competition categories budgets].
  rewrite (analyze_competition_distribution _ _ Hview).
  split; [reflexivity|]. split; [apply bucket_counts_total; lia|].
  unfold _analyze_categories, _analyze_budgets.
  rewrite (fold_left_dict_incr_map category_key), (fold_left_dict_incr_map budget).
  rewrite !total_count_fold, !length_map. cbn [total_count fold_right].
  split; [lia|]. split; [lia|].
  pose proof (successes_failures_length self job_posts). lia.
Qed.

Lemma report_totals_witness :
  exists printed report,
    analyze_batch __init__ [sample_record; <["title" := PNone]> sample_record]
      = (printed, Ok report) /\
    total_jobs report + Z.of_nat (List.length printed) = 2.
Proof.
  eexists _, _. split; [vm_compute; reflexivity|].
  apply (report_totals __init__
           [sample_record; <["title" := PNone]> sample_record]).
  vm_compute. reflexivity.
Defined.

Lemma quiet_not_raises `{SetOrder} (self : UpworkJobAnalyzer)
      (job_posts : list (gmap string pyval)) :
  quiet self job_posts <->
  ~ Exists (fun job_data => handler_raises self job_data = true) job_posts.
Proof.
  unfold quiet. rewrite Forall_forall, Exists_exists. split.
  - intros Hquiet (d & Hd & Hraises). rewrite (Hquiet d Hd) in Hraises. discriminate.
  - intros Hnone d Hd. destruct (handler_raises self d) eqn:Hraises; [|reflexivity].
    exfalso. apply Hnone. now exists d.
Qed.

(** The two ways through the loop: undisturbed, or stopped by the handler. *)
Lemma analyze_batch_cases `{SetOrder} (self : UpworkJobAnalyzer)
      (job_posts : list (gmap string pyval)) :
  (quiet self job_posts /\
   analyze_batch self job_posts =
   (failures self job_posts, build_analysis (successes self job_posts))) \/
  (Exists (fun job_data => handler_raises self job_data = true) job_posts /\
   snd (analyze_batch self job_posts) = Raise ValueError).
Proof.
  destruct (quiet_or_stops self job_posts)
    as [Hquiet|(before & job_data & after & -> & Hquiet & Hd)].
  - left. split; [exact Hquiet|now apply analyze_batch_unfold].
  - right. rewrite (analyze_batch_stops _ _ _ _ Hquiet Hd). split; [|reflexivity].
    apply Exists_app. right. now left.
Qed.

Lemma str_raises_scalar (job_data : gmap string pyval) :
  scalar_id job_data = true ->
  str_raises (get job_data "id" (PStr "unknown")) = oversized_id job_data.
Proof.
  unfold scalar_id, oversized_id.
  now destruct (get job_data "id" (PStr "unknown")).
Qed.

Lemma plain_id_printed (job_data : gmap string pyval) :
  plain_id job_data = true -> str_raises (get job_data "id" (PStr "unknown")) = false.
Proof.
  unfold plain_id. intros [Hscalar Hsize]%andb_true_iff.
  rewrite (str_raises_scalar _ Hscalar). now destruct (oversized_id job_data).
Qed.

Lemma oversized_id_raises (job_data : gmap string pyval) :
  oversized_id job_data = true -> str_raises (get job_data "id" (PStr "unknown")) = true.
Proof.
  unfold oversized_id. now destruct (get job_data "id" (PStr "unknown")).
Qed.

Lemma unformattable_record_scalar : scalar_id unformattable_record = true.
Proof.
  unfold scalar_id, unformattable_record. rewrite get_insert_eq. reflexivity.
Qed.

Lemma unformattable_record_oversized : oversized_id unformattable_record = true.
Proof.
  unfold oversized_id, unformattable_record. rewrite get_insert_eq.
  apply Z.leb_le. rewrite Z.abs_eq by (apply Z.pow_nonneg; lia).
  apply Z.pow_le_mono_r; unfold Text.max_str_digits; lia.
Qed.

Lemma unformattable_record_raises :
  process_job_post __init__ unformattable_record = Raise TypeError.
Proof.
  assert (Hd : get unformattable_record "description" (PStr "") = PStr "").
  { unfold unformattable_record. rewrite get_insert_ne by discriminate.
    vm_compute. reflexivity. }
  assert (Ht : get unformattable_record "title" (PStr "") = PNone).
  { unfold unformattable_record. rewrite get_insert_ne by discriminate.
    vm_compute. reflexivity. }
  unfold process_job_post, extract_skills. rewrite Hd, Ht. reflexivity.
Qed.

(** Records that raise only with plain ids never disturb the loop. *)
Lemma plain_ids_quiet `{SetOrder} (self : UpworkJobAnalyzer)
      (job_posts : list (gmap string pyval)) :
  Forall (fun job_data => is_ok (process_job_post self job_data) = false ->
                          plain_id job_data = true) job_posts ->
  quiet self job_posts.
Proof.
  unfold quiet, handler_raises. intros Hall.
  eapply Forall_impl; [exact Hall|]. intros d Hplain. cbn beta in *.
  destruct (is_ok (process_job_post self d)); [reflexivity|]. cbn [negb andb].
  now apply plain_id_printed, Hplain.
Qed.

(** X9: a batch none of whose records is processed (the empty batch in
    particular) still yields a report, the empty one (total_jobs 0, empty
    views, zero buckets and an average of the integer 0), with one line
    printed per record, provided every id is plain: absent, None, a
    boolean, a float, a string or an integer of at most 4300 digits.  The
    first record whose id is an integer of more than 4300 digits stops the
    batch instead: formatting it in the handler raises [ValueError], which
    escapes after the lines of the records before it have been printed. *)
Theorem analyze_batch_all_failed `{SetOrder} (self : UpworkJobAnalyzer)
        (job_posts : list (gmap string pyval)) :
  Forall (fun job_data => is_ok (process_job_post self job_data) = false) job_posts ->
  (Forall (fun job_data => plain_id job_data = true) job_posts ->
     analyze_batch self job_posts = (failures self job_posts, Ok empty_report) /\
     List.length (failures self job_posts) = List.length job_posts) /\
  (forall before job_data after,
     job_posts = before ++ job_data :: after ->
     Forall (fun job_data => plain_id job_data = true) before ->
     oversized_id job_data = true ->
     analyze_batch self job_posts = (failures self before, Raise ValueError) /\
     List.length (failures self before) = List.length before).
Proof.
  intros Hfail.
  assert (Hnone : forall records,
             Forall (fun d => is_ok (process_job_post self d) = false) records ->
             successes self records = [] /\
             List.length (failures self records) = List.length records).
  { intros records Hrecords.
    assert (Hempty : successes self records = []).
    { unfold successes.
      induction Hrecords as [|d records Hd _ IH]; [reflexivity|].
      cbn [omap list_omap]. destruct (process_job_post self d); [discriminate|].
      exact IH. }
    split; [exact Hempty|].
    pose proof (successes_failures_length self records) as Hlen.
    rewrite Hempty in Hlen. exact Hlen. }
  split.
  - intros Hids. destruct (Hnone _ Hfail) as [Hempty Hlen].
    assert (Hquiet : quiet self job_posts).
    { apply plain_ids_quiet. eapply Forall_impl; [exact Hids|]. auto. }
    rewrite (analyze_batch_unfold _ _ Hquiet), Hempty. split; [reflexivity|exact Hlen].
  - intros before d after -> Hids Hd.
    apply Forall_app in Hfail as [Hbefore Hrest].
    apply Forall_cons in Hrest as [Hfails _].
    destruct (Hnone _ Hbefore) as [_ Hlen]. split; [|exact Hlen].
    apply analyze_batch_stops.
    + apply plain_ids_quiet. eapply Forall_impl; [exact Hids|]. auto.
    + unfold handler_raises. now rewrite Hfails, (oversized_id_raises _ Hd).
Qed.

Lemma analyze_batch_all_failed_witness :
  analyze_batch __init__ [] = ([], Ok empty_report) /\
  analyze_batch __init__ [<["description" := PInt 7]> sample_record]
    = ([(PStr "unknown", TypeError)], Ok empty_report) /\
  analyze_batch __init__ [unformattable_record] = ([], Raise ValueError).
Proof.
  split; [|split].
  - apply (analyze_batch_all_failed __init__ []); constructor.
  - destruct (analyze_batch_all_failed __init__
                [<["description" := PInt 7]> sample_record]) as [Hreport _].
    + constructor; [vm_compute; reflexivity|constructor].
    + destruct Hreport as [Hreport _].
      * constructor; [vm_compute; reflexivity|constructor].
      * rewrite Hreport. vm_compute. reflexivity.
  - destruct (analyze_batch_all_failed __init__ [unformattable_record])
      as [_ Hstops].
    + constructor; [now rewrite unformattable_record_raises|constructor].
    + destruct (Hstops [] _ [] eq_refl) as [Hraise _].
      * constructor.
      * exact unformattable_record_oversized.
      * exact Hraise.
Defined.

Lemma loop_from_app `{SetOrder} (self : UpworkJobAnalyzer)
      (first second : list (gmap string pyval)) (state : list JobPost * list log_line) :
  loop_from self state (first ++ second) =
  match loop_from self state first with
  | (state', None) => loop_from self state' second
  | (state', Some e) => (state', Some e)
  end.
Proof.
  revert state. induction first as [|job_data first IH]; intros state; [reflexivity|].
  cbn [app loop_from]. destruct (batch_step self state job_data); [apply IH|reflexivity].
Qed.

Lemma loop_from_shift `{SetOrder} (self : UpworkJobAnalyzer)
      (job_posts : list (gmap string pyval))
      (processed : list JobPost) (printed : list log_line) :
  loop_from self (processed, printed) job_posts =
  let '((processed', printed'), escaped) := batch_loop self job_posts in
  ((processed ++ processed', printed ++ printed'), escaped).
Proof.
  unfold batch_loop.
  destruct (quiet_or_stops self job_posts)
    as [Hquiet|(before & job_data & after & -> & Hquiet & Hd)].
  - now rewrite !(batch_loop_from _ _ _ _ Hquiet).
  - now rewrite !(batch_loop_stops _ _ _ _ _ _ Hquiet Hd).
Qed.

(** X10: the loop treats the records one by one.  When the loop over the
    first part of a batch ends normally, the whole batch keeps the jobs of
    the first part followed by those of the second, prints the lines of the
    first followed by those of the second, and ends as the second part does;
    when the handler raises in the first part, the second part is never
    looked at. *)
Theorem batch_loop_app `{SetOrder} (self : UpworkJobAnalyzer)
        (first second : list (gmap string pyval)) :
  batch_loop self (first ++ second) =
  match batch_loop self first with
  | ((processed, printed), None) =>
      let '((processed', printed'), escaped) := batch_loop self second in
      ((processed ++ processed', printed ++ printed'), escaped)
  | (state, Some e) => (state, Some e)
  end.
Proof.
  unfold batch_loop at 1 2. rewrite loop_from_app.
  destruct (loop_from self ([], []) first) as [[processed printed] [e|]];
    [reflexivity|].
  apply loop_from_shift.
Qed.

Lemma process_job_post_facts `{SetOrder} (job_data : gmap string pyval) (job : JobPost) :
  process_job_post __init__ job_data = Ok job ->
  3 <= opportunity_score job <= 10 /\
  budget job ∈ tiers /\
  declared_pair __init__ (category job) (subcategory job) /\
  (forall k, k ∈ skills_required job -> k ∈ all_keywords __init__).
Proof.
  intros Hjob.
  apply process_job_post_ok_inv in Hjob
    as (skills & c & sc & t & b & p & d & h & Hskills & Hcat & Ht & Hb & Hp & Hd & Hh & ->).
  cbn [with_score budget category subcategory skills_required opportunity_score].
  rewrite Ht, Hd in Hskills, Hcat.
  split; [apply score_between_3_and_10|].
  split; [now apply extract_budget_tier in Hb|].
  split.
  - destruct (categorize_job_declared __init__ skills t d init_well_formed)
      as (c' & sc' & Hcat' & Hdecl).
    rewrite Hcat in Hcat'. now injection Hcat' as <- <-.
  - unfold extract_skills in Hskills. cbn [str_operand mbind result_bind] in Hskills.
    injection Hskills as <-.
    intros k Hk. apply set_to_list_elem_of, elem_of_found_skills in Hk. tauto.
Qed.

Lemma successes_Forall `{SetOrder} (self : UpworkJobAnalyzer) (P : JobPost -> Prop)
      (job_posts : list (gmap string pyval)) :
  (forall job_data job, process_job_post self job_data = Ok job -> P job) ->
  Forall P (successes self job_posts).
Proof.
  intros HP. unfold successes.
  induction job_posts as [|job_data job_posts IH]; [constructor|].
  cbn [omap list_omap].
  destruct (process_job_post self job_data) as [job|] eqn:Hjob; [|exact IH].
  constructor; [now apply (HP job_data)|exact IH].
Qed.

Lemma counter_keys {A : Type} (key : A -> string) (items : list A) (k : string) :
  k ∈ map fst (fold_left (fun counter item => dict_incr counter (key item)) items [])
  <-> exists item, item ∈ items /\ k = key item.
Proof.
  rewrite fold_left_dict_incr_map.
  destruct (counter_invariant (map key items)) as (_ & Hkeys & _).
  cbv zeta in Hkeys. rewrite Hkeys. change (map key items) with (key <$> items).
  rewrite list_elem_of_fmap. split; intros (item & H1 & H2); exists item; tauto.
Qed.

(** X11: everything a report of the shipped analyzer names comes from its
    tables: every processed job has a score between 3 and 10, one of the
    five budget tiers and a declared category and subcategory; every
    opportunity has a score between 7 and 10; every key of top_skills is a
    taxonomy keyword, every key of budgets a tier, and every key of
    categories a declared "category.subcategory". *)
Theorem report_values `{SetOrder} (job_posts : list (gmap string pyval))
        (printed : list log_line) (report : AnalysisReport) :
  analyze_batch __init__ job_posts = (printed, Ok report) ->
  Forall (fun job => 3 <= opportunity_score job <= 10 /\ budget job ∈ tiers /\
                     declared_pair __init__ (category job) (subcategory job))
         (processed_jobs report) /\
  Forall (fun o => 7 <= Opportunity.score o <= 10) (opportunities report) /\
  (forall k, k ∈ map fst (top_skills report) -> k ∈ all_keywords __init__) /\
  (forall k, k ∈ map fst (budgets report) -> k ∈ tiers) /\
  (forall k, k ∈ map fst (categories report) ->
             exists c sc, declared_pair __init__ c sc /\ k = c +:+ "." +:+ sc).
Proof.
  intros Hrun. apply analyze_batch_ok_inv in Hrun as (_ & _ & Hreport).
  apply build_analysis_ok_inv in Hreport as (view & _ & ->).
  cbn [processed_jobs opportunities top_skills budgets categories].
  pose proof (successes_Forall __init__ _ job_posts process_job_post_facts) as Hjobs.
  set (jobs := successes __init__ job_posts) in *.
  rewrite Forall_forall in Hjobs.
  split; [|split; [|split; [|split]]].
  - apply Forall_forall. intros job Hjob. destruct (Hjobs job Hjob) as (? & ? & ? & _).
    auto.
  - apply Forall_forall. intros o Ho. unfold _find_opportunities in Ho.
    apply sorted_desc_elem_of, list_elem_of_fmap in Ho as (job & -> & Hjob).
    apply list_elem_of_In, filter_In in Hjob as [Hjob Hscore].
    apply list_elem_of_In in Hjob. destruct (Hjobs job Hjob) as (Hrange & _).
    cbn [opportunity_of Opportunity.score]. lia.
  - intros k Hk. unfold _analyze_skills in Hk.
    change (k ∈ fst <$> take 10 (sorted_desc snd (skill_counts jobs))) in Hk.
    rewrite fmap_take in Hk. apply (subseteq_take 10) in Hk.
    apply list_elem_of_fmap in Hk as (entry & -> & Hentry).
    apply sorted_desc_elem_of in Hentry. apply (list_elem_of_fmap_2 fst) in Hentry.
    rewrite skill_counts_fold in Hentry.
    destruct (counter_invariant (encountered jobs)) as (_ & Hkeys & _).
    apply Hkeys in Hentry. unfold encountered in Hentry.
    apply elem_of_flat_map in Hentry as (job & Hjob & Hskill).
    destruct (Hjobs job Hjob) as (_ & _ & _ & Hskills). now apply Hskills.
  - intros k Hk. unfold _analyze_budgets in Hk.
    apply counter_keys in Hk as (job & Hjob & ->).
    now destruct (Hjobs job Hjob) as (_ & ? & _).
  - intros k Hk. unfold _analyze_categories in Hk.
    apply counter_keys in Hk as (job & Hjob & ->).
    destruct (Hjobs job Hjob) as (_ & _ & ? & _).
    now exists (category job), (subcategory job).
Qed.

Lemma report_values_witness :
  exists printed report,
    analyze_batch __init__ [sample_record] = (printed, Ok report) /\
    Forall (fun o => 7 <= Opportunity.score o <= 10) (opportunities report).
Proof.
  eexists _, _. split; [vm_compute; reflexivity|].
  apply (report_values [sample_record] []). vm_compute. reflexivity.
Defined.

(** ** Scorer: monotonicity *)

(** X12: the score never rewards more competition and never punishes a
    better budget tier, more matched skills or an established client: if
    job [b] has at most the proposals of job [a], at least its budget bonus,
    at least as many skills and at least its history bonus, then [b] scores
    at least as much as [a].  The budget bonus grows along micro (and any
    other text, unknown included), small, medium, large. *)
Theorem score_monotone (a b : JobPost) :
  proposals b <= proposals a ->
  budget_factor a <= budget_factor b ->
  (List.length (skills_required a) <= List.length (skills_required b))%nat ->
  history_factor a <= history_factor b ->
  calculate_opportunity_score a <= calculate_opportunity_score b.
Proof.
  intros Hproposals Hbudget Hskills Hhistory.
  assert (Hcompetition : competition_factor a <= competition_factor b).
  { unfold competition_factor.
    destruct (Z.ltb_spec (proposals a) 10), (Z.ltb_spec (proposals a) 25),
      (Z.ltb_spec 50 (proposals a)), (Z.ltb_spec (proposals b) 10),
      (Z.ltb_spec (proposals b) 25), (Z.ltb_spec 50 (proposals b)); lia. }
  assert (Hskill : skill_factor a <= skill_factor b).
  { unfold skill_factor. cbv zeta.
    destruct (Z.ltb_spec 0 (Z.of_nat (List.length (skills_required a)))),
      (Z.ltb_spec 0 (Z.of_nat (List.length (skills_required b)))); lia. }
  unfold calculate_opportunity_score, unclamped_score. lia.
Qed.

Lemma score_monotone_witness :
  calculate_opportunity_score
    {| job_id := PNone; title := ""; budget := "small"; timeline := PNone;
       skills_required := []; client_location := PNone; client_history := "";
       proposals := 60; description := ""; opportunity_score := 0;
       category := ""; subcategory := ""; notes := PNone |}
  <= calculate_opportunity_score
       {| job_id := PNone; title := ""; budget := "large"; timeline := PNone;
          skills_required := ["react"]; client_location := PNone;
          client_history := "Established"; proposals := 5; description := "";
          opportunity_score := 0; category := ""; subcategory := "";
          notes := PNone |}.
Proof. apply score_monotone; vm_compute; discriminate || lia. Defined.

(** ** Budget text: separators *)

Lemma remove_char_idempotent (c : ascii) (s : string) :
  Text.remove_char c (Text.remove_char c s) = Text.remove_char c s.
Proof.
  induction s as [|d s IH]; [reflexivity|]. cbn [Text.remove_char].
  destruct (Ascii.eqb d c) eqn:Hd; [exact IH|].
  cbn [Text.remove_char]. now rewrite Hd, IH.
Qed.

(** X13: commas never matter to [extract_budget]: two budget texts that are
    equal once their commas are removed get the same tier; in particular a
    text and the same text without commas. *)
Theorem extract_budget_ignores_commas (self : UpworkJobAnalyzer) :
  (forall text text' : string,
     Text.remove_char "," text = Text.remove_char "," text' ->
     extract_budget self (PStr text) = extract_budget self (PStr text')) /\
  (forall text : string,
     extract_budget self (PStr (Text.remove_char "," text)) =
     extract_budget self (PStr text)).
Proof.
  assert (Hsame : forall text text' : string,
             Text.remove_char "," text = Text.remove_char "," text' ->
             extract_budget self (PStr text) = extract_budget self (PStr text')).
  { intros text text' Hsame. rewrite !extract_budget_text.
    unfold budget_numbers, runs_short. now rewrite Hsame. }
  split; [exact Hsame|].
  intros text. apply Hsame, remove_char_idempotent.
Qed.

Lemma extract_budget_ignores_commas_witness :
  extract_budget __init__ (PStr "$1,500") = extract_budget __init__ (PStr "$1500").
Proof. apply (proj1 (extract_budget_ignores_commas __init__)). reflexivity. Defined.

(** ** The average and its overflow *)

Lemma floor_log2_quotient (n d : Z) :
  0 < n -> 0 < d ->
  let k := Z.log2 n - Z.log2 d in
  let e := if quotient_at_least_pow2 n d k then k else k - 1 in
  (0 <= e -> d * 2 ^ e <= n < d * 2 ^ (e + 1)) /\ (e < 0 -> n < d).
Proof.
  intros Hn Hd k e.
  destruct (Z.log2_spec n Hn) as [Hn1 Hn2]. destruct (Z.log2_spec d Hd) as [Hd1 Hd2].
  pose proof (Z.log2_nonneg n) as Hln. pose proof (Z.log2_nonneg d) as Hld.
  set (ln := Z.log2 n) in *. set (ld := Z.log2 d) in *.
  rewrite <- Z.add_1_r in Hn2, Hd2.
  unfold e, quotient_at_least_pow2. clear e.
  destruct (Z.leb_spec 0 k) as [Hk|Hk].
  - assert (Hpk : 0 < 2 ^ k) by (apply Z.pow_pos_nonneg; lia).
    assert (Hpld : 0 < 2 ^ ld) by (apply Z.pow_pos_nonneg; lia).
    destruct (Z.leb_spec (d * 2 ^ k) n) as [Hq|Hq].
    + split; [|lia]. intros _. split; [exact Hq|].
      replace (ln + 1) with (k + 1 + ld) in Hn2 by (unfold k; lia).
      rewrite Z.pow_add_r in Hn2 by lia.
      assert (0 < 2 ^ (k + 1)) by (apply Z.pow_pos_nonneg; lia). nia.
    + split.
      * intros He. replace (k - 1 + 1) with k by lia. split; [|exact Hq].
        assert (Hp : 0 < 2 ^ (k - 1)) by (apply Z.pow_pos_nonneg; lia).
        replace ln with (ld + 1 + (k - 1)) in Hn1 by (unfold k; lia).
        rewrite Z.pow_add_r in Hn1 by lia. nia.
      * intros He. assert (k = 0) as Hk0 by lia. rewrite Hk0 in Hq.
        change (2 ^ 0) with 1 in Hq. lia.
  - assert (Hlt : n < d).
    { assert (2 ^ (ln + 1) <= 2 ^ ld) by (apply Z.pow_le_mono_r; unfold k in Hk; lia).
      lia. }
    destruct (d <=? n * 2 ^ (- k)); split; lia.
Qed.

Lemma rounded_between (q r den : Z) :
  let m := if 2 * r <? den then q
           else if den <? 2 * r then q + 1
           else if Z.even q then q else q + 1 in
  q <= m <= q + 1.
Proof.
  cbv zeta. destruct (2 * r <? den), (den <? 2 * r), (Z.even q); lia.
Qed.

Lemma true_divide_overflow_iff (a b : Z) :
  0 < b ->
  true_divide a b = Raise OverflowError <-> (2 ^ 1024 - 2 ^ 970) * b <= Z.abs a.
Proof.
  intros Hb.
  (* the constants of the format, and what is used of them *)
  assert (K1 : 2 ^ 1024 = 2 ^ 53 * 2 ^ 971) by (vm_compute; reflexivity).
  assert (K2 : 2 ^ 971 = 2 * 2 ^ 970) by (vm_compute; reflexivity).
  assert (K3 : 2 ^ 53 = 2 * 2 ^ 52) by (vm_compute; reflexivity).
  assert (K4 : 0 < 2 ^ 52) by (vm_compute; reflexivity).
  assert (K5 : 0 < 2 ^ 970) by (vm_compute; reflexivity).
  assert (K6 : 2 ^ 1024 = 2 * 2 ^ 1023) by (vm_compute; reflexivity).
  assert (K7 : 2 ^ 970 < 2 ^ 1023) by (vm_compute; reflexivity).
  assert (K8 : 2 ^ 52 <= 2 ^ 1023) by (vm_compute; discriminate).
  assert (Hodd : Z.even (2 ^ 53 - 1) = false) by (vm_compute; reflexivity).
  assert (M1 : forall x, x < 1023 -> 2 ^ (x + 1) <= 2 ^ 1023)
    by (intros; apply Z.pow_le_mono_r; lia).
  assert (M2 : forall x, 1024 <= x -> 2 ^ 1024 <= 2 ^ x)
    by (intros; apply Z.pow_le_mono_r; lia).
  assert (M3 : forall x, 0 <= x < 52 -> 2 ^ (x + 1) <= 2 ^ 52)
    by (intros; apply Z.pow_le_mono_r; lia).
  assert (M4 : forall x s, 0 <= s -> s = x - 52 ->
                 2 ^ x = 2 ^ 52 * 2 ^ s /\ 2 ^ (x + 1) = 2 ^ 53 * 2 ^ s).
  { intros x s Hs ->. rewrite <- !Z.pow_add_r by lia. split; f_equal; lia. }
  assert (M5 : forall s, s = 1023 - 52 -> 2 ^ s = 2 ^ 971) by (now intros s ->).
  unfold true_divide.
  destruct (Z.eqb_spec b 0) as [|_]; [lia|].
  set (c52 := 2 ^ 52) in *. set (c53 := 2 ^ 53) in *. set (c970 := 2 ^ 970) in *.
  set (c971 := 2 ^ 971) in *. set (c1023 := 2 ^ 1023) in *.
  set (c1024 := 2 ^ 1024) in *.
  clearbody c52 c53 c970 c971 c1023 c1024.
  destruct (Z.eqb_spec a 0) as [->|Ha].
  { split; [discriminate|]. cbn [Z.abs]. intros Hge. exfalso.
    assert (0 < (c1024 - c970) * b) by (apply Z.mul_pos_pos; lia). lia. }
  cbv zeta.
  set (n := Z.abs a). set (d := Z.abs b).
  assert (Hn : 0 < n) by (unfold n; lia).
  assert (Hd : d = b) by (unfold d; lia).
  pose proof (floor_log2_quotient n d Hn ltac:(lia)) as Hfloor. cbv zeta in Hfloor.
  set (k := Z.log2 n - Z.log2 d) in *.
  set (e := if quotient_at_least_pow2 n d k then k else k - 1) in *.
  clearbody n d e. subst d. clear k.
  destruct Hfloor as [Hpos Hneg].
  assert (Hthr : forall x, x < b * c1023 -> x < (c1024 - c970) * b).
  { intros x Hx. assert (b * c970 < b * c1023) by (apply Z.mul_lt_mono_pos_l; lia).
    rewrite K6. lia. }
  set (shift := Z.max (e - 52) (-1074)).
  destruct (Z.leb_spec 0 shift) as [Hs|Hs]; cbv iota.
  2: { cbn [andb]. split; [discriminate|]. intros Hge. exfalso.
       assert (He : e < 52) by (unfold shift in Hs; lia).
       assert (Hlt : n < b * c52).
       { destruct (Z_lt_le_dec e 0) as [He0|He0].
         - specialize (Hneg He0).
           assert (b * 1 <= b * c52) by (apply Z.mul_le_mono_nonneg_l; lia). lia.
         - destruct (Hpos He0) as [_ Hhi]. specialize (M3 e ltac:(lia)).
           assert (b * 2 ^ (e + 1) <= b * c52) by (apply Z.mul_le_mono_nonneg_l; lia).
           lia. }
       assert (b * c52 <= b * c1023) by (apply Z.mul_le_mono_nonneg_l; lia).
       specialize (Hthr n ltac:(lia)). lia. }
  assert (He : 52 <= e) by (unfold shift in Hs; lia).
  assert (Hshift : shift = e - 52) by (unfold shift; lia).
  clearbody shift.
  destruct (Hpos ltac:(lia)) as [Hlo Hhi]. clear Hpos Hneg.
  destruct (M4 e shift Hs Hshift) as [HE HE1].
  assert (HS : 0 < 2 ^ shift) by (apply Z.pow_pos_nonneg; lia).
  set (S := 2 ^ shift) in *.
  assert (HS971 : e = 1023 -> S = c971) by (intros; unfold S; apply M5; lia).
  clearbody S.
  set (den := b * S).
  assert (Hden_eq : den = b * S) by reflexivity.
  assert (Hden : 0 < den) by (apply Z.mul_pos_pos; lia).
  assert (Hlo' : den * c52 <= n).
  { replace (den * c52) with (b * (c52 * S)) by (rewrite Hden_eq; ring).
    now rewrite <- HE. }
  assert (Hhi' : n < den * c53).
  { replace (den * c53) with (b * (c53 * S)) by (rewrite Hden_eq; ring).
    now rewrite <- HE1. }
  pose proof (Z.div_mod n den ltac:(lia)) as Hdiv.
  pose proof (Z.mod_pos_bound n den Hden) as Hr.
  assert (Hq : c52 <= n / den < c53).
  { split; [now apply Z.div_le_lower_bound|now apply Z.div_lt_upper_bound]. }
  set (q := n / den) in *. set (r := n mod den) in *.
  pose proof (rounded_between q r den) as Hm. cbv zeta in Hm.
  assert (Hup : den <= 2 * r -> Z.even q = false ->
                (if 2 * r <? den then q
                 else if den <? 2 * r then q + 1
                 else if Z.even q then q else q + 1) = q + 1).
  { intros Hhalf ->. destruct (Z.ltb_spec (2 * r) den); [lia|].
    now destruct (den <? 2 * r). }
  assert (Hdown : 2 * r < den ->
                  (if 2 * r <? den then q
                   else if den <? 2 * r then q + 1
                   else if Z.even q then q else q + 1) = q).
  { intros Hhalf. destruct (Z.ltb_spec (2 * r) den); [reflexivity|lia]. }
  set (m := if 2 * r <? den then q
            else if den <? 2 * r then q + 1
            else if Z.even q then q else q + 1) in *.
  clearbody m q r den.
  assert (HmS : q * S <= m * S <= c53 * S).
  { split; apply Z.mul_le_mono_nonneg_r; lia. }
  destruct (Z_lt_le_dec e 1023) as [Hsmall|Hlarge].
  { (* the quotient is below 2^1023: no overflow *)
    specialize (M1 e Hsmall).
    assert (Hno : m * S < c1024) by lia.
    destruct (Z.leb_spec c1024 (m * S)) as [|_]; [lia|]. cbn [andb].
    split; [discriminate|]. intros Hge. exfalso.
    assert (b * 2 ^ (e + 1) <= b * c1023) by (apply Z.mul_le_mono_nonneg_l; lia).
    specialize (Hthr n ltac:(lia)). lia. }
  destruct (Z.eq_dec e 1023) as [He1023|Hne].
  2: { (* the quotient is at least 2^1024: overflow *)
    specialize (M2 e ltac:(lia)).
    assert (c52 * S <= q * S) by (apply Z.mul_le_mono_nonneg_r; lia).
    destruct (Z.leb_spec c1024 (m * S)) as [_|]; [|lia]. cbn [andb].
    split; [intros _|reflexivity].
    assert (b * c1024 <= b * 2 ^ e) by (apply Z.mul_le_mono_nonneg_l; lia).
    assert (0 <= c970 * b) by (apply Z.mul_nonneg_nonneg; lia). lia. }
  (* the quotient is in [2^1023, 2^1024): the rounding decides *)
  specialize (HS971 He1023). subst S.
  assert (Hkey : 2 * ((c1024 - c970) * b) = den * (2 * c53 - 1)).
  { rewrite Hden_eq, K1, K2. ring. }
  assert (Hn2 : 2 * n = 2 * (den * q) + 2 * r) by lia.
  destruct (Z.leb_spec c1024 (m * c971)) as [Hov|Hno]; cbn [andb].
  - split; [intros _|reflexivity].
    assert (Hm53 : c53 <= m).
    { apply (Z.mul_le_mono_pos_r _ _ c971); [lia|]. rewrite <- K1. exact Hov. }
    assert (Hq53 : q = c53 - 1) by lia.
    assert (Hhalf : den <= 2 * r).
    { destruct (Z_lt_le_dec (2 * r) den) as [Hlt|Hle]; [|exact Hle].
      specialize (Hdown Hlt). lia. }
    assert (den * q = den * c53 - den) by (rewrite Hq53; ring).
    assert (den * (2 * c53 - 1) = 2 * (den * c53) - den) by ring.
    lia.
  - split; [discriminate|]. intros Hge. exfalso.
    assert (Hm53 : m < c53).
    { apply (Z.mul_lt_mono_pos_r c971); [lia|]. rewrite <- K1. exact Hno. }
    assert (Hbig : den * (2 * c53 - 1) < den * (2 * q + 2)).
    { replace (den * (2 * q + 2)) with (2 * (den * q) + 2 * den) by ring. lia. }
    apply Z.mul_lt_mono_pos_l in Hbig; [|exact Hden].
    assert (Hq53 : q = c53 - 1) by lia.
    assert (den * q = den * c53 - den) by (rewrite Hq53; ring).
    assert (den * (2 * c53 - 1) = 2 * (den * c53) - den) by ring.
    assert (Hhalf : den <= 2 * r) by lia.
    rewrite Hq53 in Hup. specialize (Hup Hhalf Hodd). lia.
Qed.



Lemma quiet_filter_ok `{SetOrder} (self : UpworkJobAnalyzer)
      (job_posts : list (gmap string pyval)) :
  quiet self (List.filter (fun d => is_ok (process_job_post self d)) job_posts).
Proof.
  unfold quiet. apply Forall_forall. intros d Hd.
  apply list_elem_of_In, filter_In in Hd as [_ Hok].
  unfold handler_raises. now rewrite Hok.
Qed.

Lemma successes_filter_ok `{SetOrder} (self : UpworkJobAnalyzer)
      (job_posts : list (gmap string pyval)) :
  successes self (List.filter (fun d => is_ok (process_job_post self d)) job_posts)
    = successes self job_posts /\
  failures self (List.filter (fun d => is_ok (process_job_post self d)) job_posts) = [].
Proof.
  unfold successes, failures.
  induction job_posts as [|job_data job_posts [IHs IHf]]; [split; reflexivity|].
  cbn [List.filter].
  destruct (process_job_post self job_data) as [job|e] eqn:Hjob; cbn [is_ok].
  - cbn [omap list_omap]. rewrite Hjob, IHs, IHf. split; reflexivity.
  - cbn [omap list_omap]. rewrite Hjob. split; assumption.
Qed.

(** X15: a record that raises and has a plain id (absent, None, a boolean,
    a float, a string or an integer of at most 4300 digits) leaves no trace
    in the result: when every record that raises is such, the outcome of
    the batch (its report, or the escaping exception) is that of the batch
    with the raising records taken out, for which nothing is printed. *)
Theorem failed_records_leave_no_trace `{SetOrder} (self : UpworkJobAnalyzer)
        (job_posts : list (gmap string pyval)) :
  Forall (fun job_data => is_ok (process_job_post self job_data) = false ->
                          plain_id job_data = true) job_posts ->
  analyze_batch self
    (List.filter (fun d => is_ok (process_job_post self d)) job_posts)
  = ([], snd (analyze_batch self job_posts)).
Proof.
  intros Hplain. apply plain_ids_quiet in Hplain as Hquiet.
  rewrite (analyze_batch_unfold _ _ Hquiet).
  rewrite (analyze_batch_unfold _ _ (quiet_filter_ok self job_posts)). cbn [snd].
  destruct (successes_filter_ok self job_posts) as [-> ->]. reflexivity.
Qed.

Lemma failed_records_leave_no_trace_witness :
  analyze_batch __init__
    (List.filter (fun d => is_ok (process_job_post __init__ d))
                 [sample_record; <["title" := PNone]> sample_record])
  = ([], snd (analyze_batch __init__
                [sample_record; <["title" := PNone]> sample_record])).
Proof.
  apply (failed_records_leave_no_trace __init__
           [sample_record; <["title" := PNone]> sample_record]).
  constructor; [intros _; vm_compute; reflexivity|].
  constructor; [intros _; vm_compute; reflexivity|constructor].
Defined.

(** ** Order of the records *)

Lemma occurrences_perm (k : string) (l l' : list string) :
  l ≡ₚ l' -> occurrences k l = occurrences k l'.
Proof.
  induction 1 as [|x l l' _ IH|x y l|l l' l'' _ IH1 _ IH2]; cbn [occurrences];
    [reflexivity|lia|lia|congruence].
Qed.

Lemma count_proposals_perm (p : Z -> bool) (jobs jobs' : list JobPost) :
  jobs ≡ₚ jobs' -> count_proposals p jobs = count_proposals p jobs'.
Proof.
  induction 1 as [|x l l' _ IH|x y l|l l' l'' _ IH1 _ IH2];
    rewrite ?count_proposals_cons; [reflexivity|lia|lia|congruence].
Qed.

Lemma sum_proposals_perm (jobs jobs' : list JobPost) :
  jobs ≡ₚ jobs' -> sum_proposals jobs = sum_proposals jobs'.
Proof.
  unfold sum_proposals.
  induction 1 as [|x l l' _ IH|x y l|l l' l'' _ IH1 _ IH2]; cbn [fold_right];
    [reflexivity|lia|lia|congruence].
Qed.

Lemma counter_get_perm (keys keys' : list string) (k : string) :
  keys ≡ₚ keys' ->
  dict_get (fold_left dict_incr keys []) k 0 = dict_get (fold_left dict_incr keys' []) k 0.
Proof.
  intros Hperm.
  destruct (counter_invariant keys) as (_ & _ & _ & Hget).
  destruct (counter_invariant keys') as (_ & _ & _ & Hget').
  cbv zeta in *. rewrite Hget, Hget'. now apply occurrences_perm.
Qed.

Lemma sorted_desc_keys_perm {A : Type} (key : A -> Z) (l l' : list A) :
  l ≡ₚ l' -> map key (sorted_desc key l) = map key (sorted_desc key l').
Proof.
  intros Hperm.
  assert (Hanti : AntiSymm (@eq Z) (fun a b : Z => b <= a)) by (intros a b; lia).
  apply (StronglySorted_unique (fun a b : Z => b <= a)).
  - apply (StronglySorted_fmap key (fun a b => key b <= key a) (fun a b : Z => b <= a));
      [auto|apply sorted_desc_descending].
  - apply (StronglySorted_fmap key (fun a b => key b <= key a) (fun a b : Z => b <= a));
      [auto|apply sorted_desc_descending].
  - apply Permutation_map. now rewrite !sorted_desc_perm.
Qed.

(** X16: the counts of a report do not depend on the order of the jobs: two
    lists of jobs that are permutations of each other have the same
    competition view (buckets and average), the same count under every key
    of the categories, budgets and skills counters, and shortlists with the
    same jobs and the same sequence of scores. *)
Theorem counts_ignore_order (jobs jobs' : list JobPost) :
  jobs ≡ₚ jobs' ->
  _analyze_competition jobs = _analyze_competition jobs' /\
  (forall k, dict_get (_analyze_categories jobs) k 0
             = dict_get (_analyze_categories jobs') k 0) /\
  (forall k, dict_get (_analyze_budgets jobs) k 0
             = dict_get (_analyze_budgets jobs') k 0) /\
  (forall k, dict_get (skill_counts jobs) k 0 = dict_get (skill_counts jobs') k 0) /\
  _find_opportunities jobs ≡ₚ _find_opportunities jobs' /\
  map Opportunity.score (_find_opportunities jobs)
    = map Opportunity.score (_find_opportunities jobs').
Proof.
  intros Hperm.
  assert (Hselected :
            map opportunity_of (List.filter (fun job => 7 <=? opportunity_score job) jobs)
            ≡ₚ map opportunity_of
                 (List.filter (fun job => 7 <=? opportunity_score job) jobs')).
  { apply Permutation_map.
    clear -Hperm.
    induction Hperm as [|x l l' _ IH|x y l|l l' l'' _ IH1 _ IH2]; cbn [List.filter].
    - reflexivity.
    - destruct (7 <=? opportunity_score x); [now apply perm_skip|exact IH].
    - destruct (7 <=? opportunity_score x), (7 <=? opportunity_score y);
        try reflexivity. apply perm_swap.
    - now transitivity (List.filter (fun job => 7 <=? opportunity_score job) l'). }
  split; [|split; [|split; [|split; [|split]]]].
  - unfold _analyze_competition. rewrite !competition_loop_counts.
    unfold bucket_counts.
    rewrite !(count_proposals_perm _ _ _ Hperm), (sum_proposals_perm _ _ Hperm).
    pose proof (Permutation_length Hperm) as Hlen.
    destruct jobs as [|job rest], jobs' as [|job' rest']; try discriminate Hlen;
      [reflexivity|]. now rewrite Hlen.
  - intros k. unfold _analyze_categories.
    rewrite !(fold_left_dict_incr_map category_key).
    apply counter_get_perm. now apply Permutation_map.
  - intros k. unfold _analyze_budgets.
    rewrite !(fold_left_dict_incr_map budget).
    apply counter_get_perm. now apply Permutation_map.
  - intros k. rewrite !skill_counts_fold. apply counter_get_perm.
    unfold encountered. now apply Permutation_flat_map.
  - unfold _find_opportunities. now rewrite !sorted_desc_perm.
  - unfold _find_opportunities. now apply sorted_desc_keys_perm.
Qed.

Lemma counts_ignore_order_witness :
  _analyze_competition
    [with_score sample_scored 9; with_score sample_scored 3]
  = _analyze_competition
      [with_score sample_scored 3; with_score sample_scored 9].
Proof.
  apply (counts_ignore_order
           [with_score sample_scored 9; with_score sample_scored 3]
           [with_score sample_scored 3; with_score sample_scored 9]).
  apply perm_swap.
Defined.

(** ** Skill counts and jobs *)

Lemma occurrences_absent (k : string) (l : list string) :
  k ∉ l -> occurrences k l = 0.
Proof.
  induction l as [|x l IH]; intros Hout; [reflexivity|].
  apply not_elem_of_cons in Hout as [Hne Hout]. cbn [occurrences].
  destruct (String.eqb_spec x k); [congruence|]. rewrite IH by exact Hout. lia.
Qed.

Lemma occurrences_NoDup (k : string) (l : list string) :
  NoDup l -> occurrences k l = if bool_decide (k ∈ l) then 1 else 0.
Proof.
  induction 1 as [|x l Hx Hl IH]; [reflexivity|]. cbn [occurrences].
  destruct (String.eqb_spec x k) as [->|Hne].
  - rewrite (occurrences_absent k l Hx).
    rewrite bool_decide_eq_true_2 by left. lia.
  - rewrite IH. destruct (decide (k ∈ l)) as [Hin|Hout].
    + rewrite !bool_decide_eq_true_2; [lia|now right|exact Hin].
    + rewrite !bool_decide_eq_false_2; [lia| |exact Hout].
      intros [->|Hin]%elem_of_cons; [congruence|contradiction].
Qed.

Lemma occurrences_encountered (k : string) (jobs : list JobPost) :
  Forall (fun job => NoDup (skills_required job)) jobs ->
  occurrences k (encountered jobs) = jobs_requiring k jobs.
Proof.
  unfold encountered, jobs_requiring.
  induction 1 as [|job jobs Hjob _ IH]; [reflexivity|].
  cbn [flat_map List.filter]. rewrite occurrences_app, IH, (occurrences_NoDup _ _ Hjob).
  destruct (bool_decide (k ∈ skills_required job)); cbn [List.length]; lia.
Qed.

Lemma process_job_post_skills_NoDup `{SetOrder} (self : UpworkJobAnalyzer)
      (job_data : gmap string pyval) (job : JobPost) :
  process_job_post self job_data = Ok job -> NoDup (skills_required job).
Proof.
  intros Hjob.
  apply process_job_post_ok_inv in Hjob
    as (skills & c & sc & t & b & p & d & h & Hskills & _ & Ht & _ & _ & Hd & _ & ->).
  cbn [with_score skills_required]. rewrite Ht, Hd in Hskills.
  unfold extract_skills in Hskills. cbn [str_operand mbind result_bind] in Hskills.
  injection Hskills as <-. apply set_to_list_NoDup.
Qed.

(** X17: since a job lists each skill at most once, the count that
    top_skills reports for a skill is the number of processed jobs listing
    it: at least 1 and at most total_jobs. *)
Theorem top_skills_count_jobs `{SetOrder} (self : UpworkJobAnalyzer)
        (job_posts : list (gmap string pyval)) (printed : list log_line)
        (report : AnalysisReport) (k : string) (c : Z) :
  analyze_batch self job_posts = (printed, Ok report) ->
  (k, c) ∈ top_skills report ->
  c = jobs_requiring k (processed_jobs report) /\ 1 <= c <= total_jobs report.
Proof.
  intros Hrun Hin. apply analyze_batch_ok_inv in Hrun as (_ & _ & Hreport).
  apply build_analysis_ok_inv in Hreport as (view & _ & ->).
  cbn [top_skills processed_jobs total_jobs] in *.
  set (jobs := successes self job_posts) in *.
  assert (Hnodup : Forall (fun job => NoDup (skills_required job)) jobs)
    by (apply successes_Forall, process_job_post_skills_NoDup).
  unfold _analyze_skills in Hin. apply (subseteq_take 10), sorted_desc_elem_of in Hin.
  rewrite skill_counts_fold in Hin.
  destruct (counter_facts (encountered jobs)) as (_ & _ & Hcount & _).
  destruct (Hcount k c Hin) as [-> Hpos].
  rewrite (occurrences_encountered k jobs Hnodup) in *.
  split; [reflexivity|]. split; [exact Hpos|].
  unfold jobs_requiring. apply inj_le, filter_length_le.
Qed.

Lemma top_skills_count_jobs_witness :
  exists printed report,
    analyze_batch __init__ [sample_record] = (printed, Ok report) /\
    1 <= 1 <= total_jobs report.
Proof.
  eexists _, _. split; [vm_compute; reflexivity|].
  apply (top_skills_count_jobs __init__ [sample_record] [] _ "react" 1).
  - vm_compute. reflexivity.
  - cbn [top_skills]. left.
Defined.
